(** * Verification of the generate / validate / repair loop of [xgroq_python.py]

    The development embeds the response sanitiser ([generate_code], source
    lines 65-125), the candidate runner ([test_code], lines 127-162) and the
    refinement loop (lines 169-213) and proves the properties stated for
    them. It also embeds the loop that reads the configuration file (lines
    42-48), the base name of the archives (line 56) and the reading of the
    prompt file (lines 165-166).

    - Python [str] values are sequences of Unicode code points; they are
      lists of code points here, so that the line-break and white-space
      classes of [str.splitlines] and [str.strip] are the real ones.
    - Python integers are [Z]. Durations are finite floats, hence rationals:
      they are [Q], compared exactly; the float sum is a parameter
      ([float_add]), so that nothing proved depends on its rounding.
    - The script runs in a state monad over a world made of the file store
      and a log of the calls to the collaborators and of the two budget
      tests of the loop. The log is not in the script: it records what the
      script does, in order, so that "how many calls" and "in which order"
      can be stated.
    - The file store is an ideal one: a finite map from path texts to the
      characters of the files. A path text names one file (no links, no two
      spellings of one file), opening a file for writing does not fail, and
      the only failures are those of a missing file and of a copy onto
      itself. Files are read in text mode, with universal newlines.
    - The generation service and the interpreter are parameters: they
      always answer. The interpreter sees the text that the script file
      holds when the subprocess starts, and does not touch the file store.
      What is proved of the contents of files holds under these
      assumptions.
    - Console output is not modelled, nor is the conversion of the
      configuration values by [int], [float] and [lower] (lines 51-60): the
      configuration record holds the converted values. *)

From Stdlib Require Import ZArith NArith QArith Lia List Bool Ascii String.
From stdpp Require Import base option list gmap pretty.

Local Open Scope Z_scope.

(** ** Python text *)

Module PyStr.

Abbreviation str := (list N).

(** A source literal (all literals of the script are ASCII). *)
Definition py (s : string) : str := map N_of_ascii (list_ascii_of_string s).

Definition LF : N := 10%N.
Definition CR : N := 13%N.
Definition HASH : N := 35%N.
Definition BACKTICK : N := 96%N.

(** [Py_UNICODE_ISLINEBREAK]: the characters [str.splitlines] splits on. *)
Definition is_linebreak (c : N) : bool :=
  (c =? 10)%N || (c =? 11)%N || (c =? 12)%N || (c =? 13)%N ||
  (c =? 28)%N || (c =? 29)%N || (c =? 30)%N || (c =? 133)%N ||
  (c =? 8232)%N || (c =? 8233)%N.

(** [Py_UNICODE_ISSPACE]: the characters [str.strip] removes. *)
Definition is_space (c : N) : bool :=
  ((9 <=? c) && (c <=? 13))%N || ((28 <=? c) && (c <=? 31))%N ||
  (c =? 32)%N || (c =? 133)%N || (c =? 160)%N || (c =? 5760)%N ||
  ((8192 <=? c) && (c <=? 8202))%N || (c =? 8232)%N || (c =? 8233)%N ||
  (c =? 8239)%N || (c =? 8287)%N || (c =? 12288)%N.

(** [s.splitlines()]: the text is cut at every line break, [CR LF] counting
    as one break; a line break at the very end does not open a new (empty)
    line, and the empty text has no line. *)
Fixpoint splitlines (s : str) : list str :=
  match s with
  | [] => []
  | c :: rest =>
      if is_linebreak c then
        [] :: match rest with
              | c' :: rest' =>
                  if ((c =? CR) && (c' =? LF))%N then splitlines rest'
                  else splitlines rest
              | [] => []
              end
      else
        match splitlines rest with
        | [] => [[c]]
        | l :: ls => (c :: l) :: ls
        end
  end.

Fixpoint lstrip (s : str) : str :=
  match s with
  | c :: rest => if is_space c then lstrip rest else s
  | [] => []
  end.

Definition rstrip (s : str) : str := rev (lstrip (rev s)).

(** [s.strip()] *)
Definition strip (s : str) : str := rstrip (lstrip s).

(** [s.startswith(p)] *)
Fixpoint startswith (s p : str) {struct p} : bool :=
  match p, s with
  | [], _ => true
  | _ :: _, [] => false
  | a :: p', b :: s' => (a =? b)%N && startswith s' p'
  end.

Definition str_eqb (a b : str) : bool := bool_decide (a = b).

(** ["\n".join(ls)] *)
Fixpoint join (ls : list str) : str :=
  match ls with
  | [] => []
  | [l] => l
  | l :: ls' => l ++ LF :: join ls'
  end.

(** What [splitlines] makes of a joined list of lines: an empty last line
    is swallowed by the final line break. *)
Fixpoint chop_last_empty (ls : list str) : list str :=
  match ls with
  | [] => []
  | [l] => match l with [] => [] | _ => [l] end
  | l :: ls' => l :: chop_last_empty ls'
  end.

(** Reading in text mode ([open(path, "r")], the captured streams of a
    subprocess run with [text=True]): [CR LF] and a lone [CR] arrive as [LF]. *)
Fixpoint universal_newlines (raw : str) : str :=
  match raw with
  | [] => []
  | c :: rest =>
      if (c =? CR)%N then
        LF :: match rest with
              | c' :: rest' =>
                  if (c' =? LF)%N then universal_newlines rest'
                  else universal_newlines rest
              | [] => []
              end
      else c :: universal_newlines rest
  end.

End PyStr.
Import PyStr.

(** ** The response sanitiser (body of [generate_code], lines 82-116) *)

Definition FENCE_PYTHON : str := py "```python".
Definition FENCE : str := py "```".

(** Lines 86-90: index of the first line that strips to the Python fence,
    [-1] when there is none. *)
Fixpoint code_start_from (i : Z) (lines : list str) : Z :=
  match lines with
  | [] => -1
  | line :: rest =>
      if str_eqb (strip line) FENCE_PYTHON then i
      else code_start_from (i + 1) rest
  end.

Definition code_start_idx (lines : list str) : Z := code_start_from 0 lines.

(** ["#" + line if not line.startswith("#") else line] (lines 95-96, 106) *)
Definition comment_out (line : str) : str :=
  if startswith line [HASH] then line else HASH :: line.

(** Lines 94-96: the working list after the lines [0 .. k] were commented. *)
Definition comment_preamble (lines : list str) (k : Z) : list str :=
  map comment_out (firstn (Z.to_nat (k + 1)) lines)
    ++ skipn (Z.to_nat (k + 1)) lines.

(** Lines 98-102: the lines up to the first one that strips to the bare
    fence. *)
Fixpoint until_fence (lines : list str) : list str :=
  match lines with
  | [] => []
  | line :: rest =>
      if str_eqb (strip line) FENCE then [] else line :: until_fence rest
  end.

(** Lines 93-106: the text of [code] before the backtick pass. *)
Definition extract_code (lines : list str) : str :=
  let k := code_start_idx lines in
  if negb (k =? -1) then
    let lines' := comment_preamble lines k in
    join (until_fence (skipn (Z.to_nat (k + 1)) lines'))
  else
    join (map comment_out lines).

(** Lines 110-112: one step of the backtick pass. *)
Definition comment_backtick (line : str) : str :=
  if startswith (strip line) [BACKTICK] then HASH :: line else line.

Definition nonblank (line : str) : bool :=
  match strip line with [] => false | _ => true end.

(** Lines 83-116: from the raw response to the candidate body and [loc]. *)
Definition sanitize (content : str) : str * Z :=
  let lines := splitlines content in
  let code := extract_code lines in
  let code_lines := map comment_backtick (splitlines code) in
  let code := join code_lines in
  let loc := Z.of_nat (length (List.filter nonblank (splitlines code))) in
  (code, loc).


(** ** The outside world: files, collaborators, failures *)

(** The two failures of [shutil.copyfile] and [open(.., "r")] that the ideal
    file store can exhibit. *)
Inductive exn :=
  | FileNotFoundError (path : str)
  | SameFileError (path : str).

(** Calls to the collaborators and the two budget tests of the loop, in the
    order in which the script performs them. *)
Inductive event :=
  | EvGenerate (prompt : str)
  | EvCopyFile (src dst : str)
  | EvExecute (script : option str) (returncode : Z)
  | EvTimeCheck (total_gen_time : Q) (exceeded : bool)
  | EvAttemptCheck (attempts : Z) (exceeded : bool).

Record world := World {
  files : gmap str str;
  log : list event
}.

Inductive res (A : Type) :=
  | Ok (a : A) (w : world)
  | Raise (e : exn) (w : world).
Arguments Ok {A} a w.
Arguments Raise {A} e w.

Definition M (A : Type) : Type := world -> res A.

#[global] Instance M_ret : MRet M := fun A a w => Ok a w.
#[global] Instance M_bind : MBind M := fun A B f m w =>
  match m w with
  | Ok a w' => f a w'
  | Raise e w' => Raise e w'
  end.

Definition raise {A} (e : exn) : M A := fun w => Raise e w.
Definition emit (e : event) : M unit :=
  fun w => Ok tt (World (files w) (log w ++ [e])).
Definition get_files : M (gmap str str) := fun w => Ok (files w) w.
Definition put_files (fs : gmap str str) : M unit :=
  fun w => Ok tt (World fs (log w)).

(** [open(path, "w")] followed by [write(text)] *)
Definition write_file (path text : str) : M unit :=
  fs ← get_files; put_files (<[path := text]> fs).

(** [open(path, "r").read()] *)
Definition read_file (path : str) : M str :=
  fs ← get_files;
  match fs !! path with
  | Some text => mret (universal_newlines text)
  | None => raise (FileNotFoundError path)
  end.

(** [os.remove(path)] *)
Definition remove (path : str) : M unit :=
  fs ← get_files;
  match fs !! path with
  | Some _ => put_files (delete path fs)
  | None => raise (FileNotFoundError path)
  end.

(** [shutil.copyfile(src, dst)]: refuses to copy an existing file onto
    itself, and needs the source to exist. *)
Definition copyfile (src dst : str) : M unit :=
  fs ← get_files;
  match fs !! src with
  | Some text =>
      if bool_decide (src = dst) then raise (SameFileError src)
      else put_files (<[dst := text]> fs);; emit (EvCopyFile src dst)
  | None => raise (FileNotFoundError src)
  end.

Definition is_generate (e : event) : bool :=
  match e with EvGenerate _ => true | _ => false end.
Definition is_execute (e : event) : bool :=
  match e with EvExecute _ _ => true | _ => false end.
Definition is_copy (e : event) : bool :=
  match e with EvCopyFile _ _ => true | _ => false end.

Definition generation_calls (l : list event) : nat := length (List.filter is_generate l).
Definition execution_calls (l : list event) : nat := length (List.filter is_execute l).
Definition archive_copies (l : list event) : nat := length (List.filter is_copy l).

(** ** [os.path.splitext] *)

Inductive os_flavour := posix | nt.

Definition DOT : N := 46%N.
Definition SLASH : N := 47%N.
Definition BACKSLASH : N := 92%N.

(** [p.rfind(c)]: the last index of [c] in [p], [-1] when absent. *)
Fixpoint rfind_from (i : Z) (c : N) (p : str) : Z :=
  match p with
  | [] => -1
  | x :: rest =>
      let r := rfind_from (i + 1) c rest in
      if negb (r =? -1) then r else if (x =? c)%N then i else -1
  end.
Definition rfind (c : N) (p : str) : Z := rfind_from 0 c p.

(** [genericpath._splitext(p, sep, altsep, ".")]: the extension starts at the
    last dot of the last path component, leading dots of that component
    not counting. *)
Definition _splitext (p : str) (sep : N) (altsep : option N) : str * str :=
  let sepIndex := rfind sep p in
  let sepIndex :=
    match altsep with
    | Some a => Z.max sepIndex (rfind a p)
    | None => sepIndex
    end in
  let dotIndex := rfind DOT p in
  if (sepIndex <? dotIndex)
     && existsb (fun c => negb (c =? DOT)%N)
          (firstn (Z.to_nat (dotIndex - (sepIndex + 1)))
             (skipn (Z.to_nat (sepIndex + 1)) p))
  then (firstn (Z.to_nat dotIndex) p, skipn (Z.to_nat dotIndex) p)
  else (p, []).

Definition splitext (os : os_flavour) (p : str) : str * str :=
  match os with
  | posix => _splitext p SLASH None
  | nt => _splitext p BACKSLASH (Some SLASH)
  end.

(** [str(n)] for a Python integer. *)
Definition str_of_int (n : Z) : str := py (pretty n).

(** ** Configuration (lines 50-60) *)

Record Config := {
  model : str;
  max_attempts : Z;
  max_time : Q;
  prompt_file : str;
  source_file : str;
  print_output : bool;
  print_code : bool;
  print_runtime_error_messages : bool;
  interpreter : str
}.

Definition TEMP_RUNTIME_ERROR : str := py "temp_runtime_error.txt".

(** What the script receives of a subprocess run with [text=True] whose
    streams are captured: the return code and the two texts, read in text
    mode. *)
Definition captured (result : Z * str * str) : Z * str * str :=
  (fst (fst result), universal_newlines (snd (fst result)),
   universal_newlines (snd result)).

Section Program.

Variable os : os_flavour.
Variable cfg : Config.

(** The generation service: the [n]-th call with a prompt answers with the
    response text, the measured duration [end_time - start_time] and the
    time stamp taken after it. *)
Variable groq : nat -> str -> str * Q * str.

(** [f"{generation_time:.3f}"] *)
Variable fmt3 : Q -> str.

(** [a + b] on floats: the sum, rounded. *)
Variable float_add : Q -> Q -> Q.

(** The interpreter: the [n]-th subprocess, started on a script file with
    the given text ([None]: no such file) and the fixed input line, ends
    with a return code and the texts written to its two output streams. *)
Variable python : nat -> option str -> Z * str * str.

Definition base_name : str := fst (splitext os (source_file cfg)).

(** *** [generate_code] (lines 65-125) *)

Definition header (timestamp : str) (generation_time : Q) : str :=
  py "# Generated from prompt file: " ++ prompt_file cfg ++ [LF]
  ++ py "# Model used: " ++ model cfg ++ [LF]
  ++ py "# Time generated: " ++ timestamp ++ [LF]
  ++ py "# Generation time: " ++ fmt3 generation_time ++ py " seconds" ++ [LF].

Definition generate_code (prompt : str) : M (str * Q * Z) :=
  fun w =>
    let '(content, generation_time, timestamp) :=
      groq (generation_calls (log w)) prompt in
    let '(code, loc) := sanitize content in
    Ok (header timestamp generation_time ++ code, generation_time, loc)
       (World (files w) (log w ++ [EvGenerate prompt])).

(** *** [test_code] (lines 127-162) *)

(** [f"{base_name}{attempt-1}.py"] *)
Definition archive_filename (attempt : Z) : str :=
  base_name ++ str_of_int (attempt - 1) ++ py ".py".

(** [subprocess.run([interpreter, filename], ..., input="5\n")]: the
    interpreter reads the script that the file holds when it starts. The
    result holds the characters the subprocess wrote; with [text=True] a
    captured stream reaches the script in text mode, which [test_code]
    shows where it takes [result.stdout] and [result.stderr]. *)
Definition subprocess_run (filename : str) : M (Z * str * str) :=
  fun w =>
    let script := files w !! filename in
    let '(returncode, stdout, stderr) :=
      python (execution_calls (log w)) script in
    Ok (returncode, stdout, stderr)
       (World (files w) (log w ++ [EvExecute script returncode])).

(** With error messages on both streams are captured; with error messages
    off the error stream goes to the scratch file, which is then read in
    text mode and removed. *)
Definition test_code (code filename : str) (attempt : Z)
  : M (bool * str * str) :=
  (if 1 <? attempt
   then copyfile filename (archive_filename attempt)
   else mret tt);;
  write_file filename code;;
  if print_runtime_error_messages cfg then
    '(returncode, stdout, stderr) ← subprocess_run filename;
    mret (returncode =? 0, universal_newlines stdout, universal_newlines stderr)
  else
    write_file TEMP_RUNTIME_ERROR [];;
    '(returncode, stdout, stderr) ← subprocess_run filename;
    write_file TEMP_RUNTIME_ERROR stderr;;
    error ← read_file TEMP_RUNTIME_ERROR;
    remove TEMP_RUNTIME_ERROR;;
    mret (returncode =? 0, universal_newlines stdout, error).

(** *** The refinement loop (lines 169-213) *)

Inductive terminal := Succeeded | FailedMaxTime | FailedMaxAttempts.

Record final := Final {
  outcome : terminal;
  last_code : str;
  total_gen_time : Q;
  attempts : Z
}.

(** Lines 200-203 *)
Definition retry_prompt (code error : str) : str :=
  py "The following Python code failed to run: " ++ [LF]
  ++ py "```python" ++ [LF] ++ code ++ [LF] ++ py "```" ++ [LF]
  ++ py "Error: " ++ error ++ [LF]
  ++ py "Please fix the code and return it in a ```python``` block.".

(** Line 193: [total_gen_time >= max_time] *)
Definition time_exceeded (total : Q) : M bool :=
  let b := Qle_bool (max_time cfg) total in
  emit (EvTimeCheck total b);; mret b.

(** Line 208: [attempts > max_attempts] *)
Definition attempts_exceeded (n : Z) : M bool :=
  let b := max_attempts cfg <? n in
  emit (EvAttemptCheck n b);; mret b.

(** The [while True] loop, lines 174-213; [None] when the iteration bound
    [fuel] is used up before a [break]. *)
Fixpoint refine (fuel : nat) (code : str) (total : Q) (n : Z)
  : M (option final) :=
  match fuel with
  | O => mret None
  | S fuel' =>
      '(success, output, error) ← test_code code (source_file cfg) n;
      if success : bool then mret (Some (Final Succeeded code total n))
      else
        exceeded ← time_exceeded total;
        if exceeded : bool then mret (Some (Final FailedMaxTime code total n))
        else
          '(code', gen_time, loc) ← generate_code (retry_prompt code error);
          let total' := float_add total gen_time in
          let n' := n + 1 in
          over ← attempts_exceeded n';
          if over : bool
          then mret (Some (Final FailedMaxAttempts code' total' n'))
          else refine fuel' code' total' n'
  end.

(** Lines 169-213, from the prompt of line 166. The loop runs at most
    [max (1, max_attempts)] times (see [refine_returns]). *)
Definition run (prompt : str) : M (option final) :=
  '(code, initial_gen_time, initial_loc) ← generate_code prompt;
  refine (S (Z.to_nat (max_attempts cfg))) code initial_gen_time 1.

(** Line 166 *)
Definition initial_prompt (text : str) : str :=
  text ++ py "Only output Python code. Do not give commentary." ++ [LF].

(** Lines 165-213 *)
Definition main : M (option final) :=
  text ← read_file (prompt_file cfg);
  run (initial_prompt text).

End Program.

(** ** Shape of the log of the loop *)

(** In the file store of this development, where a path text names one
    file, the artifact is the scratch file that [test_code] opens for the
    error stream when error messages are not to be printed. *)
Definition scratch_collision (cfg : Config) : Prop :=
  print_runtime_error_messages cfg = false /\
  source_file cfg = TEMP_RUNTIME_ERROR.

(** The order of the events of an iteration whose execution fails: the
    copy (if any) precedes the execution, the time test of line 193 follows
    the execution, a generation call follows a time test that found the
    budget not reached, the attempt test of line 208 follows the generation
    call, and the next iteration follows an attempt test that found the
    budget not used up. *)
Inductive next_event (cfg : Config) : event -> event -> Prop :=
  | ne_copy_exec src dst s rc :
      next_event cfg (EvCopyFile src dst) (EvExecute s rc)
  | ne_exec_time s rc t :
      next_event cfg (EvExecute s rc) (EvTimeCheck t (Qle_bool (max_time cfg) t))
  | ne_time_gen t p :
      Qle_bool (max_time cfg) t = false ->
      next_event cfg (EvTimeCheck t false) (EvGenerate p)
  | ne_gen_attempt p n :
      next_event cfg (EvGenerate p) (EvAttemptCheck n (max_attempts cfg <? n))
  | ne_attempt_copy n src dst :
      next_event cfg (EvAttemptCheck n false) (EvCopyFile src dst)
  | ne_attempt_exec n s rc :
      next_event cfg (EvAttemptCheck n false) (EvExecute s rc).

(** Every two neighbours of a list are related. *)
Inductive chain {A : Type} (R : A -> A -> Prop) : list A -> Prop :=
  | chain_nil : chain R []
  | chain_one x : chain R [x]
  | chain_cons x y l : R x y -> chain R (y :: l) -> chain R (x :: y :: l).

(** The log of a loop that ends in one of the two failure states. *)
Definition failing_trace (cfg : Config) (tr : list event) (f : final) : Prop :=
  chain (next_event cfg) tr /\
  (exists e l, tr = e :: l /\ (is_copy e = true \/ is_execute e = true)) /\
  ((outcome f = FailedMaxTime /\
    Qle_bool (max_time cfg) (total_gen_time f) = true /\
    exists pre, tr = pre ++ [EvTimeCheck (total_gen_time f) true])
   \/
   (outcome f = FailedMaxAttempts /\
    (max_attempts cfg <? attempts f) = true /\
    exists pre, tr = pre ++ [EvAttemptCheck (attempts f) true])).

(** The counts along such a log, for a loop entered with attempt number
    [n0]. *)
Definition loop_counts (cfg : Config) (n0 : Z) (tr : list event) (f : final)
  : Prop :=
  attempts f = n0 + Z.of_nat (generation_calls tr) /\
  (outcome f = FailedMaxTime ->
   execution_calls tr = S (generation_calls tr)) /\
  (outcome f = FailedMaxAttempts ->
   execution_calls tr = generation_calls tr /\
   attempts f = Z.max (n0 + 1) (max_attempts cfg + 1)).

(** ** Example inputs *)

Definition example_cfg (n : Z) (budget : Q) (artifact : str) (show_errors : bool)
  : Config :=
  {| model := py "llama-3.3-70b-versatile";
     max_attempts := n;
     max_time := budget;
     prompt_file := py "prompt.txt";
     source_file := artifact;
     print_output := true;
     print_code := true;
     print_runtime_error_messages := show_errors;
     interpreter := py "python3" |}.

(** A generation service that takes one second per call and always answers
    with the same fenced program. *)
Definition groq_one_second (n : nat) (prompt : str) : str * Q * str :=
  (py "```python" ++ [LF] ++ py "raise SystemExit(1)" ++ [LF] ++ py "```",
   1%Q, py "2025-01-01 00:00:00").

Definition fmt3_one (t : Q) : str := py "1.000".

(** A generation service whose [n]-th answer (from 0) is a program that exits
    with status [n + 1]. *)
Definition groq_numbered (n : nat) (prompt : str) : str * Q * str :=
  (py "```python" ++ [LF]
   ++ py "raise SystemExit(" ++ str_of_int (Z.of_nat n + 1) ++ py ")" ++ [LF]
   ++ py "```",
   1%Q, py "2025-01-01 00:00:00").

(** The candidate made from the [k]-th answer of [groq_numbered]. *)
Definition numbered_candidate (cfg : Config) (k : Z) : str :=
  header cfg fmt3_one (py "2025-01-01 00:00:00") 1
  ++ py "raise SystemExit(" ++ str_of_int k ++ py ")".

(** An interpreter that exits with status 1 whatever it is given. *)
Definition python_exit_1 (n : nat) (script : option str) : Z * str * str :=
  (1, [], py "Traceback").

(** An interpreter that exits with status 0 whatever it is given. *)
Definition python_exit_0 (n : nat) (script : option str) : Z * str * str :=
  (0, py "ok", []).

(** An interpreter that runs the empty script successfully and fails on
    every other one. *)
Definition python_empty_ok (n : nat) (script : option str) : Z * str * str :=
  match script with
  | Some [] => (0, [], [])
  | Some _ => (1, [], py "Traceback")
  | None => (2, [], py "can't open file")
  end.

Definition empty_world : world := World ∅ [].

(** The value a computation returned, if it did. *)
Definition result_of {A} (r : res A) : option A :=
  match r with Ok a _ => Some a | Raise _ _ => None end.

(** The world a computation ended in. *)
Definition world_of {A} (r : res A) : world :=
  match r with Ok _ w => w | Raise _ w => w end.

(** A configuration that differs from [cfg] in the error-message flag only. *)
Definition with_flag (cfg : Config) (b : bool) : Config :=
  {| model := model cfg;
     max_attempts := max_attempts cfg;
     max_time := max_time cfg;
     prompt_file := prompt_file cfg;
     source_file := source_file cfg;
     print_output := print_output cfg;
     print_code := print_code cfg;
     print_runtime_error_messages := b;
     interpreter := interpreter cfg |}.

(** A line without line breaks. *)
Definition linefree (l : str) : Prop := Forall (fun c => is_linebreak c = false) l.

(** Responses. *)
Definition fenced_example : str :=
  py "```python" ++ [LF] ++ py "print(1)" ++ [LF] ++ py "```".

Definition fenced_with_trailer : str :=
  py "```python" ++ [LF] ++ py "x" ++ [LF] ++ py "```" ++ [LF] ++ py "trailing".

Definition prose_example : str :=
  py "Here is the code:" ++ [LF] ++ py "  `print(1)`" ++ [LF] ++ py "# done".

Definition bare_fence_example : str :=
  py "```" ++ [LF] ++ py "print(1)" ++ [LF] ++ py "```".

Definition other_tag_example : str :=
  py "```py" ++ [LF] ++ py "print(1)" ++ [LF] ++ py "```".

Definition backtick_inside_example : str :=
  py "```python" ++ [LF] ++ py "x = 1" ++ [LF] ++ py "  `oops`" ++ [LF] ++ py "```".

Definition exit_1_program : str := py "raise SystemExit(1)".

(** ** Reading a log *)

(** The candidate made of an answer of the generation service (lines
    80-125). *)
Definition candidate_of (cfg : Config) (fmt3 : Q -> str) (answer : str * Q * str)
  : str :=
  header cfg fmt3 (snd answer) (snd (fst answer))
  ++ fst (sanitize (fst (fst answer))).

(** The world after a failed execution that is followed by another
    generation call: the time test, the call and the attempt test are
    logged. *)
Definition after_retry (cfg : Config) (w1 : world) (t : Q) (code error : str)
    (n : Z) : world :=
  World (files w1)
    (log w1 ++ [EvTimeCheck t false; EvGenerate (retry_prompt code error);
                EvAttemptCheck (n + 1) (max_attempts cfg <? n + 1)]).

(** The prompts of the generation calls of a log, in order. *)
Fixpoint prompts (l : list event) : list str :=
  match l with
  | [] => []
  | EvGenerate p :: l' => p :: prompts l'
  | _ :: l' => prompts l'
  end.

(** The scripts the interpreter was started on, in order. *)
Fixpoint scripts (l : list event) : list (option str) :=
  match l with
  | [] => []
  | EvExecute s _ :: l' => s :: scripts l'
  | _ :: l' => scripts l'
  end.

(** The measured durations of the generation calls of a log, the first of
    which is the [i]-th call to the service. *)
Fixpoint durations (groq : nat -> str -> str * Q * str) (i : nat)
    (l : list event) : list Q :=
  match l with
  | [] => []
  | EvGenerate p :: l' => snd (fst (groq i p)) :: durations groq (S i) l'
  | _ :: l' => durations groq i l'
  end.

(** The numbers of calls in the log [tr] of a loop that was entered with
    attempt number [n] and ended with [f]. *)
Definition loop_tally (cfg : Config) (n : Z) (tr : list event) (f : final) : Prop :=
  (1 <= execution_calls tr)%nat /\
  Z.of_nat (execution_calls tr) <= Z.max 1 (max_attempts cfg - n + 1) /\
  archive_copies tr
  = (if (1 <? n)%Z then execution_calls tr else execution_calls tr - 1)%nat /\
  generation_calls tr
  = (match outcome f with
     | FailedMaxAttempts => execution_calls tr
     | _ => execution_calls tr - 1
     end)%nat /\
  attempts f = n + Z.of_nat (generation_calls tr).

(** The copies of a log, source and destination, in order. *)
Fixpoint copy_calls (l : list event) : list (str * str) :=
  match l with
  | [] => []
  | EvCopyFile src dst :: l' => (src, dst) :: copy_calls l'
  | _ :: l' => copy_calls l'
  end.

(** ** The rounds of the loop *)

(** The event that opens a round after the first: the copy of the artifact
    to its archive (lines 129-131). *)
Definition archive_copy (os : os_flavour) (cfg : Config) (n : Z) : list event :=
  if 1 <? n
  then [EvCopyFile (source_file cfg)
          (fst (splitext os (source_file cfg)) ++ str_of_int (n - 1) ++ py ".py")]
  else [].

(** [loop_rounds os cfg groq float_add n t g tr o t' n'] reads: [tr] is the
    log of the rounds of the loop from the round with attempt number [n] on,
    entered with total generation time [t] after [g] calls of the generation
    service, up to a final report with outcome [o], total generation time
    [t'] and attempt count [n'].

    A round executes the candidate. If the return code is 0 that execution
    is the last event and the report is [Succeeded] with [t] and [n]. If the
    execution fails, the time test follows at once, made with the total [t]
    as it stands:
    - if [max_time <= t], equality included, the test is logged true and is
      the last event: the report is [FailedMaxTime] with [t] and [n], no
      generation call is made and the attempts are not tested;
    - if [t < max_time], the test is logged false and the next candidate is
      asked for; the duration of that call, the [g]-th, is added to [t] and
      the attempt number becomes [n + 1]; only then is the attempt number
      tested: if [max_attempts < n + 1] the test is logged true and is the
      last event, the report being [FailedMaxAttempts] with the new total
      and [n + 1]; otherwise it is logged false and the next round
      follows. *)
Inductive loop_rounds (os : os_flavour) (cfg : Config)
    (groq : nat -> str -> str * Q * str) (float_add : Q -> Q -> Q)
  : Z -> Q -> nat -> list event -> terminal -> Q -> Z -> Prop :=
  | rounds_success n t g s :
      loop_rounds os cfg groq float_add n t g
        (archive_copy os cfg n ++ [EvExecute s 0])
        Succeeded t n
  | rounds_max_time n t g s rc :
      rc <> 0 ->
      (max_time cfg <= t)%Q ->
      loop_rounds os cfg groq float_add n t g
        (archive_copy os cfg n ++ [EvExecute s rc; EvTimeCheck t true])
        FailedMaxTime t n
  | rounds_max_attempts n t g s rc p :
      rc <> 0 ->
      (t < max_time cfg)%Q ->
      max_attempts cfg < n + 1 ->
      loop_rounds os cfg groq float_add n t g
        (archive_copy os cfg n
         ++ [EvExecute s rc; EvTimeCheck t false; EvGenerate p;
             EvAttemptCheck (n + 1) true])
        FailedMaxAttempts (float_add t (snd (fst (groq g p)))) (n + 1)
  | rounds_next n t g s rc p tr o t' n' :
      rc <> 0 ->
      (t < max_time cfg)%Q ->
      n + 1 <= max_attempts cfg ->
      loop_rounds os cfg groq float_add (n + 1)
        (float_add t (snd (fst (groq g p)))) (S g) tr o t' n' ->
      loop_rounds os cfg groq float_add n t g
        (archive_copy os cfg n
         ++ [EvExecute s rc; EvTimeCheck t false; EvGenerate p;
             EvAttemptCheck (n + 1) false]
         ++ tr)
        o t' n'.

(** [os.sep] and [os.altsep] *)
Definition separators (os : os_flavour) : list N :=
  match os with
  | posix => [SLASH]
  | nt => [BACKSLASH; SLASH]
  end.

(** ** The configuration file (lines 40-48) *)

(** [for line in f]: the text is cut after every line feed, which stays at
    the end of its line; text after the last line feed is a last line. *)
Fixpoint file_lines (text : str) : list str :=
  match text with
  | [] => []
  | c :: rest =>
      if (c =? LF)%N then [c] :: file_lines rest
      else match file_lines rest with
           | [] => [[c]]
           | l :: ls => (c :: l) :: ls
           end
  end.

(** [s.split(sep, 1)] for a separator that is not empty: the text before
    and the text after the first occurrence of [sep], or [s] alone. *)
Fixpoint split_1 (s sep : str) : list str :=
  match s with
  | [] => [[]]
  | c :: rest =>
      if startswith s sep then [[]; skipn (length sep) s]
      else match split_1 rest sep with
           | [before; after] => [c :: before; after]
           | _ => [s]
           end
  end.

Definition COLON_SPACE : str := py ": ".

(** [ValueError]: the unpacking [key, value = ...] got one value. *)
Inductive config_exn := ValueError.

(** Lines 45-48: the body of the loop. *)
Definition config_line (config : gmap str str) (line : str)
  : config_exn + gmap str str :=
  if nonblank line then
    match split_1 (strip line) COLON_SPACE with
    | [key; value] => inr (<[key := value]> config)
    | _ => inl ValueError
    end
  else inr config.

Fixpoint config_lines (config : gmap str str) (lines : list str)
  : config_exn + gmap str str :=
  match lines with
  | [] => inr config
  | line :: rest =>
      match config_line config line with
      | inl e => inl e
      | inr config' => config_lines config' rest
      end
  end.

(** Lines 42-48, from the characters of the configuration file. *)
Definition read_config (raw : str) : config_exn + gmap str str :=
  config_lines ∅ (file_lines (universal_newlines raw)).

(** A text without [": "]. *)
Definition no_colon_space (s : str) : Prop :=
  forall a b, s <> a ++ COLON_SPACE ++ b.

(** A line that is not blank and has no [": "] once stripped. *)
Definition unparsable (line : str) : Prop :=
  strip line <> [] /\ no_colon_space (strip line).

(** A line that gives [key] the value [value]. *)
Definition binds (line key value : str) : Prop :=
  strip line = key ++ COLON_SPACE ++ value /\ no_colon_space key.

(** ** Further example inputs *)

(** A world that holds the prompt file of [example_cfg] and nothing else. *)
Definition prompt_world : world :=
  World {[ py "prompt.txt" := py "Print hello." ++ [LF] ]} [].

(** A run that ended in a final report. *)
Definition reported (r : res (option final)) : bool :=
  match r with Ok (Some _) _ => true | _ => false end.

(** Three failing attempts, error messages suppressed. *)
Definition failing_run : res (option final) :=
  main posix (example_cfg 3 1000 (py "foo.py") false) groq_numbered fmt3_one
    Qplus python_exit_1 prompt_world.

(** The same run with error messages on. *)
Definition failing_run_shown : res (option final) :=
  main posix (example_cfg 3 1000 (py "foo.py") true) groq_numbered fmt3_one
    Qplus python_exit_1 prompt_world.

(** A configuration file with a blank line, a key given twice and a line
    that ends in [CR LF]. *)
Definition config_text : str :=
  py "model: a" ++ [LF] ++ [LF] ++ py "  max_time: 10 " ++ [CR; LF]
  ++ py "model: b: c" ++ [LF].

(** * Properties *)

(** ** Text *)

Example splitlines_crlf_and_final_break :
  splitlines (py "a" ++ [CR; LF] ++ py "b" ++ [LF] ++ [LF]) = [py "a"; py "b"; []].
Proof. reflexivity. Qed.

Example strip_both_ends : strip (py "  ```python " ++ [CR]) = py "```python".
Proof. reflexivity. Qed.

Example join_then_split_drops_empty_last_line :
  splitlines (join [py "a"; []]) = [py "a"].
Proof. reflexivity. Qed.

Lemma splitlines_lf (rest : str) : splitlines (LF :: rest) = [] :: splitlines rest.
Proof. destruct rest; reflexivity. Qed.

Lemma splitlines_cons_nobreak (c : N) (rest : str) :
  is_linebreak c = false ->
  splitlines (c :: rest)
  = match splitlines rest with [] => [[c]] | l :: ls => (c :: l) :: ls end.
Proof. intros H. cbn [splitlines]. rewrite H. reflexivity. Qed.

Lemma splitlines_app_lf (l rest : str) :
  linefree l -> splitlines (l ++ LF :: rest) = l :: splitlines rest.
Proof.
  induction 1 as [|c l Hc Hl IH].
  - apply splitlines_lf.
  - rewrite <- app_comm_cons, splitlines_cons_nobreak, IH by assumption.
    reflexivity.
Qed.

Lemma splitlines_one_line (l : str) :
  linefree l -> splitlines l = match l with [] => [] | _ => [l] end.
Proof.
  induction 1 as [|c l Hc Hl IH]; [reflexivity|].
  rewrite splitlines_cons_nobreak, IH by assumption. destruct l; reflexivity.
Qed.

(** Splitting a text that was joined from line-break-free lines gives the
    lines back, up to an empty last line. *)
Lemma splitlines_join (ls : list str) :
  Forall linefree ls -> splitlines (join ls) = chop_last_empty ls.
Proof.
  induction 1 as [|l ls Hl Hls IH]; [reflexivity|].
  destruct ls as [|l2 ls].
  - cbn [join chop_last_empty]. rewrite splitlines_one_line by assumption.
    destruct l; reflexivity.
  - change (join (l :: l2 :: ls)) with (l ++ LF :: join (l2 :: ls)).
    rewrite splitlines_app_lf, IH by assumption. reflexivity.
Qed.

(** The lines produced by [splitlines] hold no line break. *)
Lemma splitlines_linefree (s : str) : Forall linefree (splitlines s).
Proof.
  remember (length s) as n eqn:Hn.
  revert s Hn. induction n as [n IH] using lt_wf_ind. intros s ->.
  destruct s as [|c rest]; [constructor|].
  cbn [splitlines]. destruct (is_linebreak c) eqn:Hc.
  - constructor; [constructor|].
    destruct rest as [|c' rest']; [constructor|].
    destruct ((c =? CR)%N && (c' =? LF)%N).
    + eapply IH; [|reflexivity]. simpl. lia.
    + eapply IH; [|reflexivity]. simpl. lia.
  - assert (Hr : Forall linefree (splitlines rest)).
    { eapply IH; [|reflexivity]. simpl. lia. }
    destruct (splitlines rest) as [|l ls].
    + repeat constructor. assumption.
    + inversion Hr; subst. constructor; [constructor|]; assumption.
Qed.

Lemma chop_last_empty_id (ls : list str) :
  Forall (fun l => l <> []) ls -> chop_last_empty ls = ls.
Proof.
  induction 1 as [|l ls Hl Hls IH]; [reflexivity|].
  destruct ls as [|l2 ls].
  - destruct l; [contradiction|reflexivity].
  - change (chop_last_empty (l :: l2 :: ls)) with (l :: chop_last_empty (l2 :: ls)).
    rewrite IH. reflexivity.
Qed.

Lemma chop_last_empty_incl (ls : list str) (l : str) :
  In l (chop_last_empty ls) -> In l ls.
Proof.
  induction ls as [|a ls IH]; [trivial|].
  destruct ls as [|l2 ls].
  - destruct a; simpl; tauto.
  - change (chop_last_empty (a :: l2 :: ls)) with (a :: chop_last_empty (l2 :: ls)).
    intros [->|H]; [left; reflexivity|right; auto].
Qed.

Lemma chop_last_empty_keeps (ls : list str) (l : str) :
  In l ls -> l <> [] -> In l (chop_last_empty ls).
Proof.
  intros Hin Hne. induction ls as [|a ls IH]; [trivial|].
  destruct ls as [|l2 ls].
  - destruct Hin as [->|[]]. destruct l; [contradiction|left; reflexivity].
  - change (chop_last_empty (a :: l2 :: ls)) with (a :: chop_last_empty (l2 :: ls)).
    destruct Hin as [->|H]; [left; reflexivity|right; auto].
Qed.

Lemma filter_nonblank_chop (ls : list str) :
  List.filter nonblank (chop_last_empty ls) = List.filter nonblank ls.
Proof.
  induction ls as [|a ls IH]; [reflexivity|].
  destruct ls as [|l2 ls].
  - destruct a; reflexivity.
  - change (chop_last_empty (a :: l2 :: ls)) with (a :: chop_last_empty (l2 :: ls)).
    cbn [List.filter]. rewrite IH. reflexivity.
Qed.

Lemma lstrip_snoc_nonspace (a : str) (c : N) :
  is_space c = false -> lstrip (a ++ [c]) = lstrip a ++ [c].
Proof.
  intros Hc. induction a as [|x a IH]; simpl.
  - rewrite Hc. reflexivity.
  - destruct (is_space x); [assumption|reflexivity].
Qed.

Lemma rstrip_cons_nonspace (c : N) (s : str) :
  is_space c = false -> rstrip (c :: s) = c :: rstrip s.
Proof.
  intros Hc. unfold rstrip. cbn [rev].
  rewrite lstrip_snoc_nonspace by assumption.
  rewrite rev_app_distr. reflexivity.
Qed.

Lemma strip_cons_nonspace (c : N) (s : str) :
  is_space c = false -> strip (c :: s) = c :: rstrip s.
Proof.
  intros Hc. unfold strip. cbn [lstrip]. rewrite Hc.
  apply rstrip_cons_nonspace, Hc.
Qed.

Lemma startswith_hash_inv (l : str) :
  startswith l [HASH] = true -> exists l', l = HASH :: l'.
Proof.
  destruct l as [|c l]; [discriminate|]. cbn [startswith].
  intros H%andb_true_iff. destruct H as [H%N.eqb_eq _]. subst c. eauto.
Qed.

Lemma comment_out_hash (l : str) : exists l', comment_out l = HASH :: l'.
Proof.
  unfold comment_out. destruct (startswith l [HASH]) eqn:H; eauto.
  apply startswith_hash_inv, H.
Qed.

Lemma comment_out_linefree (l : str) : linefree l -> linefree (comment_out l).
Proof.
  unfold comment_out. destruct (startswith l [HASH]); [trivial|].
  intros H. constructor; [reflexivity|assumption].
Qed.

Lemma hash_line_nonblank (l : str) : nonblank (HASH :: l) = true.
Proof. unfold nonblank. rewrite strip_cons_nonspace; reflexivity. Qed.

Lemma hash_line_no_backtick (l : str) :
  startswith (strip (HASH :: l)) [BACKTICK] = false.
Proof. rewrite strip_cons_nonspace; reflexivity. Qed.

Lemma comment_backtick_hash (l : str) : comment_backtick (HASH :: l) = HASH :: l.
Proof. unfold comment_backtick. rewrite hash_line_no_backtick. reflexivity. Qed.

Lemma comment_backtick_no_backtick (l : str) :
  startswith (strip (comment_backtick l)) [BACKTICK] = false.
Proof.
  unfold comment_backtick. destruct (startswith (strip l) [BACKTICK]) eqn:H.
  - apply hash_line_no_backtick.
  - exact H.
Qed.

Lemma comment_backtick_linefree (l : str) :
  linefree l -> linefree (comment_backtick l).
Proof.
  unfold comment_backtick. destruct (startswith (strip l) [BACKTICK]); [|trivial].
  intros H. constructor; [reflexivity|assumption].
Qed.

(** ** Fence detection *)

Lemma code_start_from_none (i : Z) (lines : list str) :
  Forall (fun l => strip l <> FENCE_PYTHON) lines -> code_start_from i lines = -1.
Proof.
  intros H. revert i. induction H as [|l ls Hl Hls IH]; intros i; [reflexivity|].
  cbn [code_start_from]. unfold str_eqb. rewrite bool_decide_eq_false_2 by assumption.
  apply IH.
Qed.

Lemma code_start_from_found (i : Z) (lines : list str) (k : Z) :
  0 <= i -> code_start_from i lines = k -> k <> -1 ->
  exists (j : nat) (line : str),
    k = i + Z.of_nat j /\ lines !! j = Some line /\ strip line = FENCE_PYTHON /\
    Forall (fun l => strip l <> FENCE_PYTHON) (firstn j lines).
Proof.
  revert i. induction lines as [|l ls IH]; intros i Hi Hk Hne.
  - simpl in Hk. congruence.
  - cbn [code_start_from] in Hk. unfold str_eqb in Hk.
    destruct (bool_decide_reflect (strip l = FENCE_PYTHON)) as [Heq|Hneq].
    + exists 0%nat, l. repeat split; [lia|assumption|constructor].
    + destruct (IH (i + 1)) as (j & line & Hj & Hl & Hs & Hbefore);
        [lia|assumption|assumption|].
      exists (S j), line. repeat split; [lia|assumption|assumption|].
      cbn [firstn]. constructor; assumption.
Qed.

Lemma code_start_idx_none (lines : list str) :
  (forall line, In line lines -> strip line <> FENCE_PYTHON) ->
  code_start_idx lines = -1.
Proof. intros H. apply code_start_from_none, List.Forall_forall. exact H. Qed.

Lemma code_start_idx_found (lines : list str) (k : Z) :
  code_start_idx lines = k -> k <> -1 ->
  exists line, 0 <= k /\ lines !! Z.to_nat k = Some line /\
    strip line = FENCE_PYTHON /\
    Forall (fun l => strip l <> FENCE_PYTHON) (firstn (Z.to_nat k) lines).
Proof.
  intros Hk Hne.
  destruct (code_start_from_found 0 lines k) as (j & line & -> & Hl & Hs & Hb);
    [lia|assumption|assumption|].
  exists line. rewrite Z.add_0_l, Nat2Z.id. repeat split; [lia|assumption..].
Qed.

Lemma code_start_from_ge (i : Z) (lines : list str) (line : str) :
  In line lines -> strip line = FENCE_PYTHON -> i <= code_start_from i lines.
Proof.
  intros Hin Hs. revert i. induction lines as [|l ls IH]; intros i; [destruct Hin|].
  cbn [code_start_from]. destruct (str_eqb (strip l) FENCE_PYTHON) eqn:E; [lia|].
  destruct Hin as [->|Hin].
  - unfold str_eqb in E. apply bool_decide_eq_false_1 in E. contradiction.
  - specialize (IH Hin (i + 1)). lia.
Qed.

Lemma code_start_idx_some (lines : list str) (line : str) :
  In line lines -> strip line = FENCE_PYTHON -> code_start_idx lines <> -1.
Proof.
  intros Hin Hs. pose proof (code_start_from_ge 0 lines line Hin Hs).
  unfold code_start_idx. lia.
Qed.

(** ** The sanitiser *)

Lemma comment_preamble_rest (lines : list str) (k : Z) :
  skipn (Z.to_nat (k + 1)) (comment_preamble lines k)
  = skipn (Z.to_nat (k + 1)) lines.
Proof.
  unfold comment_preamble. set (n := Z.to_nat (k + 1)).
  rewrite List.skipn_app, length_map, List.length_firstn.
  destruct (Nat.le_gt_cases n (length lines)) as [Hle|Hgt].
  - rewrite Nat.min_l, Nat.sub_diag by assumption.
    rewrite List.skipn_all2 by (rewrite length_map, List.length_firstn; lia).
    reflexivity.
  - rewrite (List.skipn_all2 lines) by lia.
    rewrite List.skipn_nil, app_nil_r.
    apply List.skipn_all2. rewrite length_map, List.length_firstn. lia.
Qed.

Lemma comment_preamble_head (lines : list str) (k : Z) (i : nat) (line : str) :
  comment_preamble lines k !! i = Some line -> (i < Z.to_nat (k + 1))%nat ->
  startswith line [HASH] = true.
Proof.
  unfold comment_preamble. intros Hl Hi.
  destruct (Nat.lt_ge_cases i (length (map comment_out (firstn (Z.to_nat (k + 1)) lines))))
    as [Hlt|Hge].
  - rewrite lookup_app_l in Hl by assumption.
    rewrite list_lookup_fmap in Hl.
    destruct (firstn (Z.to_nat (k + 1)) lines !! i) as [l|]; [|discriminate].
    injection Hl as <-. destruct (comment_out_hash l) as [l' ->].
    reflexivity.
  - rewrite lookup_app_r in Hl by assumption.
    rewrite length_map, List.length_firstn in Hge.
    apply lookup_lt_Some in Hl.
    rewrite length_map, List.length_firstn, List.length_skipn in Hl. lia.
Qed.

Lemma extract_code_no_fence (lines : list str) :
  code_start_idx lines = -1 -> extract_code lines = join (map comment_out lines).
Proof. unfold extract_code. intros ->. reflexivity. Qed.

Lemma extract_code_fenced (lines : list str) :
  code_start_idx lines <> -1 ->
  extract_code lines
  = join (until_fence (skipn (Z.to_nat (code_start_idx lines + 1)) lines)).
Proof.
  unfold extract_code. intros H.
  destruct (Z.eqb_spec (code_start_idx lines) (-1)); [contradiction|].
  cbn [negb]. rewrite comment_preamble_rest. reflexivity.
Qed.

(** The loop of lines 98-102 stops at the first bare fence or at the end. *)
Lemma until_fence_spec (rest : list str) :
  until_fence rest = firstn (length (until_fence rest)) rest /\
  Forall (fun l => strip l <> FENCE) (until_fence rest) /\
  (length (until_fence rest) = length rest \/
   exists closer, rest !! length (until_fence rest) = Some closer /\
                  strip closer = FENCE).
Proof.
  induction rest as [|l rest (IH1 & IH2 & IH3)].
  - repeat split; [constructor|left; reflexivity].
  - cbn [until_fence]. unfold str_eqb.
    destruct (bool_decide_reflect (strip l = FENCE)) as [Heq|Hne].
    + repeat split; [constructor|right; exists l; split; [reflexivity|assumption]].
    + cbn [length firstn]. repeat split.
      * congruence.
      * constructor; assumption.
      * destruct IH3 as [->|(closer & H1 & H2)]; [left; reflexivity|].
        right. exists closer. split; assumption.
Qed.

Lemma until_fence_sublist (rest : list str) (l : str) :
  In l (until_fence rest) -> In l rest.
Proof.
  induction rest as [|a rest IH]; [trivial|].
  cbn [until_fence]. destruct (str_eqb (strip a) FENCE); [intros []|].
  intros [->|H]; [left; reflexivity|right; auto].
Qed.

Lemma In_linefree (ls : list str) (l : str) :
  Forall linefree ls -> In l ls -> linefree l.
Proof. intros H Hin. rewrite List.Forall_forall in H. auto. Qed.

Lemma until_fence_linefree (rest : list str) :
  Forall linefree rest -> Forall linefree (until_fence rest).
Proof.
  intros H. apply List.Forall_forall. intros l Hl.
  eapply In_linefree; [exact H|]. apply until_fence_sublist, Hl.
Qed.

Lemma In_skipn_In {A} (n : nat) (ls : list A) (x : A) :
  In x (skipn n ls) -> In x ls.
Proof.
  revert ls. induction n as [|n IH]; intros [|a ls]; simpl; auto.
Qed.

Lemma skipn_linefree (n : nat) (ls : list str) :
  Forall linefree ls -> Forall linefree (skipn n ls).
Proof.
  intros H. apply List.Forall_forall. intros l Hl.
  eapply In_linefree; [exact H|]. eapply In_skipn_In, Hl.
Qed.

Lemma map_linefree (f : str -> str) (ls : list str) :
  (forall l, linefree l -> linefree (f l)) ->
  Forall linefree ls -> Forall linefree (map f ls).
Proof. intros Hf H. induction H; constructor; auto. Qed.

(** The lines of the candidate body are the backtick-neutralised lines of the
    extracted code. *)
Lemma sanitize_lines (content : str) :
  splitlines (fst (sanitize content))
  = chop_last_empty
      (map comment_backtick (splitlines (extract_code (splitlines content)))).
Proof.
  cbn [sanitize fst]. apply splitlines_join, map_linefree.
  - apply comment_backtick_linefree.
  - apply splitlines_linefree.
Qed.

Lemma sanitize_loc (content : str) :
  snd (sanitize content)
  = Z.of_nat (length (List.filter nonblank
      (map comment_backtick (splitlines (extract_code (splitlines content)))))).
Proof.
  change (snd (sanitize content))
    with (Z.of_nat (length (List.filter nonblank (splitlines (fst (sanitize content)))))).
  rewrite sanitize_lines, filter_nonblank_chop. reflexivity.
Qed.

Lemma map_comment_backtick_commented (ls : list str) :
  map comment_backtick (map comment_out ls) = map comment_out ls.
Proof.
  induction ls as [|l ls IH]; [reflexivity|].
  cbn [map]. rewrite IH. destruct (comment_out_hash l) as [l' ->].
  rewrite comment_backtick_hash. reflexivity.
Qed.

Lemma filter_nonblank_commented (ls : list str) :
  List.filter nonblank (map comment_out ls) = map comment_out ls.
Proof.
  induction ls as [|l ls IH]; [reflexivity|].
  cbn [map List.filter]. rewrite IH. destruct (comment_out_hash l) as [l' ->].
  rewrite hash_line_nonblank. reflexivity.
Qed.

(** Without a Python fence the body is the response with every line made a
    comment, and [loc] is the number of its lines. *)
Lemma sanitize_unfenced (content : str) :
  code_start_idx (splitlines content) = -1 ->
  sanitize content
  = (join (map comment_out (splitlines content)),
     Z.of_nat (length (splitlines content))).
Proof.
  intros Hk.
  assert (Hlines : splitlines (extract_code (splitlines content))
                   = map comment_out (splitlines content)).
  { rewrite extract_code_no_fence by assumption.
    rewrite splitlines_join
      by (apply map_linefree; [apply comment_out_linefree|apply splitlines_linefree]).
    apply chop_last_empty_id, List.Forall_forall.
    intros l (l0 & <- & _)%List.in_map_iff.
    destruct (comment_out_hash l0) as [l' ->]. discriminate. }
  rewrite (surjective_pairing (sanitize content)). f_equal.
  - cbn [sanitize fst]. rewrite Hlines, map_comment_backtick_commented. reflexivity.
  - rewrite sanitize_loc, Hlines, map_comment_backtick_commented,
      filter_nonblank_commented, length_map. reflexivity.
Qed.

Lemma commented_lines_start_with_hash (ls : list str) :
  Forall (fun l => startswith l [HASH] = true) (map comment_out ls).
Proof.
  induction ls as [|l ls IH]; constructor; [|assumption].
  destruct (comment_out_hash l) as [l' ->]. reflexivity.
Qed.

Lemma sanitize_unfenced_lines (content : str) :
  code_start_idx (splitlines content) = -1 ->
  splitlines (fst (sanitize content)) = map comment_out (splitlines content).
Proof.
  intros Hk. rewrite sanitize_unfenced by assumption. cbn [fst].
  rewrite splitlines_join
    by (apply map_linefree; [apply comment_out_linefree|apply splitlines_linefree]).
  apply chop_last_empty_id, List.Forall_forall.
  intros l (l0 & <- & _)%List.in_map_iff.
  destruct (comment_out_hash l0) as [l' ->]. discriminate.
Qed.

(** *** Fenced responses *)

(** The scenario of the specification: the body of the fenced response
    is [print(1)] and [loc] is 1. *)
Example sanitize_fenced_example : sanitize fenced_example = (py "print(1)", 1).
Proof. vm_compute. reflexivity. Qed.

(** C3, as stated, fails: a line outside the fenced range is not always
    turned into a comment line. The fourth line of [fenced_with_trailer],
    ["trailing"], stays as it is in the working list, and the candidate body
    holds no commented form of it (the body is ["x"]). *)
Lemma fenced_trailing_line_not_commented :
  ~ (let lines := splitlines fenced_with_trailer in
     let k := code_start_idx lines in
     let work := comment_preamble lines k in
     let between := until_fence (skipn (Z.to_nat (k + 1)) work) in
     fst (sanitize fenced_with_trailer) = join between /\
     forall (i : nat) (line : str),
       lines !! i = Some line ->
       (i <= Z.to_nat k \/ Z.to_nat k + 1 + length between <= i)%nat ->
       (exists line', work !! i = Some line' /\ startswith line' [HASH] = true) \/
       In (comment_out line) (splitlines (fst (sanitize fenced_with_trailer)))).
Proof.
  intros [_ H].
  destruct (H 3%nat (py "trailing") eq_refl) as [(line' & Hl & Hs)|Hin].
  - right. vm_compute. lia.
  - vm_compute in Hl. injection Hl as <-. vm_compute in Hs. discriminate Hs.
  - vm_compute in Hin. destruct Hin as [Heq|[]]. discriminate Heq.
Qed.

(** C3, amended: for a response with a line that strips to the Python fence,
    the candidate body consists of the lines strictly between the first such
    line and the first later line that strips to the bare fence (or the end
    of the response), with the backtick-led lines among them commented and an
    empty last line dropped. The lines up to and including the opener are
    rewritten as comment lines in the working list only; the lines after the
    opener stay as they are there, and no line outside the range reaches the
    body. *)
Theorem sanitize_fenced_body (content : str) :
  (exists line, In line (splitlines content) /\ strip line = FENCE_PYTHON) ->
  let lines := splitlines content in
  let k := code_start_idx lines in
  let rest := skipn (Z.to_nat (k + 1)) lines in
  let between := until_fence rest in
  (exists opener, 0 <= k /\ lines !! Z.to_nat k = Some opener /\
     strip opener = FENCE_PYTHON /\
     Forall (fun l => strip l <> FENCE_PYTHON) (firstn (Z.to_nat k) lines)) /\
  (between = firstn (length between) rest /\
   Forall (fun l => strip l <> FENCE) between /\
   (length between = length rest \/
    exists closer, rest !! length between = Some closer /\ strip closer = FENCE)) /\
  fst (sanitize content) = join (map comment_backtick (chop_last_empty between)) /\
  (forall (i : nat) (line : str),
     comment_preamble lines k !! i = Some line -> (i <= Z.to_nat k)%nat ->
     startswith line [HASH] = true) /\
  skipn (Z.to_nat (k + 1)) (comment_preamble lines k) = rest.
Proof.
  intros (line & Hin & Hs) lines k rest between.
  assert (Hk : k <> -1) by (eapply code_start_idx_some; eassumption).
  destruct (code_start_idx_found lines k eq_refl Hk) as (opener & H0 & Hl & Ho & Hb).
  split; [exists opener; auto|].
  split; [apply until_fence_spec|].
  split; [|split].
  - cbn [sanitize fst]. fold lines.
    rewrite (extract_code_fenced lines Hk). fold k rest between.
    rewrite splitlines_join; [reflexivity|].
    apply until_fence_linefree, skipn_linefree, splitlines_linefree.
  - intros i l Hi Hle. eapply comment_preamble_head; [exact Hi|lia].
  - apply comment_preamble_rest.
Qed.

Lemma sanitize_fenced_body_witness :
  (exists line, In line (splitlines fenced_example) /\ strip line = FENCE_PYTHON) /\
  fst (sanitize fenced_example) = py "print(1)".
Proof.
  assert (H : exists line, In line (splitlines fenced_example)
                           /\ strip line = FENCE_PYTHON).
  { exists (py "```python"). split; [left; reflexivity|reflexivity]. }
  split; [exact H|].
  destruct (sanitize_fenced_body fenced_example H) as (_ & _ & Hbody & _).
  rewrite Hbody. reflexivity.
Defined.

(** *** Responses without a Python fence *)

(** C6: when no line of the response strips to the Python fence, the
    sanitiser (a total function) returns the whole response with every line
    made a comment: the body is the lines of the response, each prefixed
    with [#] unless it starts with one, joined by line feeds; every line of
    the body starts with [#]; [loc] is the number of lines. *)
Theorem sanitize_without_fence_all_comments (content : str) :
  (forall line, In line (splitlines content) -> strip line <> FENCE_PYTHON) ->
  sanitize content
  = (join (map comment_out (splitlines content)),
     Z.of_nat (length (splitlines content))) /\
  splitlines (fst (sanitize content)) = map comment_out (splitlines content) /\
  Forall (fun l => startswith l [HASH] = true) (splitlines (fst (sanitize content))).
Proof.
  intros H. apply code_start_idx_none in H.
  split; [apply sanitize_unfenced, H|].
  split; [apply sanitize_unfenced_lines, H|].
  rewrite sanitize_unfenced_lines by assumption.
  apply commented_lines_start_with_hash.
Qed.

Lemma sanitize_without_fence_all_comments_witness :
  (forall line, In line (splitlines prose_example) -> strip line <> FENCE_PYTHON) /\
  fst (sanitize prose_example)
  = py "#Here is the code:" ++ [LF] ++ py "#  `print(1)`" ++ [LF] ++ py "# done".
Proof.
  assert (H : forall line, In line (splitlines prose_example)
                           -> strip line <> FENCE_PYTHON).
  { intros line Hin. vm_compute in Hin.
    destruct Hin as [<-|[<-|[<-|[]]]]; vm_compute; discriminate. }
  split; [exact H|].
  destruct (sanitize_without_fence_all_comments prose_example H) as (Hs & _).
  rewrite Hs. reflexivity.
Defined.

(** C10: the opener found by the scan is a line that strips to exactly
    [```python] (and the first such line); when every fence line of the
    response is another one (a bare fence, another language tag), so that no
    line strips to it, no fenced region is detected and the body is the whole
    response made comments. *)
Theorem only_python_fence_opens (content : str) :
  (forall k, code_start_idx (splitlines content) = k -> k <> -1 ->
     exists opener, (splitlines content) !! Z.to_nat k = Some opener /\
       strip opener = FENCE_PYTHON /\
       Forall (fun l => strip l <> FENCE_PYTHON)
         (firstn (Z.to_nat k) (splitlines content))) /\
  ((forall line, In line (splitlines content) -> strip line <> FENCE_PYTHON) ->
   code_start_idx (splitlines content) = -1 /\
   extract_code (splitlines content) = join (map comment_out (splitlines content)) /\
   fst (sanitize content) = join (map comment_out (splitlines content)) /\
   Forall (fun l => startswith l [HASH] = true) (splitlines (fst (sanitize content)))).
Proof.
  split.
  - intros k Hk Hne.
    destruct (code_start_idx_found _ k Hk Hne) as (opener & _ & Hl & Hs & Hb).
    exists opener. auto.
  - intros H. apply code_start_idx_none in H.
    split; [exact H|]. split; [apply extract_code_no_fence, H|].
    rewrite sanitize_unfenced_lines, sanitize_unfenced by assumption.
    split; [reflexivity|apply commented_lines_start_with_hash].
Qed.

Lemma only_python_fence_opens_witness :
  (forall line, In line (splitlines bare_fence_example) -> strip line <> FENCE_PYTHON) /\
  code_start_idx (splitlines bare_fence_example) = -1 /\
  fst (sanitize bare_fence_example)
  = py "#```" ++ [LF] ++ py "#print(1)" ++ [LF] ++ py "#```".
Proof.
  assert (H : forall line, In line (splitlines bare_fence_example)
                           -> strip line <> FENCE_PYTHON).
  { intros line Hin. vm_compute in Hin.
    destruct Hin as [<-|[<-|[<-|[]]]]; vm_compute; discriminate. }
  split; [exact H|].
  destruct (only_python_fence_opens bare_fence_example) as [_ Hall].
  destruct (Hall H) as (Hk & _ & Hbody & _).
  split; [exact Hk|]. rewrite Hbody. reflexivity.
Defined.

Example other_tag_not_an_opener :
  sanitize other_tag_example
  = (py "#```py" ++ [LF] ++ py "#print(1)" ++ [LF] ++ py "#```", 3).
Proof. vm_compute. reflexivity. Qed.

(** *** Backticks *)

(** C8: no line of a candidate body has a backtick as its first character
    after trimming; every such line of the extracted code, the lines between
    the fences included, is in the body with a [#] in front. *)
Theorem backtick_lines_neutralized (content : str) :
  (forall line, In line (splitlines (fst (sanitize content))) ->
     startswith (strip line) [BACKTICK] = false) /\
  (forall line, In line (splitlines (extract_code (splitlines content))) ->
     startswith (strip line) [BACKTICK] = true ->
     In (HASH :: line) (splitlines (fst (sanitize content)))) /\
  (code_start_idx (splitlines content) <> -1 ->
   forall line,
     In line (until_fence
                (skipn (Z.to_nat (code_start_idx (splitlines content) + 1))
                   (splitlines content))) ->
     startswith (strip line) [BACKTICK] = true ->
     In (HASH :: line) (splitlines (fst (sanitize content)))).
Proof.
  assert (Hmid : forall line,
    In line (splitlines (extract_code (splitlines content))) ->
    startswith (strip line) [BACKTICK] = true ->
    In (HASH :: line) (splitlines (fst (sanitize content)))).
  { intros line Hin Hb. rewrite sanitize_lines.
    apply chop_last_empty_keeps; [|discriminate].
    apply List.in_map_iff. exists line. split; [|assumption].
    unfold comment_backtick. rewrite Hb. reflexivity. }
  split; [|split; [exact Hmid|]].
  - intros line Hin. rewrite sanitize_lines in Hin.
    apply chop_last_empty_incl, List.in_map_iff in Hin.
    destruct Hin as (l & <- & _). apply comment_backtick_no_backtick.
  - intros Hk line Hin Hb. apply Hmid; [|assumption].
    rewrite extract_code_fenced by assumption.
    rewrite splitlines_join
      by (apply until_fence_linefree, skipn_linefree, splitlines_linefree).
    apply chop_last_empty_keeps; [assumption|].
    intros ->. discriminate Hb.
Qed.

Example backtick_inside_fence :
  sanitize backtick_inside_example = (py "x = 1" ++ [LF] ++ py "#  `oops`", 2).
Proof. vm_compute. reflexivity. Qed.

(** *** [loc] and the header *)

Lemma linefree_app (a b : str) : linefree a -> linefree b -> linefree (a ++ b).
Proof. apply Forall_app_2. Qed.

(** With line-break-free fields the header is four non-blank lines in front
    of the lines of the body. *)
Lemma header_four_lines (cfg : Config) (fmt3 : Q -> str)
    (timestamp : str) (t : Q) (body : str) :
  linefree (prompt_file cfg) -> linefree (model cfg) ->
  linefree timestamp -> linefree (fmt3 t) ->
  exists l1 l2 l3 l4,
    splitlines (header cfg fmt3 timestamp t ++ body)
    = l1 :: l2 :: l3 :: l4 :: splitlines body /\
    Forall (fun l => startswith l [HASH] = true) [l1; l2; l3; l4].
Proof.
  intros H1 H2 H3 H4.
  exists (py "# Generated from prompt file: " ++ prompt_file cfg),
         (py "# Model used: " ++ model cfg),
         (py "# Time generated: " ++ timestamp),
         (py "# Generation time: " ++ fmt3 t ++ py " seconds").
  split; [|repeat constructor].
  unfold header. rewrite <- !app_assoc.
  rewrite (app_assoc (py "# Generated from prompt file: ")).
  change ([LF] ++ ?x) with (LF :: x).
  rewrite splitlines_app_lf
    by (apply linefree_app; [repeat constructor|assumption]).
  f_equal.
  rewrite (app_assoc (py "# Model used: ")).
  change ([LF] ++ ?x) with (LF :: x).
  rewrite splitlines_app_lf
    by (apply linefree_app; [repeat constructor|assumption]).
  f_equal.
  rewrite (app_assoc (py "# Time generated: ")).
  change ([LF] ++ ?x) with (LF :: x).
  rewrite splitlines_app_lf
    by (apply linefree_app; [repeat constructor|assumption]).
  f_equal.
  rewrite (app_assoc (fmt3 t)), (app_assoc (py "# Generation time: ")).
  change ([LF] ++ ?x) with (LF :: x).
  rewrite splitlines_app_lf
    by (apply linefree_app; [repeat constructor|];
        apply linefree_app; [assumption|repeat constructor]).
  reflexivity.
Qed.

(** C7: the [loc] returned with a candidate is the number of lines of its
    body that are non-blank after trimming, the body being the text after
    the header, counted on the neutralised lines; when the header fields
    hold no line break, the header is exactly four lines and [loc] is the
    number of non-blank lines of the whole candidate less these four. *)
Theorem generate_code_loc (cfg : Config) (groq : nat -> str -> str * Q * str)
    (fmt3 : Q -> str) (prompt : str) (w : world) :
  exists content generation_time timestamp body loc,
    groq (generation_calls (log w)) prompt = (content, generation_time, timestamp) /\
    generate_code cfg groq fmt3 prompt w
    = Ok (header cfg fmt3 timestamp generation_time ++ body, generation_time, loc)
         (World (files w) (log w ++ [EvGenerate prompt])) /\
    body = join (map comment_backtick (splitlines (extract_code (splitlines content)))) /\
    loc = Z.of_nat (length (List.filter nonblank (splitlines body))) /\
    loc = Z.of_nat (length (List.filter nonblank
            (map comment_backtick (splitlines (extract_code (splitlines content)))))) /\
    (linefree (prompt_file cfg) -> linefree (model cfg) ->
     linefree timestamp -> linefree (fmt3 generation_time) ->
     Z.of_nat (length (List.filter nonblank
        (splitlines (header cfg fmt3 timestamp generation_time ++ body))))
     = 4 + loc).
Proof.
  destruct (groq (generation_calls (log w)) prompt) as [[content t] ts] eqn:Hg.
  exists content, t, ts, (fst (sanitize content)), (snd (sanitize content)).
  split; [reflexivity|]. split.
  { unfold generate_code. rewrite Hg.
    rewrite (surjective_pairing (sanitize content)). reflexivity. }
  split; [reflexivity|]. split; [reflexivity|]. split; [apply sanitize_loc|].
  intros H1 H2 H3 H4.
  destruct (header_four_lines cfg fmt3 ts t (fst (sanitize content)) H1 H2 H3 H4)
    as (l1 & l2 & l3 & l4 & -> & Hh).
  inversion Hh as [|? ? Ha Hh1]; subst. inversion Hh1 as [|? ? Hb Hh2]; subst.
  inversion Hh2 as [|? ? Hc Hh3]; subst. inversion Hh3 as [|? ? Hd _]; subst.
  apply startswith_hash_inv in Ha as [? ->], Hb as [? ->], Hc as [? ->], Hd as [? ->].
  cbn [List.filter]. rewrite !hash_line_nonblank. cbn [length].
  change (snd (sanitize content))
    with (Z.of_nat (length (List.filter nonblank (splitlines (fst (sanitize content)))))).
  lia.
Qed.

(** ** File names *)

Lemma rfind_from_spec (i : Z) (c : N) (p : str) :
  rfind_from i c p = -1 \/
  (i <= rfind_from i c p /\ p !! Z.to_nat (rfind_from i c p - i) = Some c).
Proof.
  revert i. induction p as [|x rest IH]; intros i; [left; reflexivity|].
  cbn [rfind_from].
  destruct (Z.eqb_spec (rfind_from (i + 1) c rest) (-1)) as [Heq|Hne]; cbn [negb].
  - destruct (N.eqb_spec x c) as [->|]; [right|left; reflexivity].
    split; [lia|]. rewrite Z.sub_diag. reflexivity.
  - destruct (IH (i + 1)) as [?|[Hle Hl]]; [contradiction|]. right.
    split; [lia|].
    replace (Z.to_nat (rfind_from (i + 1) c rest - i))
      with (S (Z.to_nat (rfind_from (i + 1) c rest - (i + 1)))) by lia.
    exact Hl.
Qed.

Lemma _splitext_spec (p : str) (sep : N) (altsep : option N) :
  fst (_splitext p sep altsep) ++ snd (_splitext p sep altsep) = p /\
  (snd (_splitext p sep altsep) = [] \/
   exists e, snd (_splitext p sep altsep) = DOT :: e).
Proof.
  unfold _splitext.
  set (sepIndex := match altsep with
                   | Some a => Z.max (rfind sep p) (rfind a p)
                   | None => rfind sep p
                   end).
  assert (Hsep : -1 <= sepIndex).
  { subst sepIndex. unfold rfind.
    destruct (rfind_from_spec 0 sep p) as [->|[? _]];
      destruct altsep; lia. }
  destruct ((sepIndex <? rfind DOT p) && _) eqn:Hc; cbn [fst snd].
  - apply andb_true_iff in Hc as [Hlt%Z.ltb_lt _].
    split; [apply firstn_skipn|]. right.
    unfold rfind in *.
    destruct (rfind_from_spec 0 DOT p) as [Heq|[_ Hl]]; [lia|].
    rewrite Z.sub_0_r in Hl.
    exists (skipn (S (Z.to_nat (rfind_from 0 DOT p))) p).
    apply drop_S, Hl.
  - split; [apply app_nil_r|left; reflexivity].
Qed.

Lemma splitext_spec (os : os_flavour) (p : str) :
  fst (splitext os p) ++ snd (splitext os p) = p /\
  (snd (splitext os p) = [] \/ exists e, snd (splitext os p) = DOT :: e).
Proof. destruct os; apply _splitext_spec. Qed.

Lemma py_inj (a b : string) : py a = py b -> a = b.
Proof.
  unfold py. intros H.
  rewrite <- (string_of_list_ascii_of_string a), <- (string_of_list_ascii_of_string b).
  f_equal. revert H.
  generalize (list_ascii_of_string a) (list_ascii_of_string b).
  induction l as [|x l IH]; intros [|y l']; simpl; try discriminate; [reflexivity|].
  intros [= Hxy Hl]. f_equal; [|auto].
  rewrite <- (ascii_N_embedding x), <- (ascii_N_embedding y), Hxy. reflexivity.
Qed.

Lemma pretty_N_go_head (x : N) (s : string) :
  (0 < x)%N -> exists c s', pretty_N_go x s = String c s' /\ c <> "."%char.
Proof.
  revert s. induction (N.lt_wf_0 x) as [x _ IH]. intros s Hx.
  rewrite pretty_N_go_step by assumption.
  destruct (N.eq_dec (x `div` 10)%N 0%N) as [Hz|Hnz].
  - rewrite Hz, pretty_N_go_0. eexists _, _. split; [reflexivity|].
    unfold pretty_N_char. repeat case_match; discriminate.
  - apply IH; [apply N.div_lt; lia|apply N.neq_0_lt_0; assumption].
Qed.

Lemma pretty_Z_head (z : Z) :
  exists c s', pretty z = String c s' /\ c <> "."%char.
Proof.
  destruct z as [|x|x].
  - exists "0"%char, ""%string. split; [reflexivity|discriminate].
  - unfold pretty, pretty_Z, pretty, pretty_positive, pretty, pretty_N.
    rewrite decide_False by discriminate. apply pretty_N_go_head. lia.
  - exists "-"%char, (pretty x). split; [reflexivity|discriminate].
Qed.

Lemma str_of_int_head (z : Z) :
  exists c s', str_of_int z = c :: s' /\ c <> DOT.
Proof.
  destruct (pretty_Z_head z) as (c & s' & Hp & Hc).
  exists (N_of_ascii c), (py s'). unfold str_of_int. rewrite Hp. split; [reflexivity|].
  intros H. apply Hc. rewrite <- (ascii_N_embedding c), H. reflexivity.
Qed.

Lemma str_of_int_inj (a b : Z) : str_of_int a = str_of_int b -> a = b.
Proof. intros H%py_inj. exact (pretty_Z_inj a b H). Qed.

Example splitext_examples :
  splitext posix (py "out/foo.py") = (py "out/foo", py ".py") /\
  splitext posix (py ".hidden") = (py ".hidden", []) /\
  splitext posix (py "v1.2/foo") = (py "v1.2/foo", []) /\
  splitext nt (py "out\foo.py") = (py "out\foo", py ".py").
Proof. repeat split. Qed.

Example archive_filename_example :
  archive_filename posix (example_cfg 3 1000 (py "foo.py") true) 2 = py "foo1.py".
Proof. vm_compute. reflexivity. Qed.

Section Names.
Variable os : os_flavour.
Variable cfg : Config.

(** The archive of an attempt is never the artifact itself. *)
Lemma archive_ne_source (attempt : Z) :
  archive_filename os cfg attempt <> source_file cfg.
Proof.
  unfold archive_filename, base_name.
  destruct (splitext_spec os (source_file cfg)) as [Hsplit Hext].
  rewrite <- Hsplit at 2. intros H%app_inv_head.
  destruct (str_of_int_head (attempt - 1)) as (c & s' & Hd & Hc).
  rewrite Hd in H.
  destruct Hext as [He|[e He]]; rewrite He in H; [discriminate|].
  injection H as H _. contradiction.
Qed.

Lemma archive_ne_temp (attempt : Z) :
  archive_filename os cfg attempt <> TEMP_RUNTIME_ERROR.
Proof.
  unfold archive_filename. intros H. apply (f_equal last) in H.
  change (py ".py") with ([46; 112] ++ [121])%N in H.
  rewrite !app_assoc, last_snoc in H. vm_compute in H. discriminate.
Qed.

Lemma archive_filename_inj (a b : Z) :
  archive_filename os cfg a = archive_filename os cfg b -> a = b.
Proof.
  unfold archive_filename. intros H%app_inv_head%app_inv_tail%str_of_int_inj. lia.
Qed.
End Names.

(** ** The candidate runner *)

Ltac msimpl :=
  repeat (unfold mbind, M_bind, mret, M_ret, raise, emit, get_files, put_files,
          write_file, read_file, remove, copyfile, subprocess_run; cbn [files log]).

Lemma execution_calls_app (l1 l2 : list event) :
  execution_calls (l1 ++ l2) = (execution_calls l1 + execution_calls l2)%nat.
Proof. unfold execution_calls. rewrite List.filter_app, length_app. reflexivity. Qed.

Lemma generation_calls_app (l1 l2 : list event) :
  generation_calls (l1 ++ l2) = (generation_calls l1 + generation_calls l2)%nat.
Proof. unfold generation_calls. rewrite List.filter_app, length_app. reflexivity. Qed.

Lemma archive_copies_app (l1 l2 : list event) :
  archive_copies (l1 ++ l2) = (archive_copies l1 + archive_copies l2)%nat.
Proof. unfold archive_copies. rewrite List.filter_app, length_app. reflexivity. Qed.

Lemma captured_returncode (result : Z * str * str) (rc : Z) (out err : str) :
  captured result = (rc, out, err) -> fst (fst result) = rc.
Proof. intros [= H _ _]. exact H. Qed.

Section Runner.
Variable os : os_flavour.
Variable cfg : Config.
Variable python : nat -> option str -> Z * str * str.

(** What the steps after the archive copy (lines 134-162) do. *)
Lemma write_and_run (code filename : str) (fs1 : gmap str str) (l l0 : list event) :
  execution_calls l = execution_calls l0 ->
  exists script rc out err fs',
    captured (python (execution_calls l0) script) = (rc, out, err) /\
    (write_file filename code;;
     if print_runtime_error_messages cfg then
       '(returncode, stdout, stderr) ← subprocess_run python filename;
       mret (returncode =? 0, universal_newlines stdout, universal_newlines stderr)
     else
       write_file TEMP_RUNTIME_ERROR [];;
       '(returncode, stdout, stderr) ← subprocess_run python filename;
       write_file TEMP_RUNTIME_ERROR stderr;;
       error ← read_file TEMP_RUNTIME_ERROR;
       remove TEMP_RUNTIME_ERROR;;
       mret (returncode =? 0, universal_newlines stdout, error)) (World fs1 l)
    = Ok (rc =? 0, out, err) (World fs' (l ++ [EvExecute script rc])) /\
    (print_runtime_error_messages cfg = true /\ script = Some code /\
       fs' = <[filename := code]> fs1
     \/
     print_runtime_error_messages cfg = false /\
       script = <[TEMP_RUNTIME_ERROR := []]> (<[filename := code]> fs1) !! filename /\
       fs' = delete TEMP_RUNTIME_ERROR (<[filename := code]> fs1)).
Proof.
  intros Hl. rewrite <- Hl.
  destruct (print_runtime_error_messages cfg) eqn:Hflag.
  - destruct (python (execution_calls l) (Some code)) as [[rc out] err] eqn:Hp.
    exists (Some code), rc, (universal_newlines out), (universal_newlines err),
           (<[filename := code]> fs1).
    split; [rewrite Hp; reflexivity|]. split; [|left; auto].
    msimpl. rewrite lookup_insert_eq, Hp. reflexivity.
  - destruct (python (execution_calls l)
                (<[TEMP_RUNTIME_ERROR := []]> (<[filename := code]> fs1) !! filename))
      as [[rc out] err] eqn:Hp.
    eexists _, rc, (universal_newlines out), (universal_newlines err),
            (delete TEMP_RUNTIME_ERROR (<[filename := code]> fs1)).
    split; [rewrite Hp; reflexivity|]. split; [|right; auto].
    msimpl. rewrite Hp. msimpl. rewrite !lookup_insert_eq. msimpl.
    rewrite !lookup_insert_eq. rewrite !delete_insert_eq. reflexivity.
Qed.

(** [test_code] is total on the ideal file store: it fails in
    [shutil.copyfile] or returns after one subprocess. *)
Lemma test_code_spec (code filename : str) (attempt : Z) (w : world) :
  (1 < attempt /\ filename = archive_filename os cfg attempt /\
   is_Some (files w !! filename) /\
   test_code os cfg python code filename attempt w
   = Raise (SameFileError filename) w)
  \/
  (1 < attempt /\ files w !! filename = None /\
   test_code os cfg python code filename attempt w
   = Raise (FileNotFoundError filename) w)
  \/
  exists fs1 copies script rc out err fs',
    (attempt <= 1 /\ fs1 = files w /\ copies = []
     \/
     1 < attempt /\ filename <> archive_filename os cfg attempt /\
     exists old, files w !! filename = Some old /\
       fs1 = <[archive_filename os cfg attempt := old]> (files w) /\
       copies = [EvCopyFile filename (archive_filename os cfg attempt)]) /\
    captured (python (execution_calls (log w)) script) = (rc, out, err) /\
    test_code os cfg python code filename attempt w
    = Ok (rc =? 0, out, err) (World fs' (log w ++ copies ++ [EvExecute script rc])) /\
    (print_runtime_error_messages cfg = true /\ script = Some code /\
       fs' = <[filename := code]> fs1
     \/
     print_runtime_error_messages cfg = false /\
       script = <[TEMP_RUNTIME_ERROR := []]> (<[filename := code]> fs1) !! filename /\
       fs' = delete TEMP_RUNTIME_ERROR (<[filename := code]> fs1)).
Proof.
  unfold test_code. destruct (Z.ltb_spec 1 attempt) as [Hk|Hk].
  - destruct (files w !! filename) as [old|] eqn:Hold.
    2:{ right; left. split; [assumption|]. split; [reflexivity|].
        msimpl. rewrite Hold. reflexivity. }
    destruct (decide (filename = archive_filename os cfg attempt)) as [Heq|Hne].
    { left. split; [assumption|]. split; [assumption|]. split; [eauto|].
      msimpl. rewrite Hold. rewrite bool_decide_eq_true_2 by assumption.
      reflexivity. }
    right; right.
    destruct (write_and_run code filename
                (<[archive_filename os cfg attempt := old]> (files w))
                (log w ++ [EvCopyFile filename (archive_filename os cfg attempt)])
                (log w))
      as (script & rc & out & err & fs' & Hp & Hrun & Hcases).
    { rewrite execution_calls_app. cbn. lia. }
    exists (<[archive_filename os cfg attempt := old]> (files w)),
           [EvCopyFile filename (archive_filename os cfg attempt)],
           script, rc, out, err, fs'.
    split; [right; eauto 10|]. split; [assumption|]. split; [|assumption].
    rewrite app_assoc, <- Hrun. msimpl. rewrite Hold.
    rewrite bool_decide_eq_false_2 by assumption. reflexivity.
  - right; right.
    destruct (write_and_run code filename (files w) (log w) (log w) eq_refl)
      as (script & rc & out & err & fs' & Hp & Hrun & Hcases).
    exists (files w), [], script, rc, out, err, fs'.
    split; [left; auto|]. split; [assumption|]. split; [|assumption].
    rewrite app_nil_l, <- Hrun. msimpl. destruct w; reflexivity.
Qed.
End Runner.

(** ** The refinement loop *)

Lemma chain_app {A} (R : A -> A -> Prop) (l1 l2 : list A) (x y : A) :
  chain R (l1 ++ [x]) -> chain R (y :: l2) -> R x y ->
  chain R (l1 ++ x :: y :: l2).
Proof.
  intros H1 H2 Hxy. induction l1 as [|a l1 IH].
  - constructor; assumption.
  - destruct l1 as [|b l1].
    + inversion H1; subst. constructor; [assumption|]. apply IH. constructor.
    + inversion H1; subst. cbn. constructor; [assumption|]. apply IH. assumption.
Qed.

Lemma chain_adjacent {A} (R : A -> A -> Prop) (pre post : list A) (x y : A) :
  chain R (pre ++ x :: y :: post) -> R x y.
Proof.
  induction pre as [|a pre IH]; intros H.
  - inversion H; subst. assumption.
  - apply IH. destruct pre; inversion H; subst; assumption.
Qed.

Lemma bind_Ok {A B} (m : M A) (f : A -> M B) (w : world) (a : A) (w' : world) :
  m w = Ok a w' -> (m ≫= f) w = f a w'.
Proof. unfold mbind, M_bind. intros ->. reflexivity. Qed.

Lemma bind_Raise {A B} (m : M A) (f : A -> M B) (w : world) (e : exn) (w' : world) :
  m w = Raise e w' -> (m ≫= f) w = Raise e w'.
Proof. unfold mbind, M_bind. intros ->. reflexivity. Qed.

Lemma next_exec_time (cfg : Config) (s : option str) (rc : Z) (t : Q) (b : bool) :
  Qle_bool (max_time cfg) t = b ->
  next_event cfg (EvExecute s rc) (EvTimeCheck t b).
Proof. intros <-. constructor. Qed.

Lemma next_gen_attempt (cfg : Config) (p : str) (n : Z) (b : bool) :
  (max_attempts cfg <? n) = b ->
  next_event cfg (EvGenerate p) (EvAttemptCheck n b).
Proof. intros <-. constructor. Qed.

Lemma chain_copies (cfg : Config) (copies l : list event) (s : option str) (rc : Z) :
  copies = [] \/ (exists a b, copies = [EvCopyFile a b]) ->
  chain (next_event cfg) (EvExecute s rc :: l) ->
  chain (next_event cfg) (copies ++ EvExecute s rc :: l) /\
  (exists e l', copies ++ EvExecute s rc :: l = e :: l' /\
                (is_copy e = true \/ is_execute e = true)).
Proof.
  intros [->|(a & b & ->)] H; cbn [app].
  - split; [assumption|]. eexists _, _. split; [reflexivity|right; reflexivity].
  - split; [constructor; [constructor|assumption]|].
    eexists _, _. split; [reflexivity|left; reflexivity].
Qed.

Lemma failing_trace_time (cfg : Config) (copies : list event) (s : option str)
    (rc : Z) (code : str) (t : Q) (n : Z) :
  copies = [] \/ (exists a b, copies = [EvCopyFile a b]) ->
  Qle_bool (max_time cfg) t = true ->
  failing_trace cfg (copies ++ [EvExecute s rc; EvTimeCheck t true])
    (Final FailedMaxTime code t n).
Proof.
  intros Hc Ht.
  destruct (chain_copies cfg copies [EvTimeCheck t true] s rc Hc) as [H1 H2].
  { constructor; [apply next_exec_time, Ht|constructor]. }
  split; [assumption|]. split; [assumption|]. left. cbn.
  split; [reflexivity|]. split; [assumption|].
  exists (copies ++ [EvExecute s rc]). rewrite <- app_assoc. reflexivity.
Qed.

Lemma failing_trace_attempts (cfg : Config) (copies : list event) (s : option str)
    (rc : Z) (code : str) (t t' : Q) (p : str) (n : Z) :
  copies = [] \/ (exists a b, copies = [EvCopyFile a b]) ->
  Qle_bool (max_time cfg) t = false ->
  (max_attempts cfg <? n) = true ->
  failing_trace cfg
    (copies ++ [EvExecute s rc; EvTimeCheck t false; EvGenerate p;
                EvAttemptCheck n true])
    (Final FailedMaxAttempts code t' n).
Proof.
  intros Hc Ht Hn.
  destruct (chain_copies cfg copies
              [EvTimeCheck t false; EvGenerate p; EvAttemptCheck n true] s rc Hc)
    as [H1 H2].
  { constructor; [apply next_exec_time, Ht|].
    constructor; [constructor; assumption|].
    constructor; [apply next_gen_attempt, Hn|constructor]. }
  split; [assumption|]. split; [assumption|]. right. cbn.
  split; [reflexivity|]. split; [assumption|].
  exists (copies ++ [EvExecute s rc; EvTimeCheck t false; EvGenerate p]).
  rewrite <- app_assoc. reflexivity.
Qed.

Lemma failing_trace_retry (cfg : Config) (copies tr : list event) (s : option str)
    (rc : Z) (t : Q) (p : str) (n : Z) (f : final) :
  copies = [] \/ (exists a b, copies = [EvCopyFile a b]) ->
  Qle_bool (max_time cfg) t = false ->
  (max_attempts cfg <? n) = false ->
  failing_trace cfg tr f ->
  failing_trace cfg
    (copies ++ [EvExecute s rc; EvTimeCheck t false; EvGenerate p;
                EvAttemptCheck n false] ++ tr) f.
Proof.
  intros Hc Ht Hn (Hchain & (e & l & -> & He) & Hend).
  destruct (chain_copies cfg copies
              ([EvTimeCheck t false; EvGenerate p; EvAttemptCheck n false] ++ e :: l)
              s rc Hc) as [H1 H2].
  { constructor; [apply next_exec_time, Ht|].
    constructor; [constructor; assumption|].
    constructor; [apply next_gen_attempt, Hn|].
    constructor; [|assumption].
    destruct e; destruct He as [He|He]; try discriminate He; constructor. }
  split; [assumption|]. split; [assumption|].
  destruct Hend as [(Ho & Hq & pre & Hpre)|(Ho & Hq & pre & Hpre)]; [left|right];
    (split; [assumption|]; split; [assumption|]);
    exists (copies ++ [EvExecute s rc; EvTimeCheck t false; EvGenerate p;
                       EvAttemptCheck n false] ++ pre);
    rewrite Hpre, <- !app_assoc; reflexivity.
Qed.

Section Loop.
Variable os : os_flavour.
Variable cfg : Config.
Variable groq : nat -> str -> str * Q * str.
Variable fmt3 : Q -> str.
Variable float_add : Q -> Q -> Q.
Variable python : nat -> option str -> Z * str * str.

Lemma generate_code_ok (prompt : str) (w : world) :
  exists code t loc,
    generate_code cfg groq fmt3 prompt w
    = Ok (code, t, loc) (World (files w) (log w ++ [EvGenerate prompt])).
Proof.
  unfold generate_code.
  destruct (groq (generation_calls (log w)) prompt) as [[content t] ts].
  destruct (sanitize content) as [code loc]. eauto.
Qed.

Lemma time_exceeded_ok (t : Q) (w : world) :
  time_exceeded cfg t w
  = Ok (Qle_bool (max_time cfg) t)
       (World (files w) (log w ++ [EvTimeCheck t (Qle_bool (max_time cfg) t)])).
Proof. reflexivity. Qed.

Lemma attempts_exceeded_ok (n : Z) (w : world) :
  attempts_exceeded cfg n w
  = Ok (max_attempts cfg <? n)
       (World (files w) (log w ++ [EvAttemptCheck n (max_attempts cfg <? n)])).
Proof. reflexivity. Qed.

Lemma copies_counts (copies l : list event) :
  copies = [] \/ (exists a b, copies = [EvCopyFile a b]) ->
  generation_calls (copies ++ l) = generation_calls l /\
  execution_calls (copies ++ l) = execution_calls l.
Proof. intros [->|(a & b & ->)]; split; reflexivity. Qed.

Hypothesis all_fail : forall i s, fst (fst (python i s)) <> 0.

Lemma refine_failing (fuel : nat) :
  forall (code : str) (t : Q) (n : Z) (w : world),
    1 <= Z.of_nat fuel -> max_attempts cfg - n + 1 <= Z.of_nat fuel ->
    (n <= 1 \/ scratch_collision cfg \/ is_Some (files w !! source_file cfg)) ->
    (exists e w',
        refine os cfg groq fmt3 float_add python fuel code t n w = Raise e w' /\
        scratch_collision cfg)
    \/
    (exists f w' tr,
        refine os cfg groq fmt3 float_add python fuel code t n w = Ok (Some f) w' /\
        log w' = log w ++ tr /\ failing_trace cfg tr f /\
        loop_counts cfg n tr f).
Proof.
  induction fuel as [|fuel IH]; intros code t n w Hfuel1 Hfuel Hpre; [lia|].
  cbn [refine].
  destruct (test_code_spec os cfg python code (source_file cfg) n w)
    as [(Hn & Heq & _ & Htest)|[(Hn & Hnone & Htest)|
        (fs1 & copies & script & rc & out & err & fs' & Hcopy & Hpy & Htest & Hfs)]].
  - symmetry in Heq. destruct (archive_ne_source os cfg n Heq).
  - left. exists (FileNotFoundError (source_file cfg)), w. split.
    + apply bind_Raise, Htest.
    + destruct Hpre as [?|[?|[? Hsome]]]; [lia|assumption|congruence].
  - assert (Hrc : (rc =? 0) = false).
    { apply Z.eqb_neq. specialize (all_fail (execution_calls (log w)) script).
      rewrite (captured_returncode _ _ _ _ Hpy) in all_fail. exact all_fail. }
    assert (Hcopies : copies = [] \/ exists a b, copies = [EvCopyFile a b]).
    { destruct Hcopy as [(_ & _ & ->)|(_ & _ & old & _ & _ & ->)]; eauto. }
    assert (Hfiles : scratch_collision cfg \/ is_Some (fs' !! source_file cfg)).
    { destruct Hfs as [(_ & _ & ->)|(Hflag & _ & ->)].
      - right. rewrite lookup_insert_eq. eauto.
      - destruct (decide (source_file cfg = TEMP_RUNTIME_ERROR)) as [Heq|Hne].
        + left. split; assumption.
        + right. rewrite lookup_delete_ne by congruence.
          rewrite lookup_insert_eq. eauto. }
    rewrite (bind_Ok _ _ _ _ _ Htest), Hrc. cbn beta iota.
    rewrite (bind_Ok _ _ _ _ _ (time_exceeded_ok t _)). cbn [files log].
    destruct (Qle_bool (max_time cfg) t) eqn:Htime.
    + right. eexists _, _, _. split; [reflexivity|]. cbn [log]. split.
      { rewrite <- !app_assoc. reflexivity. }
      cbn [app]. split; [apply failing_trace_time; assumption|].
      unfold loop_counts.
      destruct (copies_counts copies [EvExecute script rc; EvTimeCheck t true]
                  Hcopies) as [-> ->].
      cbn. split; [lia|]. split; [done|discriminate].
    + destruct (generate_code_ok (retry_prompt code err)
                  (World fs' ((log w ++ copies ++ [EvExecute script rc])
                              ++ [EvTimeCheck t false])))
        as (code' & gt & loc & Hgen).
      rewrite (bind_Ok _ _ _ _ _ Hgen). cbn beta iota. cbn [files log].
      rewrite (bind_Ok _ _ _ _ _ (attempts_exceeded_ok (n + 1) _)). cbn [files log].
      destruct (max_attempts cfg <? n + 1) eqn:Hover.
      * right. eexists _, _, _. split; [reflexivity|]. cbn [log]. split.
        { rewrite <- !app_assoc. reflexivity. }
        cbn [app]. split; [apply failing_trace_attempts; assumption|].
        unfold loop_counts.
        destruct (copies_counts copies
                    [EvExecute script rc; EvTimeCheck t false;
                     EvGenerate (retry_prompt code err);
                     EvAttemptCheck (n + 1) true] Hcopies) as [-> ->].
        cbn. apply Z.ltb_lt in Hover. split; [lia|]. split; [discriminate|].
        intros _. split; [reflexivity|lia].
      * apply Z.ltb_ge in Hover.
        match goal with
        | |- context [refine _ _ _ _ _ _ fuel code' ?t' (n + 1) ?w'] =>
            destruct (IH code' t' (n + 1) w') as
              [(e & w2 & Hr & Hcol)|(f & w2 & tr & Hr & Hlog & Htr & Hcount)]
        end.
        -- lia.
        -- lia.
        -- right. exact Hfiles.
        -- left. exists e, w2. split; assumption.
        -- right. exists f, w2. eexists. split; [exact Hr|]. split.
           { rewrite Hlog. cbn [log]. rewrite <- !app_assoc. reflexivity. }
           cbn [app]. split.
           { apply (failing_trace_retry cfg copies tr script rc t
                      (retry_prompt code err) (n + 1) f); try assumption.
             apply Z.ltb_ge, Hover. }
           destruct Hcount as (Ha & Ht & Hm).
           unfold loop_counts.
           destruct (copies_counts copies
                       (EvExecute script rc :: EvTimeCheck t false
                        :: EvGenerate (retry_prompt code err)
                        :: EvAttemptCheck (n + 1) false :: tr) Hcopies)
             as [-> ->].
           change (generation_calls (EvExecute script rc :: EvTimeCheck t false
                     :: EvGenerate (retry_prompt code err)
                     :: EvAttemptCheck (n + 1) false :: tr))
             with (S (generation_calls tr)).
           change (execution_calls (EvExecute script rc :: EvTimeCheck t false
                     :: EvGenerate (retry_prompt code err)
                     :: EvAttemptCheck (n + 1) false :: tr))
             with (S (execution_calls tr)).
           split; [lia|]. split; [intros Ho; rewrite (Ht Ho); reflexivity|].
           intros Ho. destruct (Hm Ho) as [-> Hmax]. split; [reflexivity|lia].
Qed.
End Loop.

(** ** What the log of a failing loop tells *)

Lemma list_snoc_cases {A} (l : list A) : l = [] \/ exists l' x, l = l' ++ [x].
Proof. destruct l as [|x l' _] using rev_ind; eauto. Qed.

(** Both budgets used up at the first failure: the time test comes first and
    decides. *)
Example time_budget_decides_first :
  option_map (fun f => (outcome f, attempts f))
    (mjoin (result_of
       (run posix (example_cfg 1 1 (py "foo.py") true) groq_one_second fmt3_one
          Qplus python_exit_1 (py "Say hello.") empty_world)))
  = Some (FailedMaxTime, 1).
Proof. vm_compute. reflexivity. Qed.

(** C2: with [max_attempts = 3] (and any other attempt budget of at least
    one) a run whose executions all fail and that ends in
    [FailedMaxAttempts] has made three executions but four generation calls:
    the fourth candidate is generated after the third failure and is never
    run. *)
Theorem max_attempts_one_more_generation
    (os : os_flavour) (cfg : Config) (groq : nat -> str -> str * Q * str)
    (fmt3 : Q -> str) (float_add : Q -> Q -> Q)
    (python : nat -> option str -> Z * str * str)
    (prompt : str) (w : world) (f : final) (w' : world) :
  (forall i s, fst (fst (python i s)) <> 0) ->
  1 <= max_attempts cfg ->
  run os cfg groq fmt3 float_add python prompt w = Ok (Some f) w' ->
  outcome f = FailedMaxAttempts ->
  exists tr,
    log w' = log w ++ tr /\
    execution_calls tr = Z.to_nat (max_attempts cfg) /\
    generation_calls tr = S (Z.to_nat (max_attempts cfg)).
Proof.
  intros Hfail Hmax Hrun Ho. unfold run in Hrun.
  destruct (generate_code_ok cfg groq fmt3 prompt w) as (code & t0 & loc & Hgen).
  rewrite (bind_Ok _ _ _ _ _ Hgen) in Hrun. cbn beta iota in Hrun.
  destruct (refine_failing os cfg groq fmt3 float_add python Hfail
              (S (Z.to_nat (max_attempts cfg))) code t0 1
              (World (files w) (log w ++ [EvGenerate prompt])))
    as [(e & w2 & Hr & _)|(f2 & w2 & tr & Hr & Hlog & _ & Ha & _ & Hm)];
    [lia|lia|left; lia|congruence|].
  rewrite Hr in Hrun. injection Hrun as -> ->.
  destruct (Hm Ho) as [He Hn].
  exists (EvGenerate prompt :: tr). split.
  { rewrite Hlog. cbn [log]. rewrite <- app_assoc. reflexivity. }
  change (execution_calls (EvGenerate prompt :: tr)) with (execution_calls tr).
  change (generation_calls (EvGenerate prompt :: tr)) with (S (generation_calls tr)).
  lia.
Qed.

Lemma max_attempts_one_more_generation_witness :
  exists f w',
    run posix (example_cfg 3 1000 (py "foo.py") true) groq_one_second fmt3_one Qplus
      python_exit_1 (py "Say hello.") empty_world = Ok (Some f) w' /\
    outcome f = FailedMaxAttempts /\
    execution_calls (log w') = 3%nat /\ generation_calls (log w') = 4%nat.
Proof.
  assert (Hc : option_map outcome
                 (mjoin (result_of
                   (run posix (example_cfg 3 1000 (py "foo.py") true) groq_one_second
                      fmt3_one Qplus python_exit_1 (py "Say hello.") empty_world)))
               = Some FailedMaxAttempts) by (vm_compute; reflexivity).
  destruct (run posix (example_cfg 3 1000 (py "foo.py") true) groq_one_second
              fmt3_one Qplus python_exit_1 (py "Say hello.") empty_world)
    as [[f|] w'|e w'] eqn:Hrun; try discriminate Hc.
  assert (Ho : outcome f = FailedMaxAttempts).
  { cbn in Hc. congruence. }
  assert (Hfail : forall i s, fst (fst (python_exit_1 i s)) <> 0)
    by (intros; discriminate).
  assert (Hmax : 1 <= max_attempts (example_cfg 3 1000 (py "foo.py") true))
    by (cbn; lia).
  destruct (max_attempts_one_more_generation posix _ _ _ _ _ _ _ f w'
              Hfail Hmax Hrun Ho) as (tr & Hlog & He & Hg).
  exists f, w'. split; [reflexivity|]. split; [exact Ho|].
  rewrite Hlog. cbn [log empty_world app]. rewrite He, Hg. split; reflexivity.
Defined.

(** ** Success *)



(** ** The runner and the file store *)

Section Archive.
Variable os : os_flavour.
Variable cfg : Config.
Variable python : nat -> option str -> Z * str * str.

(** Away from the scratch file, a run of [test_code] that returns leaves
    the candidate in the artifact; from the second attempt on it has first
    copied the former artifact to the archive of the attempt; it touches
    no other file than the scratch file. *)
Lemma test_code_files (code filename : str) (attempt : Z) (w w' : world)
    (r : bool * str * str) :
  print_runtime_error_messages cfg = true \/ filename <> TEMP_RUNTIME_ERROR ->
  test_code os cfg python code filename attempt w = Ok r w' ->
  files w' !! filename = Some code /\
  (attempt <= 1 ->
     archive_copies (log w') = archive_copies (log w) /\
     forall path, path <> filename -> path <> TEMP_RUNTIME_ERROR ->
                  files w' !! path = files w !! path) /\
  (1 < attempt ->
     archive_copies (log w') = S (archive_copies (log w)) /\
     filename <> archive_filename os cfg attempt /\
     files w' !! archive_filename os cfg attempt = files w !! filename /\
     is_Some (files w !! filename) /\
     forall path, path <> filename -> path <> archive_filename os cfg attempt ->
                  path <> TEMP_RUNTIME_ERROR ->
                  files w' !! path = files w !! path).
Proof.
  intros Hsafe Htest.
  destruct (test_code_spec os cfg python code filename attempt w)
    as [(_ & _ & _ & Hr)|[(_ & _ & Hr)|
        (fs1 & copies & script & rc & out & err & fs' & Hcopy & Hpy & Hr & Hfs)]];
    [congruence|congruence|].
  rewrite Hr in Htest. injection Htest as <- <-. cbn [files log].
  assert (Hfs' : fs' !! filename = Some code /\
                 forall path, path <> filename -> path <> TEMP_RUNTIME_ERROR ->
                              fs' !! path = fs1 !! path).
  { destruct Hfs as [(_ & _ & ->)|(Hflag & _ & ->)].
    - split; [apply lookup_insert_eq|].
      intros path Hp _. rewrite lookup_insert_ne by congruence. reflexivity.
    - destruct Hsafe as [Ht|Hne]; [congruence|]. split.
      + rewrite lookup_delete_ne by congruence. apply lookup_insert_eq.
      + intros path Hp Hq. rewrite lookup_delete_ne by congruence.
        rewrite lookup_insert_ne by congruence. reflexivity. }
  destruct Hfs' as [Hart Hother]. split; [exact Hart|].
  destruct Hcopy as [(Hk & -> & ->)|(Hk & Hne & old & Hold & -> & ->)].
  - split; [|intros; lia]. intros _. split; [|exact Hother].
    rewrite archive_copies_app. cbn. lia.
  - split; [intros; lia|]. intros _. split.
    { rewrite archive_copies_app. cbn. lia. }
    split; [exact Hne|]. split.
    { rewrite Hother by (try congruence; apply archive_ne_temp).
      rewrite lookup_insert_eq, Hold. reflexivity. }
    split; [rewrite Hold; eauto|].
    intros path H1 H2 H3. rewrite Hother by assumption.
    rewrite lookup_insert_ne by congruence. reflexivity.
Qed.

(** An attempt leaves the archives of all other attempts alone. *)
Lemma test_code_keeps_other_archives (code : str) (attempt j : Z) (w w' : world)
    (r : bool * str * str) :
  test_code os cfg python code (source_file cfg) attempt w = Ok r w' ->
  j <> attempt ->
  files w' !! archive_filename os cfg j = files w !! archive_filename os cfg j.
Proof.
  intros Htest Hj.
  destruct (test_code_spec os cfg python code (source_file cfg) attempt w)
    as [(_ & _ & _ & Hr)|[(_ & _ & Hr)|
        (fs1 & copies & script & rc & out & err & fs' & Hcopy & Hpy & Hr & Hfs)]];
    [congruence|congruence|].
  rewrite Hr in Htest. injection Htest as <- <-. cbn [files].
  assert (Hfs1 : fs1 !! archive_filename os cfg j
                 = files w !! archive_filename os cfg j).
  { destruct Hcopy as [(_ & -> & _)|(_ & _ & old & _ & -> & _)]; [reflexivity|].
    apply lookup_insert_ne. intros H%archive_filename_inj. congruence. }
  pose proof (archive_ne_source os cfg j) as Hsrc.
  pose proof (archive_ne_temp os cfg j) as Htmp.
  destruct Hfs as [(_ & _ & ->)|(_ & _ & ->)].
  - rewrite lookup_insert_ne by congruence. exact Hfs1.
  - rewrite lookup_delete_ne by congruence.
    rewrite lookup_insert_ne by congruence. exact Hfs1.
Qed.
End Archive.

(** ** Termination and the archives of a run *)

Section Run.
Variable os : os_flavour.
Variable cfg : Config.
Variable groq : nat -> str -> str * Q * str.
Variable fmt3 : Q -> str.
Variable float_add : Q -> Q -> Q.
Variable python : nat -> option str -> Z * str * str.

(** The loop makes at most [max (1, max_attempts)] iterations: with that
    much fuel [refine] ends in a [break] or in an exception. *)
Lemma refine_returns (fuel : nat) :
  forall (code : str) (t : Q) (n : Z) (w w' : world),
    1 <= Z.of_nat fuel -> max_attempts cfg - n + 1 <= Z.of_nat fuel ->
    refine os cfg groq fmt3 float_add python fuel code t n w <> Ok None w'.
Proof.
  induction fuel as [|fuel IH]; intros code t n w w' Hfuel1 Hfuel; [lia|].
  cbn [refine].
  destruct (test_code_spec os cfg python code (source_file cfg) n w)
    as [(_ & _ & _ & Htest)|[(_ & _ & Htest)|
        (fs1 & copies & script & rc & out & err & fs' & _ & _ & Htest & _)]].
  - rewrite (bind_Raise _ _ _ _ _ Htest). discriminate.
  - rewrite (bind_Raise _ _ _ _ _ Htest). discriminate.
  - rewrite (bind_Ok _ _ _ _ _ Htest). destruct (rc =? 0); [discriminate|].
    cbn beta iota.
    rewrite (bind_Ok _ _ _ _ _ (time_exceeded_ok cfg t _)). cbn [files log].
    destruct (Qle_bool (max_time cfg) t); [discriminate|].
    match goal with
    | |- context [generate_code cfg groq fmt3 ?p] =>
        match goal with
        | |- context [mbind _ (generate_code cfg groq fmt3 p) ?w1] =>
            destruct (generate_code_ok cfg groq fmt3 p w1)
              as (code' & gt & loc & Hgen)
        end
    end.
    rewrite (bind_Ok _ _ _ _ _ Hgen). cbn beta iota. cbn [files log].
    rewrite (bind_Ok _ _ _ _ _ (attempts_exceeded_ok cfg (n + 1) _)).
    cbn [files log].
    destruct (max_attempts cfg <? n + 1) eqn:Hover; [discriminate|].
    apply Z.ltb_ge in Hover. apply IH; lia.
Qed.

Lemma run_returns (prompt : str) (w w' : world) :
  run os cfg groq fmt3 float_add python prompt w <> Ok None w'.
Proof.
  unfold run.
  destruct (generate_code_ok cfg groq fmt3 prompt w) as (code & t0 & loc & Hgen).
  rewrite (bind_Ok _ _ _ _ _ Hgen). cbn beta iota. apply refine_returns; lia.
Qed.

(** The loop entered with attempt number [n] leaves the archives of all
    earlier attempts as they are, however it ends. *)
Lemma refine_keeps_earlier_archives (fuel : nat) :
  forall (code : str) (t : Q) (n : Z) (w : world) (j : Z),
    j < n ->
    files (world_of (refine os cfg groq fmt3 float_add python fuel code t n w))
      !! archive_filename os cfg j
    = files w !! archive_filename os cfg j.
Proof.
  induction fuel as [|fuel IH]; intros code t n w j Hj; [reflexivity|].
  cbn [refine].
  destruct (test_code_spec os cfg python code (source_file cfg) n w)
    as [(_ & _ & _ & Htest)|[(_ & _ & Htest)|
        (fs1 & copies & script & rc & out & err & fs' & _ & _ & Htest & _)]].
  - rewrite (bind_Raise _ _ _ _ _ Htest). reflexivity.
  - rewrite (bind_Raise _ _ _ _ _ Htest). reflexivity.
  - pose proof (test_code_keeps_other_archives os cfg python code n j w _ _ Htest)
      as Hkeep.
    cbn [files] in Hkeep. rewrite <- Hkeep by lia.
    rewrite (bind_Ok _ _ _ _ _ Htest). destruct (rc =? 0); [reflexivity|].
    cbn beta iota.
    rewrite (bind_Ok _ _ _ _ _ (time_exceeded_ok cfg t _)). cbn [files log].
    destruct (Qle_bool (max_time cfg) t); [reflexivity|].
    match goal with
    | |- context [mbind _ (generate_code cfg groq fmt3 ?p) ?w1] =>
        destruct (generate_code_ok cfg groq fmt3 p w1)
          as (code' & gt & loc & Hgen)
    end.
    rewrite (bind_Ok _ _ _ _ _ Hgen). cbn beta iota. cbn [files log].
    rewrite (bind_Ok _ _ _ _ _ (attempts_exceeded_ok cfg (n + 1) _)).
    cbn [files log].
    destruct (max_attempts cfg <? n + 1); [reflexivity|].
    rewrite IH by lia. reflexivity.
Qed.
End Run.

(** Away from the scratch file, what [test_code] returns does not depend on
    [print_runtime_error_messages]. *)
Lemma test_code_flag_independent (os : os_flavour) (cfg : Config)
    (python : nat -> option str -> Z * str * str)
    (code filename : str) (attempt : Z) (w : world) :
  filename <> TEMP_RUNTIME_ERROR ->
  result_of (test_code os (with_flag cfg true) python code filename attempt w)
  = result_of (test_code os (with_flag cfg false) python code filename attempt w).
Proof.
  intros Hne.
  pose proof (test_code_spec os (with_flag cfg true) python code filename attempt w)
    as Ht.
  pose proof (test_code_spec os (with_flag cfg false) python code filename attempt w)
    as Hf.
  change (archive_filename os (with_flag cfg true) attempt)
    with (archive_filename os cfg attempt) in Ht.
  change (archive_filename os (with_flag cfg false) attempt)
    with (archive_filename os cfg attempt) in Hf.
  destruct Ht as [(H1 & H2 & H3 & ->)|[(H1 & H2 & ->)|
        (fs1 & copies & script & rc & out & err & fs' & Hcopy & Hpy & -> & Hfs)]].
  - destruct Hf as [(G1 & G2 & G3 & ->)|[(G1 & G2 & ->)|
        (gs1 & copies' & script' & rc' & out' & err' & gs' & Gcopy & Gpy & -> & Gfs)]];
      [reflexivity|reflexivity|].
    destruct Gcopy as [(? & _)|(_ & ? & _)]; [lia|congruence].
  - destruct Hf as [(G1 & G2 & G3 & ->)|[(G1 & G2 & ->)|
        (gs1 & copies' & script' & rc' & out' & err' & gs' & Gcopy & Gpy & -> & Gfs)]];
      [reflexivity|reflexivity|].
    destruct Gcopy as [(? & _)|(_ & _ & old & ? & _)]; [lia|congruence].
  - destruct Hf as [(G1 & G2 & G3 & ->)|[(G1 & G2 & ->)|
        (gs1 & copies' & script' & rc' & out' & err' & gs' & Gcopy & Gpy & -> & Gfs)]].
    + destruct Hcopy as [(? & _)|(_ & ? & _)]; [lia|congruence].
    + destruct Hcopy as [(? & _)|(_ & _ & old & ? & _)]; [lia|congruence].
    + cbn [result_of].
      assert (Hfs1 : fs1 = gs1).
      { destruct Hcopy as [(? & -> & _)|(? & _ & old & Hold & -> & _)];
        destruct Gcopy as [(? & -> & _)|(? & _ & old' & Hold' & -> & _)];
          try lia; [reflexivity|congruence]. }
      subst gs1.
      destruct Hfs as [(_ & -> & _)|(Hflag & _)]; [|discriminate Hflag].
      destruct Gfs as [(Gflag & _)|(_ & -> & _)]; [discriminate Gflag|].
      rewrite lookup_insert_ne, lookup_insert_eq in Gpy by congruence.
      rewrite Hpy in Gpy. injection Gpy as <- <- <-. reflexivity.
Qed.

(** C9 fails on the scratch file: when the artifact is
    [temp_runtime_error.txt], the runner with error messages switched off
    empties the artifact before the interpreter starts, so that the
    interpreter runs the empty script; the two settings of the flag return
    different results for the same candidate. *)
Theorem error_flag_changes_result_on_scratch_artifact :
  result_of (test_code posix (example_cfg 3 1000 TEMP_RUNTIME_ERROR true)
               python_empty_ok exit_1_program TEMP_RUNTIME_ERROR 1 empty_world)
  = Some (false, [], py "Traceback") /\
  result_of (test_code posix (example_cfg 3 1000 TEMP_RUNTIME_ERROR false)
               python_empty_ok exit_1_program TEMP_RUNTIME_ERROR 1 empty_world)
  = Some (true, [], []).
Proof. split; vm_compute; reflexivity. Qed.

(** C4 fails in two places. With error messages switched off and the
    artifact named [temp_runtime_error.txt], a run of [test_code] empties the
    candidate it has just written, lets the interpreter run the empty script
    and removes the artifact; a second attempt then dies in
    [shutil.copyfile] without having made an archive, and a whole run ends
    [Succeeded] on the empty script and leaves no artifact. And in any
    configuration a run that ends in [FailedMaxAttempts] leaves the
    last-but-one candidate in the artifact: the last one is generated and
    never written. *)
Theorem artifact_does_not_hold_latest_candidate :
  (test_code posix (example_cfg 3 1000 TEMP_RUNTIME_ERROR false)
     python_empty_ok exit_1_program TEMP_RUNTIME_ERROR 1 empty_world
   = Ok (true, [], []) (World ∅ [EvExecute (Some []) 0]) /\
   (∅ : gmap str str) !! TEMP_RUNTIME_ERROR = None /\
   test_code posix (example_cfg 3 1000 TEMP_RUNTIME_ERROR false)
     python_empty_ok exit_1_program TEMP_RUNTIME_ERROR 2
     (World ∅ [EvExecute (Some []) 0])
   = Raise (FileNotFoundError TEMP_RUNTIME_ERROR)
       (World ∅ [EvExecute (Some []) 0]) /\
   exists f w',
     run posix (example_cfg 3 1000 TEMP_RUNTIME_ERROR false) groq_one_second
       fmt3_one Qplus python_empty_ok (py "Say hello.") empty_world
     = Ok (Some f) w' /\
     outcome f = Succeeded /\
     files w' !! TEMP_RUNTIME_ERROR = None /\
     archive_copies (log w') = 0%nat /\ execution_calls (log w') = 1%nat) /\
  (exists f w',
     run posix (example_cfg 3 1000 (py "foo.py") true) groq_numbered fmt3_one
       Qplus python_exit_1 (py "Say hello.") empty_world = Ok (Some f) w' /\
     outcome f = FailedMaxAttempts /\
     last_code f = numbered_candidate (example_cfg 3 1000 (py "foo.py") true) 4 /\
     files w' !! py "foo.py"
     = Some (numbered_candidate (example_cfg 3 1000 (py "foo.py") true) 3) /\
     files w' !! py "foo.py" <> Some (last_code f)).
Proof.
  split.
  - split; [vm_compute; reflexivity|]. split; [reflexivity|].
    split; [vm_compute; reflexivity|].
    eexists _, _. split; [vm_compute; reflexivity|]. repeat split.
  - eexists _, _. split; [vm_compute; reflexivity|].
    split; [reflexivity|]. split; [vm_compute; reflexivity|].
    split; [vm_compute; reflexivity|]. vm_compute. discriminate.
Qed.

(** * Runs of the loop and of the whole program *)

(** ** One iteration of the loop *)

Lemma generate_code_eq (cfg : Config) (groq : nat -> str -> str * Q * str)
    (fmt3 : Q -> str) (prompt : str) (w : world) :
  generate_code cfg groq fmt3 prompt w
  = Ok (candidate_of cfg fmt3 (groq (generation_calls (log w)) prompt),
        snd (fst (groq (generation_calls (log w)) prompt)),
        snd (sanitize (fst (fst (groq (generation_calls (log w)) prompt)))))
       (World (files w) (log w ++ [EvGenerate prompt])).
Proof.
  unfold generate_code, candidate_of.
  destruct (groq (generation_calls (log w)) prompt) as [[content t] ts].
  cbn [fst snd]. destruct (sanitize content) as [code loc]. reflexivity.
Qed.

Section Iteration.
Variable os : os_flavour.
Variable cfg : Config.
Variable groq : nat -> str -> str * Q * str.
Variable fmt3 : Q -> str.
Variable float_add : Q -> Q -> Q.
Variable python : nat -> option str -> Z * str * str.

(** The body of the [while] loop, by cases on what [test_code] and the two
    tests give. *)
Lemma refine_unfold (fuel : nat) (code : str) (t : Q) (n : Z) (w : world) :
  refine os cfg groq fmt3 float_add python (S fuel) code t n w
  = match test_code os cfg python code (source_file cfg) n w with
    | Raise e w' => Raise e w'
    | Ok (true, _, _) w1 => Ok (Some (Final Succeeded code t n)) w1
    | Ok (false, _, error) w1 =>
        if Qle_bool (max_time cfg) t
        then Ok (Some (Final FailedMaxTime code t n))
               (World (files w1) (log w1 ++ [EvTimeCheck t true]))
        else
          let answer := groq (generation_calls (log w1)) (retry_prompt code error) in
          if max_attempts cfg <? n + 1
          then Ok (Some (Final FailedMaxAttempts (candidate_of cfg fmt3 answer)
                           (float_add t (snd (fst answer))) (n + 1)))
                 (after_retry cfg w1 t code error n)
          else refine os cfg groq fmt3 float_add python fuel
                 (candidate_of cfg fmt3 answer)
                 (float_add t (snd (fst answer))) (n + 1)
                 (after_retry cfg w1 t code error n)
    end.
Proof.
  cbn [refine]. unfold mbind at 1, M_bind at 1.
  destruct (test_code os cfg python code (source_file cfg) n w)
    as [[[success out] err] w1|e w']; [|reflexivity].
  destruct success; [reflexivity|].
  rewrite (bind_Ok _ _ _ _ _ (time_exceeded_ok cfg t _)). cbn [files log].
  destruct (Qle_bool (max_time cfg) t); [reflexivity|].
  rewrite (bind_Ok _ _ _ _ _ (generate_code_eq _ _ _ _ _)). cbn beta iota.
  cbn [files log].
  rewrite (bind_Ok _ _ _ _ _ (attempts_exceeded_ok cfg (n + 1) _)). cbn [files log].
  rewrite generation_calls_app. cbn [generation_calls List.filter is_generate length].
  rewrite Nat.add_0_r. unfold after_retry.
  rewrite <- !app_assoc. cbn [app].
  destruct (max_attempts cfg <? n + 1); reflexivity.
Qed.

(** Induction along the iterations of the loop. *)
Lemma refine_induction
    (P : nat -> str -> Q -> Z -> world -> res (option final) -> Prop) :
  (forall code t n w, P O code t n w (Ok None w)) ->
  (forall fuel code t n w e w',
      test_code os cfg python code (source_file cfg) n w = Raise e w' ->
      P (S fuel) code t n w (Raise e w')) ->
  (forall fuel code t n w out err w1,
      test_code os cfg python code (source_file cfg) n w = Ok (true, out, err) w1 ->
      P (S fuel) code t n w (Ok (Some (Final Succeeded code t n)) w1)) ->
  (forall fuel code t n w out err w1,
      test_code os cfg python code (source_file cfg) n w = Ok (false, out, err) w1 ->
      Qle_bool (max_time cfg) t = true ->
      P (S fuel) code t n w
        (Ok (Some (Final FailedMaxTime code t n))
            (World (files w1) (log w1 ++ [EvTimeCheck t true])))) ->
  (forall fuel code t n w out err w1,
      test_code os cfg python code (source_file cfg) n w = Ok (false, out, err) w1 ->
      Qle_bool (max_time cfg) t = false ->
      (max_attempts cfg <? n + 1) = true ->
      P (S fuel) code t n w
        (Ok (Some (Final FailedMaxAttempts
                     (candidate_of cfg fmt3
                        (groq (generation_calls (log w1)) (retry_prompt code err)))
                     (float_add t
                        (snd (fst (groq (generation_calls (log w1))
                                     (retry_prompt code err)))))
                     (n + 1)))
            (after_retry cfg w1 t code err n))) ->
  (forall fuel code t n w out err w1 r,
      test_code os cfg python code (source_file cfg) n w = Ok (false, out, err) w1 ->
      Qle_bool (max_time cfg) t = false ->
      (max_attempts cfg <? n + 1) = false ->
      P fuel
        (candidate_of cfg fmt3
           (groq (generation_calls (log w1)) (retry_prompt code err)))
        (float_add t
           (snd (fst (groq (generation_calls (log w1)) (retry_prompt code err)))))
        (n + 1) (after_retry cfg w1 t code err n) r ->
      P (S fuel) code t n w r) ->
  forall fuel code t n w,
    P fuel code t n w (refine os cfg groq fmt3 float_add python fuel code t n w).
Proof.
  intros H0 Hraise Hok Htime Hatt Hrec.
  induction fuel as [|fuel IH]; intros code t n w; [apply H0|].
  rewrite refine_unfold.
  destruct (test_code os cfg python code (source_file cfg) n w)
    as [[[success out] err] w1|e w'] eqn:Htest; [|eapply Hraise, Htest].
  destruct success; [eapply Hok, Htest|].
  destruct (Qle_bool (max_time cfg) t) eqn:Ht; [eapply Htime; eassumption|].
  cbn zeta.
  destruct (max_attempts cfg <? n + 1) eqn:Hn; [eapply Hatt; eassumption|].
  eapply Hrec; try eassumption. apply IH.
Qed.
End Iteration.

(** ** What [test_code] does in the loop *)

Section LoopRunner.
Variable os : os_flavour.
Variable cfg : Config.
Variable python : nat -> option str -> Z * str * str.

(** On the artifact, [test_code] fails only for want of the file to archive;
    otherwise it logs the copy (from the second attempt on) and the
    execution, and changes the artifact, the archive of the attempt and the
    scratch file only. *)
Lemma test_code_in_loop (code : str) (n : Z) (w : world) :
  (1 < n /\ files w !! source_file cfg = None /\
   test_code os cfg python code (source_file cfg) n w
   = Raise (FileNotFoundError (source_file cfg)) w)
  \/
  exists script rc out err w1,
    test_code os cfg python code (source_file cfg) n w = Ok (rc =? 0, out, err) w1 /\
    captured (python (execution_calls (log w)) script) = (rc, out, err) /\
    log w1 = log w
             ++ (if 1 <? n
                 then [EvCopyFile (source_file cfg) (archive_filename os cfg n)]
                 else [])
             ++ [EvExecute script rc] /\
    (1 < n -> is_Some (files w !! source_file cfg) /\
              files w1 !! archive_filename os cfg n = files w !! source_file cfg) /\
    (forall path, path <> source_file cfg -> path <> TEMP_RUNTIME_ERROR ->
                  (1 < n -> path <> archive_filename os cfg n) ->
                  files w1 !! path = files w !! path) /\
    (scratch_collision cfg /\ script = Some [] /\ files w1 !! source_file cfg = None
     \/
     ~ scratch_collision cfg /\ script = Some code /\
     files w1 !! source_file cfg = Some code).
Proof.
  destruct (test_code_spec os cfg python code (source_file cfg) n w)
    as [(_ & Heq & _)|[(Hn & Hnone & Htest)|
        (fs1 & copies & script & rc & out & err & fs' & Hcopy & Hpy & Htest & Hfs)]].
  - symmetry in Heq. destruct (archive_ne_source os cfg n Heq).
  - left. auto.
  - right.
    exists script, rc, out, err, (World fs' (log w ++ copies ++ [EvExecute script rc])).
    split; [exact Htest|]. split; [exact Hpy|]. cbn [files log].
    pose proof (archive_ne_source os cfg n) as Hsrc.
    pose proof (archive_ne_temp os cfg n) as Htmp.
    assert (Hoff : forall path, path <> source_file cfg -> path <> TEMP_RUNTIME_ERROR ->
                     fs' !! path = fs1 !! path).
    { intros path H1 H2. destruct Hfs as [(_ & _ & ->)|(_ & _ & ->)].
      - rewrite lookup_insert_ne by congruence. reflexivity.
      - rewrite lookup_delete_ne by congruence.
        rewrite lookup_insert_ne by congruence. reflexivity. }
    split.
    { destruct Hcopy as [(Hn & _ & ->)|(Hn & _ & old & _ & _ & ->)].
      - destruct (Z.ltb_spec 1 n); [lia|reflexivity].
      - destruct (Z.ltb_spec 1 n); [reflexivity|lia]. }
    split.
    { intros Hn. destruct Hcopy as [(? & _)|(_ & _ & old & Hold & -> & _)]; [lia|].
      split; [rewrite Hold; eauto|].
      rewrite Hoff by assumption. rewrite lookup_insert_eq, Hold. reflexivity. }
    split.
    { intros path H1 H2 H3. rewrite Hoff by assumption.
      destruct Hcopy as [(_ & -> & _)|(Hn & _ & old & _ & -> & _)]; [reflexivity|].
      rewrite lookup_insert_ne by (specialize (H3 Hn); congruence). reflexivity. }
    destruct Hfs as [(Hflag & -> & ->)|(Hflag & -> & ->)].
    + right. split; [intros [Hc _]; congruence|].
      split; [reflexivity|apply lookup_insert_eq].
    + destruct (decide (source_file cfg = TEMP_RUNTIME_ERROR)) as [Heq|Hne].
      * left. split; [split; assumption|]. rewrite Heq.
        rewrite lookup_insert_eq, lookup_delete_eq. auto.
      * right. split; [intros [_ Hc]; congruence|].
        rewrite lookup_insert_ne, lookup_insert_eq by congruence.
        rewrite lookup_delete_ne, lookup_insert_eq by congruence. auto.
Qed.
End LoopRunner.

(** ** Counting the calls of a run *)

Section Tally.
Variable os : os_flavour.
Variable cfg : Config.
Variable groq : nat -> str -> str * Q * str.
Variable fmt3 : Q -> str.
Variable float_add : Q -> Q -> Q.
Variable python : nat -> option str -> Z * str * str.

Lemma tally_of_block (b : bool) (src dst : str) (l : list event) :
  execution_calls ((if b then [EvCopyFile src dst] else []) ++ l)
  = execution_calls l /\
  generation_calls ((if b then [EvCopyFile src dst] else []) ++ l)
  = generation_calls l /\
  archive_copies ((if b then [EvCopyFile src dst] else []) ++ l)
  = ((if b then 1 else 0) + archive_copies l)%nat.
Proof. destruct b; repeat split. Qed.

Lemma refine_tally (fuel : nat) (code : str) (t : Q) (n : Z) (w : world) :
  1 <= n ->
  n <= 1 \/ scratch_collision cfg \/ is_Some (files w !! source_file cfg) ->
  match refine os cfg groq fmt3 float_add python fuel code t n w with
  | Raise e w' => scratch_collision cfg /\ e = FileNotFoundError (source_file cfg)
  | Ok None _ => True
  | Ok (Some f) w' => exists tr, log w' = log w ++ tr /\ loop_tally cfg n tr f
  end.
Proof.
  revert fuel code t n w.
  apply (refine_induction os cfg groq fmt3 float_add python
    (fun fuel code t n w r =>
       1 <= n ->
       n <= 1 \/ scratch_collision cfg \/ is_Some (files w !! source_file cfg) ->
       match r with
       | Raise e w' => scratch_collision cfg /\ e = FileNotFoundError (source_file cfg)
       | Ok None _ => True
       | Ok (Some f) w' => exists tr, log w' = log w ++ tr /\ loop_tally cfg n tr f
       end)).
  - trivial.
  - intros fuel code t n w e w' Htest Hn Hpre.
    destruct (test_code_in_loop os cfg python code n w)
      as [(Hk & Hnone & Hr)|(script & rc & out & err & w1 & Hr & _)];
      [|congruence].
    rewrite Hr in Htest. injection Htest as <- <-.
    split; [|reflexivity].
    destruct Hpre as [?|[?|[? Hs]]]; [lia|assumption|congruence].
  - intros fuel code t n w out err w1 Htest Hn Hpre.
    destruct (test_code_in_loop os cfg python code n w)
      as [(_ & _ & Hr)|(script & rc & out' & err' & w1' & Hr & _ & Hlog & _)];
      [congruence|].
    rewrite Hr in Htest. injection Htest as _ _ _ <-.
    eexists. split; [exact Hlog|]. unfold loop_tally.
    destruct (tally_of_block (1 <? n) (source_file cfg) (archive_filename os cfg n)
                [EvExecute script rc])
      as (-> & -> & ->).
    cbn. destruct (1 <? n); repeat split; lia.
  - intros fuel code t n w out err w1 Htest Ht Hn Hpre.
    destruct (test_code_in_loop os cfg python code n w)
      as [(_ & _ & Hr)|(script & rc & out' & err' & w1' & Hr & _ & Hlog & _)];
      [congruence|].
    rewrite Hr in Htest. injection Htest as _ _ _ <-.
    eexists. split.
    { cbn [log]. rewrite Hlog, <- !app_assoc. reflexivity. }
    unfold loop_tally. cbn [app].
    destruct (tally_of_block (1 <? n) (source_file cfg) (archive_filename os cfg n)
                [EvExecute script rc; EvTimeCheck t true]) as (-> & -> & ->).
    cbn. destruct (1 <? n); repeat split; lia.
  - intros fuel code t n w out err w1 Htest Ht Hover Hn Hpre.
    destruct (test_code_in_loop os cfg python code n w)
      as [(_ & _ & Hr)|(script & rc & out' & err' & w1' & Hr & _ & Hlog & _)];
      [congruence|].
    rewrite Hr in Htest. injection Htest as _ _ <- <-.
    eexists. split.
    { unfold after_retry. cbn [log]. rewrite Hlog, <- !app_assoc. reflexivity. }
    unfold loop_tally. cbn [app].
    destruct (tally_of_block (1 <? n) (source_file cfg) (archive_filename os cfg n)
                [EvExecute script rc; EvTimeCheck t false;
                 EvGenerate (retry_prompt code err');
                 EvAttemptCheck (n + 1) (max_attempts cfg <? n + 1)])
      as (-> & -> & ->).
    cbn. destruct (1 <? n); repeat split; lia.
  - intros fuel code t n w out err w1 r Htest Ht Hover IH Hn Hpre.
    destruct (test_code_in_loop os cfg python code n w)
      as [(_ & _ & Hr)|(script & rc & out' & err' & w1' & Hr & _ & Hlog & _ & _ & Hsrc)];
      [congruence|].
    rewrite Hr in Htest. injection Htest as _ _ <- <-.
    assert (Hpre' : n + 1 <= 1 \/ scratch_collision cfg \/
                    is_Some (files (after_retry cfg w1' t code err' n)
                             !! source_file cfg)).
    { cbn [after_retry files].
      destruct Hsrc as [(Hc & _)|(_ & _ & ->)]; eauto. }
    specialize (IH ltac:(lia) Hpre').
    destruct r as [[f|] w'|e w']; [|trivial|exact IH].
    destruct IH as (tr' & Hlog' & Hk & Hmax & Hc & Hg & Ha).
    apply Z.ltb_ge in Hover.
    exists ((if 1 <? n
             then [EvCopyFile (source_file cfg) (archive_filename os cfg n)]
             else [])
            ++ [EvExecute script rc; EvTimeCheck t false;
                EvGenerate (retry_prompt code err');
                EvAttemptCheck (n + 1) (max_attempts cfg <? n + 1)] ++ tr').
    split.
    { rewrite Hlog'. unfold after_retry. cbn [log]. rewrite Hlog, <- !app_assoc.
      reflexivity. }
    unfold loop_tally.
    destruct (tally_of_block (1 <? n) (source_file cfg) (archive_filename os cfg n)
                ([EvExecute script rc; EvTimeCheck t false;
                  EvGenerate (retry_prompt code err');
                  EvAttemptCheck (n + 1) (max_attempts cfg <? n + 1)] ++ tr'))
      as (-> & -> & ->).
    change (execution_calls (_ ++ tr')) with (S (execution_calls tr')).
    change (generation_calls (_ ++ tr')) with (S (generation_calls tr')).
    change (archive_copies (_ ++ tr')) with (archive_copies tr').
    destruct (Z.ltb_spec 1 (n + 1)); [|lia]. rewrite Hc.
    split; [lia|]. split; [lia|]. split.
    { destruct (1 <? n); lia. }
    split; [|lia]. rewrite Hg. destruct (outcome f); lia.
Qed.
End Tally.

Lemma length_prompts (l : list event) : length (prompts l) = generation_calls l.
Proof.
  induction l as [|e l IH]; [reflexivity|].
  destruct e; cbn [prompts length]; rewrite ?IH; reflexivity.
Qed.

Lemma length_durations (groq : nat -> str -> str * Q * str) (i : nat)
    (l : list event) :
  length (durations groq i l) = generation_calls l.
Proof.
  revert i. induction l as [|e l IH]; intros i; [reflexivity|].
  destruct e; cbn [durations length]; rewrite ?IH; reflexivity.
Qed.

(** ** The total generation time *)

Section Total.
Variable os : os_flavour.
Variable cfg : Config.
Variable groq : nat -> str -> str * Q * str.
Variable fmt3 : Q -> str.
Variable float_add : Q -> Q -> Q.
Variable python : nat -> option str -> Z * str * str.

Lemma durations_of_block (b : bool) (src dst : str) (s : option str) (rc : Z)
    (i : nat) (l : list event) :
  durations groq i ((if b then [EvCopyFile src dst] else []) ++ EvExecute s rc :: l)
  = durations groq i l.
Proof. destruct b; reflexivity. Qed.

Lemma generation_calls_of_block (b : bool) (src dst : str) (s : option str)
    (rc : Z) (l : list event) :
  generation_calls (l ++ (if b then [EvCopyFile src dst] else [])
                      ++ [EvExecute s rc])
  = generation_calls l.
Proof.
  rewrite generation_calls_app. destruct b; cbn; lia.
Qed.

Lemma refine_total (fuel : nat) (code : str) (t : Q) (n : Z) (w : world)
    (f : final) (w' : world) :
  refine os cfg groq fmt3 float_add python fuel code t n w = Ok (Some f) w' ->
  exists tr,
    log w' = log w ++ tr /\
    total_gen_time f
    = fold_left float_add (durations groq (generation_calls (log w)) tr) t.
Proof.
  revert f w'. revert fuel code t n w.
  apply (refine_induction os cfg groq fmt3 float_add python
    (fun fuel code t n w r =>
       forall f w', r = Ok (Some f) w' ->
       exists tr,
         log w' = log w ++ tr /\
         total_gen_time f
         = fold_left float_add (durations groq (generation_calls (log w)) tr) t)).
  - discriminate.
  - discriminate.
  - intros fuel code t n w out err w1 Htest f w' [= <- <-].
    destruct (test_code_in_loop os cfg python code n w)
      as [(_ & _ & Hr)|(script & rc & out' & err' & w1' & Hr & _ & Hlog & _)];
      [congruence|].
    rewrite Hr in Htest. injection Htest as _ _ _ <-.
    eexists. split; [exact Hlog|]. rewrite durations_of_block. reflexivity.
  - intros fuel code t n w out err w1 Htest Ht f w' [= <- <-].
    destruct (test_code_in_loop os cfg python code n w)
      as [(_ & _ & Hr)|(script & rc & out' & err' & w1' & Hr & _ & Hlog & _)];
      [congruence|].
    rewrite Hr in Htest. injection Htest as _ _ _ <-.
    eexists. split.
    { cbn [log]. rewrite Hlog, <- !app_assoc. reflexivity. }
    cbn [app]. rewrite durations_of_block. reflexivity.
  - intros fuel code t n w out err w1 Htest Ht Hover f w' [= <- <-].
    destruct (test_code_in_loop os cfg python code n w)
      as [(_ & _ & Hr)|(script & rc & out' & err' & w1' & Hr & _ & Hlog & _)];
      [congruence|].
    rewrite Hr in Htest. injection Htest as _ _ <- <-.
    eexists. split.
    { unfold after_retry. cbn [log]. rewrite Hlog, <- !app_assoc. reflexivity. }
    cbn [app]. rewrite durations_of_block. cbn [durations fold_left total_gen_time].
    rewrite Hlog, generation_calls_of_block. reflexivity.
  - intros fuel code t n w out err w1 r Htest Ht Hover IH f w' Hr'.
    destruct (test_code_in_loop os cfg python code n w)
      as [(_ & _ & Hr)|(script & rc & out' & err' & w1' & Hr & _ & Hlog & _)];
      [congruence|].
    rewrite Hr in Htest. injection Htest as _ _ <- <-.
    destruct (IH f w' Hr') as (tr' & Hlog' & Htot).
    eexists. split.
    { rewrite Hlog'. unfold after_retry. cbn [log]. rewrite Hlog, <- !app_assoc.
      reflexivity. }
    cbn [app]. rewrite durations_of_block. cbn [durations fold_left].
    rewrite Htot. unfold after_retry. cbn [log].
    rewrite !generation_calls_app, Hlog, generation_calls_of_block.
    cbn [generation_calls List.filter is_generate length].
    replace (generation_calls (log w) + 1)%nat with (S (generation_calls (log w)))
      by lia.
    reflexivity.
Qed.
End Total.

(** ** What is run, what is asked, what is copied *)

Lemma scripts_of_block (b : bool) (src dst : str) (s : option str) (rc : Z)
    (l : list event) :
  scripts ((if b then [EvCopyFile src dst] else []) ++ EvExecute s rc :: l)
  = s :: scripts l.
Proof. destruct b; reflexivity. Qed.

Lemma prompts_of_block (b : bool) (src dst : str) (s : option str) (rc : Z)
    (l : list event) :
  prompts ((if b then [EvCopyFile src dst] else []) ++ EvExecute s rc :: l)
  = prompts l.
Proof. destruct b; reflexivity. Qed.

Lemma execution_calls_of_block (b : bool) (src dst : str) (s : option str)
    (rc : Z) (l : list event) :
  execution_calls (l ++ (if b then [EvCopyFile src dst] else [])
                     ++ [EvExecute s rc])
  = S (execution_calls l).
Proof.
  rewrite execution_calls_app. destruct b; cbn; lia.
Qed.

Lemma log_of_block (l0 l1 blk rest : list event) (e : event) :
  l1 = l0 ++ blk ++ [e] -> l1 ++ rest = l0 ++ blk ++ e :: rest.
Proof. intros ->. rewrite <- !app_assoc. reflexivity. Qed.

Section Feedback.
Variable os : os_flavour.
Variable cfg : Config.
Variable groq : nat -> str -> str * Q * str.
Variable fmt3 : Q -> str.
Variable float_add : Q -> Q -> Q.
Variable python : nat -> option str -> Z * str * str.

(** One execution of the loop whose artifact is not the scratch file. *)
Lemma test_code_plain (code : str) (n : Z) (w : world) (ok : bool)
    (out err : str) (w1 : world) :
  ~ scratch_collision cfg ->
  test_code os cfg python code (source_file cfg) n w = Ok (ok, out, err) w1 ->
  exists rc blk,
    ok = (rc =? 0) /\
    captured (python (execution_calls (log w)) (Some code)) = (rc, out, err) /\
    log w1 = log w ++ blk ++ [EvExecute (Some code) rc] /\
    blk = (if 1 <? n
           then [EvCopyFile (source_file cfg) (archive_filename os cfg n)]
           else []) /\
    files w1 !! source_file cfg = Some code /\
    (1 < n -> files w1 !! archive_filename os cfg n = files w !! source_file cfg) /\
    (forall path, path <> source_file cfg -> path <> TEMP_RUNTIME_ERROR ->
       (1 < n -> path <> archive_filename os cfg n) ->
       files w1 !! path = files w !! path).
Proof.
  intros Hnc Htest.
  destruct (test_code_in_loop os cfg python code n w)
    as [(_ & _ & Hr)|(script & rc & out' & err' & w1' & Hr & Hpy & Hlog & Harch
                      & Hframe & [(Hc & _)|(_ & -> & Hsrc)])];
    [congruence|contradiction|].
  rewrite Hr in Htest. injection Htest as <- <- <- <-.
  exists rc. eexists. split; [reflexivity|]. split; [exact Hpy|].
  split; [exact Hlog|]. split; [reflexivity|]. split; [exact Hsrc|].
  split; [|exact Hframe]. intros Hn. apply Harch, Hn.
Qed.

Lemma refine_feedback (fuel : nat) (code : str) (t : Q) (n : Z) (w : world)
    (f : final) (w' : world) :
  ~ scratch_collision cfg ->
  refine os cfg groq fmt3 float_add python fuel code t n w = Ok (Some f) w' ->
  exists tr,
    log w' = log w ++ tr /\
    scripts tr !! 0%nat = Some (Some code) /\
    (forall (j : nat) (p : str), prompts tr !! j = Some p ->
       exists c rc out err,
         scripts tr !! j = Some (Some c) /\
         captured (python (execution_calls (log w) + j) (Some c)) = (rc, out, err) /\
         rc <> 0 /\ p = retry_prompt c err) /\
    (forall (j : nat) (s : option str), scripts tr !! S j = Some s ->
       exists p,
         prompts tr !! j = Some p /\
         s = Some (candidate_of cfg fmt3 (groq (generation_calls (log w) + j) p))).
Proof.
  intros Hnc. revert f w'. revert fuel code t n w.
  apply (refine_induction os cfg groq fmt3 float_add python
    (fun fuel code t n w r =>
       forall f w', r = Ok (Some f) w' ->
       exists tr,
         log w' = log w ++ tr /\
         scripts tr !! 0%nat = Some (Some code) /\
         (forall (j : nat) (p : str), prompts tr !! j = Some p ->
            exists c rc out err,
              scripts tr !! j = Some (Some c) /\
              captured (python (execution_calls (log w) + j) (Some c)) = (rc, out, err) /\
              rc <> 0 /\ p = retry_prompt c err) /\
         (forall (j : nat) (s : option str), scripts tr !! S j = Some s ->
            exists p,
              prompts tr !! j = Some p /\
              s = Some (candidate_of cfg fmt3
                          (groq (generation_calls (log w) + j) p))))).
  - discriminate.
  - discriminate.
  - intros fuel code t n w out err w1 Htest f w' [= <- <-].
    destruct (test_code_plain _ _ _ _ _ _ _ Hnc Htest)
      as (rc & blk & _ & _ & Hlog & -> & _).
    eexists. split; [exact Hlog|].
    rewrite scripts_of_block, prompts_of_block. cbn [scripts prompts].
    split; [reflexivity|]. split; intros j ?; [discriminate|]. discriminate.
  - intros fuel code t n w out err w1 Htest Ht f w' [= <- <-].
    destruct (test_code_plain _ _ _ _ _ _ _ Hnc Htest)
      as (rc & blk & _ & _ & Hlog & -> & _).
    eexists. split; [cbn [log]; apply log_of_block, Hlog|].
    rewrite scripts_of_block, prompts_of_block. cbn [scripts prompts].
    split; [reflexivity|]. split; intros j ?; [discriminate|]. discriminate.
  - intros fuel code t n w out err w1 Htest Ht Hover f w' [= <- <-].
    destruct (test_code_plain _ _ _ _ _ _ _ Hnc Htest)
      as (rc & blk & Hrc & Hpy & Hlog & -> & _).
    eexists. split; [unfold after_retry; cbn [log]; apply log_of_block, Hlog|].
    rewrite scripts_of_block, prompts_of_block. cbn [scripts prompts].
    split; [reflexivity|]. split.
    + intros [|j] p; [|discriminate]. intros [= <-].
      exists code, rc, out, err. rewrite Nat.add_0_r.
      split; [reflexivity|]. split; [exact Hpy|]. split; [|reflexivity].
      intros ->. discriminate.
    + intros j s. discriminate.
  - intros fuel code t n w out err w1 r Htest Ht Hover IH f w' Hr.
    destruct (test_code_plain _ _ _ _ _ _ _ Hnc Htest)
      as (rc & blk & Hrc & Hpy & Hlog & -> & _).
    destruct (IH f w' Hr) as (tr' & Hlog' & Hs0 & Hp & Hs).
    unfold after_retry in Hlog', Hp, Hs. cbn [log] in Hlog', Hp, Hs.
    rewrite (log_of_block _ _ _ _ _ Hlog) in Hlog'.
    rewrite <- !app_assoc in Hlog'. cbn [app] in Hlog'.
    eexists. split; [exact Hlog'|].
    rewrite scripts_of_block, prompts_of_block. cbn [scripts prompts].
    split; [reflexivity|]. split.
    + intros [|j] p.
      * intros [= <-]. exists code, rc, out, err. rewrite Nat.add_0_r.
        split; [reflexivity|]. split; [exact Hpy|]. split; [|reflexivity].
        intros ->. discriminate.
      * intros Hj. destruct (Hp j p Hj) as (c & rc' & out' & err' & H1 & H2 & H3 & H4).
        exists c, rc', out', err'. split; [exact H1|]. split; [|split; assumption].
        rewrite <- H2. do 2 f_equal.
        rewrite execution_calls_app, Hlog, execution_calls_of_block. cbn. lia.
    + intros [|j] s.
      * intros Hj. change (scripts tr' !! 0%nat = Some s) in Hj.
        rewrite Hs0 in Hj. injection Hj as <-.
        eexists. split; [reflexivity|]. rewrite Nat.add_0_r.
        rewrite Hlog, generation_calls_of_block. reflexivity.
      * intros Hj. change (scripts tr' !! S j = Some s) in Hj.
        destruct (Hs j s Hj) as (p & H1 & H2). exists p. split; [exact H1|].
        rewrite H2. do 3 f_equal.
        rewrite generation_calls_app, Hlog, generation_calls_of_block. cbn. lia.
Qed.

Lemma test_code_block (code : str) (n : Z) (w : world) (r : bool * str * str)
    (w1 : world) :
  test_code os cfg python code (source_file cfg) n w = Ok r w1 ->
  exists s rc,
    log w1 = log w
             ++ (if 1 <? n
                 then [EvCopyFile (source_file cfg) (archive_filename os cfg n)]
                 else [])
             ++ [EvExecute s rc].
Proof.
  intros Htest.
  destruct (test_code_in_loop os cfg python code n w)
    as [(_ & _ & Hr)|(script & rc & out' & err' & w1' & Hr & _ & Hlog & _)];
    [congruence|].
  rewrite Hr in Htest. injection Htest as _ <-. eauto.
Qed.

(** The copies of the loop entered with attempt number [n]. *)
Lemma refine_copies (fuel : nat) (code : str) (t : Q) (n : Z) (w : world)
    (f : final) (w' : world) :
  1 <= n ->
  refine os cfg groq fmt3 float_add python fuel code t n w = Ok (Some f) w' ->
  exists tr,
    log w' = log w ++ tr /\
    copy_calls tr
    = (if 1 <? n then [(source_file cfg, archive_filename os cfg n)] else [])
      ++ map (fun j : nat => (source_file cfg, archive_filename os cfg (n + Z.of_nat j)))
           (seq 1 (execution_calls tr - 1)) /\
    (1 <= execution_calls tr)%nat.
Proof.
  revert f w'. revert fuel code t n w.
  apply (refine_induction os cfg groq fmt3 float_add python
    (fun fuel code t n w r =>
       forall f w', 1 <= n -> r = Ok (Some f) w' ->
       exists tr,
         log w' = log w ++ tr /\
         copy_calls tr
         = (if 1 <? n then [(source_file cfg, archive_filename os cfg n)] else [])
           ++ map (fun j : nat =>
                     (source_file cfg, archive_filename os cfg (n + Z.of_nat j)))
                (seq 1 (execution_calls tr - 1)) /\
         (1 <= execution_calls tr)%nat)).
  - intros; discriminate.
  - intros; discriminate.
  - intros fuel code t n w out err w1 Htest f w' Hn [= <- <-].
    destruct (test_code_block _ _ _ _ _ Htest) as (s & rc & Hlog).
    eexists. split; [exact Hlog|]. destruct (1 <? n); split; reflexivity.
  - intros fuel code t n w out err w1 Htest Ht f w' Hn [= <- <-].
    destruct (test_code_block _ _ _ _ _ Htest) as (s & rc & Hlog).
    eexists. split; [cbn [log]; apply log_of_block, Hlog|].
    destruct (1 <? n); split; reflexivity.
  - intros fuel code t n w out err w1 Htest Ht Hover f w' Hn [= <- <-].
    destruct (test_code_block _ _ _ _ _ Htest) as (s & rc & Hlog).
    eexists. split; [unfold after_retry; cbn [log]; apply log_of_block, Hlog|].
    destruct (1 <? n); split; reflexivity.
  - intros fuel code t n w out err w1 r Htest Ht Hover IH f w' Hn Hr.
    destruct (test_code_block _ _ _ _ _ Htest) as (s & rc & Hlog).
    destruct (IH f w' ltac:(lia) Hr) as (tr' & Hlog' & Hcopies & Hexec).
    unfold after_retry in Hlog'. cbn [log] in Hlog'.
    rewrite (log_of_block _ _ _ _ _ Hlog) in Hlog'.
    rewrite <- !app_assoc in Hlog'. cbn [app] in Hlog'.
    assert (Hn1 : (1 <? n + 1) = true) by (apply Z.ltb_lt; lia).
    rewrite Hn1 in Hcopies.
    eexists. split; [exact Hlog'|].
    assert (Hshift :
      map (fun j : nat => (source_file cfg, archive_filename os cfg (n + Z.of_nat j)))
          (seq 1 (execution_calls tr'))
      = copy_calls tr').
    { rewrite Hcopies. destruct (execution_calls tr') as [|k]; [lia|].
      cbn [seq map app]. rewrite Nat.sub_succ, Nat.sub_0_r.
      replace (n + Z.of_nat 1) with (n + 1) by lia. f_equal.
      rewrite <- seq_shift, map_map. apply map_ext. intros j.
      do 2 f_equal. lia. }
    destruct (1 <? n); cbn [app copy_calls execution_calls List.filter is_execute length];
      fold (execution_calls tr'); rewrite Nat.sub_succ, Nat.sub_0_r, Hshift;
      (split; [reflexivity|lia]).
Qed.

(** What one execution does to the scratch file. *)
Lemma test_code_scratch (code filename : str) (n : Z) (w : world)
    (r : bool * str * str) (w1 : world) :
  test_code os cfg python code filename n w = Ok r w1 ->
  (print_runtime_error_messages cfg = false ->
     files w1 !! TEMP_RUNTIME_ERROR = None) /\
  (print_runtime_error_messages cfg = true -> filename <> TEMP_RUNTIME_ERROR ->
     files w1 !! TEMP_RUNTIME_ERROR = files w !! TEMP_RUNTIME_ERROR).
Proof.
  intros Htest.
  destruct (test_code_spec os cfg python code filename n w)
    as [(_ & _ & _ & Hr)|[(_ & _ & Hr)|
        (fs1 & copies & script & rc & out & err & fs' & Hfs1 & _ & Hr & Hfs')]];
    [congruence|congruence|].
  rewrite Hr in Htest. injection Htest as _ <-. cbn [files].
  assert (H1 : fs1 !! TEMP_RUNTIME_ERROR = files w !! TEMP_RUNTIME_ERROR).
  { destruct Hfs1 as [(_ & -> & _)|(_ & _ & old & _ & -> & _)]; [reflexivity|].
    apply lookup_insert_ne, archive_ne_temp. }
  destruct Hfs' as [(Hflag & _ & ->)|(Hflag & _ & ->)].
  - split; [congruence|]. intros _ Hne. rewrite lookup_insert_ne by exact Hne.
    exact H1.
  - split; [|congruence]. intros _. apply lookup_delete_eq.
Qed.

Lemma refine_scratch (fuel : nat) (code : str) (t : Q) (n : Z) (w : world) :
  (print_runtime_error_messages cfg = false ->
   forall f w',
     refine os cfg groq fmt3 float_add python fuel code t n w = Ok (Some f) w' ->
     files w' !! TEMP_RUNTIME_ERROR = None) /\
  (print_runtime_error_messages cfg = true ->
   source_file cfg <> TEMP_RUNTIME_ERROR ->
   files (world_of (refine os cfg groq fmt3 float_add python fuel code t n w))
     !! TEMP_RUNTIME_ERROR
   = files w !! TEMP_RUNTIME_ERROR).
Proof.
  revert fuel code t n w.
  apply (refine_induction os cfg groq fmt3 float_add python
    (fun fuel code t n w r =>
       (print_runtime_error_messages cfg = false ->
        forall f w', r = Ok (Some f) w' -> files w' !! TEMP_RUNTIME_ERROR = None) /\
       (print_runtime_error_messages cfg = true ->
        source_file cfg <> TEMP_RUNTIME_ERROR ->
        files (world_of r) !! TEMP_RUNTIME_ERROR = files w !! TEMP_RUNTIME_ERROR))).
  - split; [discriminate|reflexivity].
  - intros fuel code t n w e w' Htest. split; [discriminate|]. intros _ _.
    destruct (test_code_in_loop os cfg python code n w)
      as [(_ & _ & Hr)|(script & rc & out' & err' & w1' & Hr & _)];
      [|congruence].
    rewrite Hr in Htest. injection Htest as _ <-. reflexivity.
  - intros fuel code t n w out err w1 Htest.
    destruct (test_code_scratch _ _ _ _ _ _ Htest) as [Hoff Hon].
    split; [intros Hf f w' [= <- <-]; apply Hoff, Hf|exact Hon].
  - intros fuel code t n w out err w1 Htest _.
    destruct (test_code_scratch _ _ _ _ _ _ Htest) as [Hoff Hon].
    split; [intros Hf f w' [= <- <-]; apply Hoff, Hf|exact Hon].
  - intros fuel code t n w out err w1 Htest _ _.
    destruct (test_code_scratch _ _ _ _ _ _ Htest) as [Hoff Hon].
    split; [intros Hf f w' [= <- <-]; apply Hoff, Hf|exact Hon].
  - intros fuel code t n w out err w1 r Htest _ _ [IHoff IHon].
    destruct (test_code_scratch _ _ _ _ _ _ Htest) as [Hoff Hon].
    split; [exact IHoff|]. intros Hf Hne. rewrite IHon by assumption.
    cbn [after_retry files]. apply Hon; assumption.
Qed.
End Feedback.

(** ** The rounds of a run *)

Section Rounds.
Variable os : os_flavour.
Variable cfg : Config.
Variable groq : nat -> str -> str * Q * str.
Variable fmt3 : Q -> str.
Variable float_add : Q -> Q -> Q.
Variable python : nat -> option str -> Z * str * str.

Lemma archive_copy_eq (n : Z) :
  archive_copy os cfg n
  = if 1 <? n
    then [EvCopyFile (source_file cfg) (archive_filename os cfg n)]
    else [].
Proof. reflexivity. Qed.

(** An execution of the loop that returns. *)
Lemma test_code_round (code : str) (n : Z) (w : world) (ok : bool)
    (out err : str) (w1 : world) :
  test_code os cfg python code (source_file cfg) n w = Ok (ok, out, err) w1 ->
  generation_calls (log w1) = generation_calls (log w) /\
  exists s rc,
    ok = (rc =? 0) /\
    fst (fst (python (execution_calls (log w)) s)) = rc /\
    log w1 = log w ++ archive_copy os cfg n ++ [EvExecute s rc].
Proof.
  intros Htest.
  destruct (test_code_in_loop os cfg python code n w)
    as [(_ & _ & Hr)|(s & rc & out' & err' & w1' & Hr & Hpy & Hlog & _)];
    [congruence|].
  rewrite Hr in Htest. injection Htest as <- <- <- <-. split.
  - rewrite Hlog. apply generation_calls_of_block.
  - exists s, rc. split; [reflexivity|].
    split; [exact (captured_returncode _ _ _ _ Hpy)|].
    rewrite archive_copy_eq. exact Hlog.
Qed.

Lemma refine_rounds (fuel : nat) (code : str) (t : Q) (n : Z) (w : world)
    (f : final) (w' : world) :
  refine os cfg groq fmt3 float_add python fuel code t n w = Ok (Some f) w' ->
  exists tr,
    log w' = log w ++ tr /\
    loop_rounds os cfg groq float_add n t (generation_calls (log w)) tr
      (outcome f) (total_gen_time f) (attempts f).
Proof.
  revert f w'. revert fuel code t n w.
  apply (refine_induction os cfg groq fmt3 float_add python
    (fun fuel code t n w r =>
       forall f w', r = Ok (Some f) w' ->
       exists tr,
         log w' = log w ++ tr /\
         loop_rounds os cfg groq float_add n t (generation_calls (log w)) tr
           (outcome f) (total_gen_time f) (attempts f))).
  - discriminate.
  - discriminate.
  - intros fuel code t n w out err w1 Htest f w' [= <- <-].
    destruct (test_code_round _ _ _ _ _ _ _ Htest)
      as (_ & s & rc & Hok & _ & Hlog).
    symmetry in Hok. apply Z.eqb_eq in Hok. subst rc.
    eexists. split; [exact Hlog|]. apply rounds_success.
  - intros fuel code t n w out err w1 Htest Ht f w' [= <- <-].
    destruct (test_code_round _ _ _ _ _ _ _ Htest)
      as (_ & s & rc & Hok & _ & Hlog).
    symmetry in Hok. apply Z.eqb_neq in Hok.
    eexists. split.
    { cbn [log]. rewrite Hlog, <- !app_assoc. reflexivity. }
    cbn [app outcome total_gen_time attempts].
    apply rounds_max_time; [exact Hok|]. apply Qle_bool_iff, Ht.
  - intros fuel code t n w out err w1 Htest Ht Hover f w' [= <- <-].
    destruct (test_code_round _ _ _ _ _ _ _ Htest)
      as (Hg & s & rc & Hok & _ & Hlog).
    symmetry in Hok. apply Z.eqb_neq in Hok.
    eexists. split.
    { unfold after_retry. cbn [log]. rewrite Hlog, <- !app_assoc. reflexivity. }
    cbn [app outcome total_gen_time attempts]. rewrite Hg, Hover.
    apply rounds_max_attempts; [exact Hok| |apply Z.ltb_lt, Hover].
    apply Qnot_le_lt. intros Hle%Qle_bool_iff. congruence.
  - intros fuel code t n w out err w1 r Htest Ht Hover IH f w' Hr.
    destruct (test_code_round _ _ _ _ _ _ _ Htest)
      as (Hg & s & rc & Hok & _ & Hlog).
    symmetry in Hok. apply Z.eqb_neq in Hok.
    destruct (IH f w' Hr) as (tr' & Hlog' & Hrounds).
    unfold after_retry in Hlog', Hrounds. cbn [log] in Hlog', Hrounds.
    rewrite generation_calls_app in Hrounds.
    change (generation_calls [EvTimeCheck t false; EvGenerate (retry_prompt code err);
                              EvAttemptCheck (n + 1) (max_attempts cfg <? n + 1)])
      with 1%nat in Hrounds.
    rewrite Hg, Nat.add_1_r in Hrounds.
    eexists. split.
    { rewrite Hlog', Hlog, <- !app_assoc. reflexivity. }
    cbn [app]. rewrite Hover.
    apply rounds_next; [exact Hok| |apply Z.ltb_ge in Hover; lia|exact Hrounds].
    apply Qnot_le_lt. intros Hle%Qle_bool_iff. congruence.
Qed.

(** A loop whose executions all fail does not report a success. *)
Lemma refine_never_succeeds (fuel : nat) (code : str) (t : Q) (n : Z) (w : world)
    (f : final) (w' : world) :
  (forall i s, fst (fst (python i s)) <> 0) ->
  refine os cfg groq fmt3 float_add python fuel code t n w = Ok (Some f) w' ->
  outcome f = FailedMaxTime \/ outcome f = FailedMaxAttempts.
Proof.
  intros Hfail. revert f w'. revert fuel code t n w.
  apply (refine_induction os cfg groq fmt3 float_add python
    (fun fuel code t n w r =>
       forall f w', r = Ok (Some f) w' ->
       outcome f = FailedMaxTime \/ outcome f = FailedMaxAttempts)).
  - discriminate.
  - discriminate.
  - intros fuel code t n w out err w1 Htest f w' _.
    destruct (test_code_round _ _ _ _ _ _ _ Htest)
      as (_ & s & rc & Hok & Hpy & _).
    symmetry in Hok. apply Z.eqb_eq in Hok. subst rc.
    destruct (Hfail _ _ Hpy).
  - intros fuel code t n w out err w1 _ _ f w' [= <- <-]. left. reflexivity.
  - intros fuel code t n w out err w1 _ _ _ f w' [= <- <-]. right. reflexivity.
  - intros fuel code t n w out err w1 r _ _ _ IH. exact IH.
Qed.

End Rounds.


(** ** The whole program *)

Section Whole.
Variable os : os_flavour.
Variable cfg : Config.
Variable groq : nat -> str -> str * Q * str.
Variable fmt3 : Q -> str.
Variable float_add : Q -> Q -> Q.
Variable python : nat -> option str -> Z * str * str.

Lemma run_unfold (prompt : str) (w : world) :
  run os cfg groq fmt3 float_add python prompt w
  = refine os cfg groq fmt3 float_add python (S (Z.to_nat (max_attempts cfg)))
      (candidate_of cfg fmt3 (groq (generation_calls (log w)) prompt))
      (snd (fst (groq (generation_calls (log w)) prompt))) 1
      (World (files w) (log w ++ [EvGenerate prompt])).
Proof.
  unfold run. rewrite (bind_Ok _ _ _ _ _ (generate_code_eq cfg groq fmt3 prompt w)).
  reflexivity.
Qed.

Lemma main_unfold (w : world) :
  main os cfg groq fmt3 float_add python w
  = match files w !! prompt_file cfg with
    | None => Raise (FileNotFoundError (prompt_file cfg)) w
    | Some text =>
        run os cfg groq fmt3 float_add python
          (initial_prompt (universal_newlines text)) w
    end.
Proof.
  unfold main. msimpl. destruct w as [fs l]. cbn [files log].
  destruct (fs !! prompt_file cfg); reflexivity.
Qed.

Lemma main_runs (w : world) (f : final) (w' : world) :
  main os cfg groq fmt3 float_add python w = Ok (Some f) w' ->
  exists text,
    files w !! prompt_file cfg = Some text /\
    run os cfg groq fmt3 float_add python
      (initial_prompt (universal_newlines text)) w
    = Ok (Some f) w'.
Proof.
  rewrite main_unfold. destruct (files w !! prompt_file cfg) as [text|]; [|discriminate].
  intros H. exists text. split; [reflexivity|exact H].
Qed.


(** X2: the total generation time of the final report is the duration of the
    first generation call with the durations of the later ones added to it
    one by one, in call order, by the floating-point addition; there is one
    term per generation call, so the call that an attempt limit leaves
    unexecuted is counted. *)
Theorem main_total_gen_time (w : world) (f : final) (w' : world) :
  main os cfg groq fmt3 float_add python w = Ok (Some f) w' ->
  exists tr t0 ts,
    log w' = log w ++ tr /\
    durations groq (generation_calls (log w)) tr = t0 :: ts /\
    length (t0 :: ts) = generation_calls tr /\
    total_gen_time f = fold_left float_add ts t0.
Proof.
  intros (text & _ & Hrun)%main_runs. rewrite run_unfold in Hrun.
  apply refine_total in Hrun as (tr & Hlog & Htot). cbn [log] in Hlog, Htot.
  exists (EvGenerate (initial_prompt (universal_newlines text)) :: tr),
         (snd (fst (groq (generation_calls (log w))
                      (initial_prompt (universal_newlines text))))),
         (durations groq (S (generation_calls (log w))) tr).
  split; [rewrite Hlog, <- app_assoc; reflexivity|].
  split; [reflexivity|].
  split.
  - cbn [length]. rewrite length_durations. reflexivity.
  - rewrite Htot, generation_calls_app.
    replace (generation_calls (log w)
             + generation_calls
                 [EvGenerate (initial_prompt (universal_newlines text))])%nat
      with (S (generation_calls (log w))) by (cbn; lia).
    reflexivity.
Qed.

(** X3: in a run with error messages on that ends in a final report, what
    is executed is what was generated and what is asked next is what failed:
    the first prompt is the text of the prompt file, read in text mode, with
    the instruction line appended; the j-th script executed is the candidate
    made from the answer to the j-th prompt; and every later prompt is the
    retry prompt built from the script executed just before it and the
    captured error text of that execution, whose return code was not 0. *)
Theorem main_feedback_chain (w : world) (f : final) (w' : world) :
  print_runtime_error_messages cfg = true ->
  main os cfg groq fmt3 float_add python w = Ok (Some f) w' ->
  exists text tr,
    files w !! prompt_file cfg = Some text /\
    log w' = log w ++ tr /\
    prompts tr !! 0%nat = Some (initial_prompt (universal_newlines text)) /\
    (forall (j : nat) (s : option str), scripts tr !! j = Some s ->
       exists p,
         prompts tr !! j = Some p /\
         s = Some (candidate_of cfg fmt3 (groq (generation_calls (log w) + j) p))) /\
    (forall (j : nat) (p : str), prompts tr !! S j = Some p ->
       exists c rc out err,
         scripts tr !! j = Some (Some c) /\
         python (execution_calls (log w) + j) (Some c) = (rc, out, err) /\
         rc <> 0 /\ p = retry_prompt c (universal_newlines err)).
Proof.
  intros Hflag (text & Hp & Hrun)%main_runs. rewrite run_unfold in Hrun.
  assert (Hnc : ~ scratch_collision cfg) by (intros [Hoff _]; congruence).
  apply (refine_feedback _ _ _ _ _ _ _ _ _ _ _ _ _ Hnc) in Hrun
    as (tr & Hlog & Hs0 & Hprompts & Hscripts).
  cbn [log] in Hlog, Hprompts, Hscripts.
  exists text, (EvGenerate (initial_prompt (universal_newlines text)) :: tr).
  split; [exact Hp|]. split; [rewrite Hlog, <- app_assoc; reflexivity|].
  split; [reflexivity|]. cbn [prompts scripts]. split.
  - intros [|j] s Hj.
    + rewrite Hs0 in Hj. injection Hj as <-. eexists. split; [reflexivity|].
      rewrite Nat.add_0_r. reflexivity.
    + destruct (Hscripts j s Hj) as (p & H1 & H2). exists p. split; [exact H1|].
      rewrite H2. do 3 f_equal. rewrite generation_calls_app. cbn. lia.
  - intros j p Hj. change (prompts tr !! j = Some p) in Hj.
    destruct (Hprompts j p Hj) as (c & rc & out & err & H1 & H2 & H3 & H4).
    rewrite execution_calls_app in H2.
    change (execution_calls [EvGenerate (initial_prompt (universal_newlines text))])
      with 0%nat in H2.
    rewrite Nat.add_0_r in H2.
    destruct (python (execution_calls (log w) + j) (Some c))
      as [[rc0 out0] err0] eqn:Hpy.
    injection H2 as <- <- <-.
    exists c, rc0, out0, err0. repeat split; assumption.
Qed.

(** X4: in a run that ends in a final report the archive copies are, in
    order, copies of the artifact to the files named by the base name of the
    artifact, the numbers 1, 2, ... and .py, one for every execution but the
    first; no other copy is made. *)
Theorem main_archive_copies (w : world) (f : final) (w' : world) :
  main os cfg groq fmt3 float_add python w = Ok (Some f) w' ->
  exists tr,
    log w' = log w ++ tr /\
    copy_calls tr
    = map (fun j : nat =>
             (source_file cfg,
              base_name os cfg ++ str_of_int (Z.of_nat j) ++ py ".py"))
          (seq 1 (execution_calls tr - 1)).
Proof.
  intros (text & _ & Hrun)%main_runs. rewrite run_unfold in Hrun.
  apply refine_copies in Hrun as (tr & Hlog & Hcopies & _); [|lia].
  cbn [log] in Hlog.
  exists (EvGenerate (initial_prompt (universal_newlines text)) :: tr).
  split; [rewrite Hlog, <- app_assoc; reflexivity|].
  change (copy_calls (EvGenerate ?p :: tr)) with (copy_calls tr).
  change (execution_calls (EvGenerate ?p :: tr)) with (execution_calls tr).
  rewrite Hcopies. change (1 <? 1) with false. cbn [app].
  apply map_ext. intros j. unfold archive_filename.
  replace (1 + Z.of_nat j - 1) with (Z.of_nat j) by lia. reflexivity.
Qed.

(** X6: with error messages suppressed, a run that ends in a report leaves no
    file named temp_runtime_error.txt behind: a file of that name that
    existed before the run is gone. *)
Theorem main_removes_scratch_file (w : world) (f : final) (w' : world) :
  print_runtime_error_messages cfg = false ->
  main os cfg groq fmt3 float_add python w = Ok (Some f) w' ->
  files w' !! TEMP_RUNTIME_ERROR = None.
Proof.
  intros Hflag (text & _ & Hrun)%main_runs. rewrite run_unfold in Hrun.
  eapply refine_scratch; eassumption.
Qed.
End Whole.

(** ** The reported code *)

Section Report.
Variable os : os_flavour.
Variable cfg : Config.
Variable groq : nat -> str -> str * Q * str.
Variable fmt3 : Q -> str.
Variable float_add : Q -> Q -> Q.
Variable python : nat -> option str -> Z * str * str.

Lemma test_code_log (code : str) (n : Z) (w : world) (r : bool * str * str)
    (w1 : world) :
  test_code os cfg python code (source_file cfg) n w = Ok r w1 ->
  exists b src dst s rc,
    log w1 = log w ++ (if b : bool then [EvCopyFile src dst] else [])
                   ++ [EvExecute s rc].
Proof.
  intros Htest.
  destruct (test_code_in_loop os cfg python code n w)
    as [(_ & _ & Hr)|(script & rc & out' & err' & w1' & Hr & _ & Hlog & _)];
    [congruence|].
  rewrite Hr in Htest. injection Htest as _ <-. eauto 6.
Qed.

Lemma refine_last_code (fuel : nat) (code : str) (t : Q) (n : Z) (w : world)
    (f : final) (w' : world) :
  refine os cfg groq fmt3 float_add python fuel code t n w = Ok (Some f) w' ->
  exists tr,
    log w' = log w ++ tr /\
    last_code f
    = match last (prompts tr) with
      | None => code
      | Some p =>
          candidate_of cfg fmt3
            (groq (generation_calls (log w) + length (prompts tr) - 1) p)
      end.
Proof.
  revert f w'. revert fuel code t n w.
  apply (refine_induction os cfg groq fmt3 float_add python
    (fun fuel code t n w r =>
       forall f w', r = Ok (Some f) w' ->
       exists tr,
         log w' = log w ++ tr /\
         last_code f
         = match last (prompts tr) with
           | None => code
           | Some p =>
               candidate_of cfg fmt3
                 (groq (generation_calls (log w) + length (prompts tr) - 1) p)
           end)).
  - discriminate.
  - discriminate.
  - intros fuel code t n w out err w1 Htest f w' [= <- <-].
    destruct (test_code_log _ _ _ _ _ Htest) as (b & src & dst & s & rc & Hlog).
    eexists. split; [exact Hlog|]. rewrite prompts_of_block. reflexivity.
  - intros fuel code t n w out err w1 Htest Ht f w' [= <- <-].
    destruct (test_code_log _ _ _ _ _ Htest) as (b & src & dst & s & rc & Hlog).
    eexists. split; [cbn [log]; apply log_of_block, Hlog|].
    rewrite prompts_of_block. reflexivity.
  - intros fuel code t n w out err w1 Htest Ht Hover f w' [= <- <-].
    destruct (test_code_log _ _ _ _ _ Htest) as (b & src & dst & s & rc & Hlog).
    eexists. split; [unfold after_retry; cbn [log]; apply log_of_block, Hlog|].
    rewrite prompts_of_block. cbn [prompts last length last_code].
    rewrite Hlog, generation_calls_of_block.
    replace (generation_calls (log w) + 1 - 1)%nat with (generation_calls (log w))
      by lia.
    reflexivity.
  - intros fuel code t n w out err w1 r Htest Ht Hover IH f w' Hr.
    destruct (test_code_log _ _ _ _ _ Htest) as (b & src & dst & s & rc & Hlog).
    destruct (IH f w' Hr) as (tr' & Hlog' & Hcode).
    unfold after_retry in Hlog', Hcode. cbn [log] in Hlog', Hcode.
    rewrite (log_of_block _ _ _ _ _ Hlog) in Hlog'.
    rewrite <- !app_assoc in Hlog'. cbn [app] in Hlog'.
    eexists. split; [exact Hlog'|].
    rewrite prompts_of_block. cbn [prompts]. rewrite last_cons, Hcode.
    rewrite generation_calls_app, Hlog, generation_calls_of_block.
    destruct (last (prompts tr')) as [p|] eqn:Hl.
    + cbn [length]. do 2 f_equal. cbn. lia.
    + apply last_None in Hl. rewrite Hl. cbn [length].
      replace (generation_calls (log w) + 1 - 1)%nat with (generation_calls (log w))
        by lia.
      reflexivity.
Qed.

(** X8: the code of the final report is the candidate made from the answer
    to the last generation call of the run, whether or not that candidate
    was ever written to the artifact or executed. *)
Theorem main_reports_last_generated (w : world) (f : final) (w' : world) :
  main os cfg groq fmt3 float_add python w = Ok (Some f) w' ->
  exists tr p,
    log w' = log w ++ tr /\
    last (prompts tr) = Some p /\
    last_code f
    = candidate_of cfg fmt3
        (groq (generation_calls (log w) + generation_calls tr - 1) p).
Proof.
  intros (text & _ & Hrun)%main_runs. rewrite run_unfold in Hrun.
  apply refine_last_code in Hrun as (tr & Hlog & Hcode). cbn [log] in Hlog, Hcode.
  rewrite generation_calls_app in Hcode.
  exists (EvGenerate (initial_prompt (universal_newlines text)) :: tr).
  change (generation_calls (EvGenerate (initial_prompt (universal_newlines text)) :: tr))
    with (S (generation_calls tr)).
  cbn [prompts]. rewrite last_cons.
  destruct (last (prompts tr)) as [p|] eqn:Hl.
  - exists p. split; [rewrite Hlog, <- app_assoc; reflexivity|].
    split; [reflexivity|]. rewrite Hcode, length_prompts. do 2 f_equal. cbn. lia.
  - exists (initial_prompt (universal_newlines text)).
    split; [rewrite Hlog, <- app_assoc; reflexivity|].
    split; [reflexivity|]. rewrite Hcode.
    apply last_None in Hl. rewrite <- (length_prompts tr), Hl. cbn [length].
    do 2 f_equal. lia.
Qed.

End Report.

(** ** The sanitiser and the text of the response *)

Lemma join_breaks_are_lf (ls : list str) (c : N) :
  Forall linefree ls -> In c (join ls) -> is_linebreak c = true -> c = LF.
Proof.
  induction 1 as [|l ls Hl Hls IH]; [intros []|].
  destruct ls as [|l2 ls].
  - cbn [join]. intros Hin Hc. unfold linefree in Hl.
    rewrite List.Forall_forall in Hl. rewrite (Hl c Hin) in Hc. discriminate.
  - change (join (l :: l2 :: ls)) with (l ++ LF :: join (l2 :: ls)).
    intros [Hin|[Heq|Hin]]%in_app_or Hc.
    + unfold linefree in Hl. rewrite List.Forall_forall in Hl.
      rewrite (Hl c Hin) in Hc. discriminate.
    + symmetry. exact Heq.
    + apply IH; assumption.
Qed.

Lemma length_chop_last_empty (ls : list str) :
  (length (chop_last_empty ls) <= length ls)%nat.
Proof.
  induction ls as [|a ls IH]; [reflexivity|].
  destruct ls as [|l2 ls].
  - destruct a; cbn; lia.
  - change (chop_last_empty (a :: l2 :: ls)) with (a :: chop_last_empty (l2 :: ls)).
    cbn [length] in *. lia.
Qed.

Lemma length_until_fence (ls : list str) :
  (length (until_fence ls) <= length ls)%nat.
Proof.
  induction ls as [|a ls IH]; [reflexivity|].
  cbn [until_fence]. destruct (str_eqb (strip a) FENCE); cbn [length]; lia.
Qed.

(** The lines of the extracted code are lines of the response, those of a
    response without opening fence with [#] in front. *)
Lemma extract_code_lines (lines : list str) :
  Forall linefree lines ->
  (length (splitlines (extract_code lines)) <= length lines)%nat /\
  forall l, In l (splitlines (extract_code lines)) ->
    In l lines \/
    exists l0, In l0 lines /\ l = HASH :: l0 /\ comment_backtick l = l.
Proof.
  intros Hfree.
  destruct (Z.eq_dec (code_start_idx lines) (-1)) as [Hk|Hk].
  - rewrite extract_code_no_fence by assumption.
    rewrite splitlines_join
      by (apply map_linefree; [apply comment_out_linefree|assumption]).
    split.
    + etransitivity; [apply length_chop_last_empty|]. rewrite length_map.
      reflexivity.
    + intros l (l0 & <- & Hin)%chop_last_empty_incl%List.in_map_iff.
      unfold comment_out. destruct (startswith l0 [HASH]); [left; exact Hin|].
      right. exists l0. split; [exact Hin|]. split; [reflexivity|].
      apply comment_backtick_hash.
  - rewrite extract_code_fenced by assumption.
    rewrite splitlines_join by (apply until_fence_linefree, skipn_linefree, Hfree).
    split.
    + etransitivity; [apply length_chop_last_empty|].
      etransitivity; [apply length_until_fence|].
      rewrite length_skipn. lia.
    + intros l Hin%chop_last_empty_incl%until_fence_sublist%In_skipn_In.
      left. exact Hin.
Qed.

(** X10: the sanitiser neither invents nor rewrites text. Every line of the
    candidate body is a line of the response, unchanged or with one [#] put
    in front of it; the body has at most as many lines as the response; and
    the only line break character in the body is the line feed, whatever
    line breaks the response used. *)
Theorem sanitize_keeps_the_text (content : str) :
  (forall l, In l (splitlines (fst (sanitize content))) ->
     exists l0, In l0 (splitlines content) /\ (l = l0 \/ l = HASH :: l0)) /\
  (length (splitlines (fst (sanitize content))) <= length (splitlines content))%nat /\
  (forall c, In c (fst (sanitize content)) -> is_linebreak c = true -> c = LF).
Proof.
  destruct (extract_code_lines (splitlines content) (splitlines_linefree content))
    as [Hlen Hlines].
  split; [|split].
  - intros l. rewrite sanitize_lines.
    intros (l1 & <- & Hin)%chop_last_empty_incl%List.in_map_iff.
    destruct (Hlines l1 Hin) as [H0|(l0 & H0 & -> & Hfix)].
    + exists l1. split; [exact H0|]. unfold comment_backtick.
      destruct (startswith (strip l1) [BACKTICK]); [right|left]; reflexivity.
    + exists l0. split; [exact H0|]. right. exact Hfix.
  - rewrite sanitize_lines.
    etransitivity; [apply length_chop_last_empty|]. rewrite length_map. exact Hlen.
  - intros c. cbn [sanitize fst]. apply join_breaks_are_lf, map_linefree.
    + apply comment_backtick_linefree.
    + apply splitlines_linefree.
Qed.

(** ** The names of the archives *)

Lemma rfind_from_absent (i : Z) (c : N) (p : str) :
  ~ In c p -> rfind_from i c p = -1.
Proof.
  revert i. induction p as [|x rest IH]; intros i Hc; [reflexivity|].
  cbn [rfind_from]. rewrite IH by (intros H; apply Hc; right; exact H).
  cbn. destruct (N.eqb_spec x c) as [->|]; [|reflexivity].
  exfalso. apply Hc. left. reflexivity.
Qed.

Lemma rfind_from_range (i : Z) (c : N) (p : str) :
  rfind_from i c p = -1 \/
  i <= rfind_from i c p < i + Z.of_nat (length p).
Proof.
  revert i. induction p as [|x rest IH]; intros i; [left; reflexivity|].
  cbn [rfind_from length].
  destruct (Z.eqb_spec (rfind_from (i + 1) c rest) (-1)) as [Heq|Hne]; cbn [negb].
  - destruct (x =? c)%N; [right; lia|left; reflexivity].
  - destruct (IH (i + 1)) as [?|?]; [contradiction|right; lia].
Qed.

Lemma rfind_from_app (i : Z) (c : N) (a b : str) :
  rfind_from i c (a ++ b)
  = if rfind_from (i + Z.of_nat (length a)) c b =? -1
    then rfind_from i c a
    else rfind_from (i + Z.of_nat (length a)) c b.
Proof.
  revert i. induction a as [|x a IH]; intros i.
  - cbn [app length rfind_from]. rewrite Z.add_0_r.
    destruct (Z.eqb_spec (rfind_from i c b) (-1)); congruence.
  - cbn [app rfind_from length]. rewrite IH.
    replace (i + 1 + Z.of_nat (length a)) with (i + Z.of_nat (S (length a))) by lia.
    destruct (Z.eqb_spec (rfind_from (i + Z.of_nat (S (length a))) c b) (-1))
      as [Heq|Hne]; [reflexivity|].
    destruct (Z.eqb_spec (rfind_from (i + Z.of_nat (S (length a))) c b) (-1));
      [contradiction|reflexivity].
Qed.

(** The last separator of a path whose tail holds none lies in its head. *)
Lemma rfind_in_head (c : N) (dir rest : str) :
  ~ In c rest ->
  -1 <= rfind c (dir ++ rest) < Z.of_nat (length dir).
Proof.
  intros Hc. unfold rfind. rewrite rfind_from_app, rfind_from_absent by exact Hc.
  cbn. destruct (rfind_from_range 0 c dir); lia.
Qed.

Lemma rfind_dot_of_extension (stem ext : str) :
  ~ In DOT ext -> rfind DOT (stem ++ DOT :: ext) = Z.of_nat (length stem).
Proof.
  intros Hd. unfold rfind. rewrite rfind_from_app. cbn [rfind_from].
  rewrite rfind_from_absent by exact Hd.
  change (negb (-1 =? -1)) with false. cbn beta iota. rewrite N.eqb_refl.
  rewrite Z.add_0_l.
  destruct (Z.eqb_spec (Z.of_nat (length stem)) (-1)); [lia|reflexivity].
Qed.

Lemma _splitext_of_stem (sep : N) (altsep : option N) (dir name ext : str) :
  ~ In sep (name ++ DOT :: ext) ->
  (forall a, altsep = Some a -> ~ In a (name ++ DOT :: ext)) ->
  ~ In DOT ext ->
  existsb (fun c => negb (c =? DOT)%N) name = true ->
  _splitext (dir ++ name ++ DOT :: ext) sep altsep = (dir ++ name, DOT :: ext).
Proof.
  intros Hsep Halt Hdot Hname. unfold _splitext.
  set (sepIndex := match altsep with
                   | Some a => Z.max (rfind sep (dir ++ name ++ DOT :: ext))
                                     (rfind a (dir ++ name ++ DOT :: ext))
                   | None => rfind sep (dir ++ name ++ DOT :: ext)
                   end).
  assert (Hs : -1 <= sepIndex < Z.of_nat (length dir)).
  { subst sepIndex. pose proof (rfind_in_head sep dir _ Hsep).
    destruct altsep as [a|]; [|assumption].
    pose proof (rfind_in_head a dir _ (Halt a eq_refl)). lia. }
  clearbody sepIndex.
  rewrite (app_assoc dir name), rfind_dot_of_extension by exact Hdot.
  rewrite length_app, Nat2Z.id.
  assert (Hlt : (sepIndex <? Z.of_nat (length dir + length name)) = true)
    by (apply Z.ltb_lt; lia).
  rewrite Hlt. cbn [andb].
  assert (Hex : existsb (fun c => negb (c =? DOT)%N)
                  (firstn (Z.to_nat (Z.of_nat (length dir + length name)
                                     - (sepIndex + 1)))
                     (skipn (Z.to_nat (sepIndex + 1))
                        ((dir ++ name) ++ DOT :: ext))) = true).
  { rewrite <- (app_assoc dir name), skipn_app.
    replace (Z.to_nat (sepIndex + 1) - length dir)%nat with 0%nat by lia.
    cbn [skipn]. rewrite firstn_app, existsb_app. apply orb_true_iff. right.
    rewrite length_skipn.
    replace (Z.to_nat (Z.of_nat (length dir + length name) - (sepIndex + 1))
             - (length dir - Z.to_nat (sepIndex + 1)))%nat
      with (length name) by lia.
    rewrite skipn_O, take_app_length. exact Hname. }
  rewrite Hex. rewrite <- length_app.
  rewrite take_app_length, drop_app_length. reflexivity.
Qed.

Section ArchiveNames.
Variable os : os_flavour.
Variable cfg : Config.

(** X11: for an artifact named as the documentation has it, a stem followed
    by one extension, the archives are the stem, the number of the attempt
    they save and .py: foo.py gives foo1.py, foo2.py, ... This holds for
    every path whose last component has a character other than a dot before
    its last dot; directories are kept, whatever dots their names hold, and
    an extension other than .py is replaced by .py. *)
Theorem archive_names_of_stem (dir name ext : str) (k : Z) :
  source_file cfg = dir ++ name ++ DOT :: ext ->
  (forall c, In c (separators os) -> ~ In c (name ++ ext)) ->
  ~ In DOT ext ->
  existsb (fun c => negb (c =? DOT)%N) name = true ->
  base_name os cfg = dir ++ name /\
  archive_filename os cfg k = dir ++ name ++ str_of_int (k - 1) ++ py ".py".
Proof.
  intros Hsrc Hseps Hdot Hname.
  assert (Hbase : base_name os cfg = dir ++ name).
  { unfold base_name. rewrite Hsrc.
    assert (Hno : forall c, In c (separators os) -> ~ In c (name ++ DOT :: ext)).
    { intros c Hc [Hin|[Heq|Hin]]%in_app_or.
      - apply (Hseps c Hc), in_or_app. left. exact Hin.
      - subst c. destruct os; cbn in Hc; intuition discriminate.
      - apply (Hseps c Hc), in_or_app. right. exact Hin. }
    destruct os; unfold splitext; rewrite _splitext_of_stem; try assumption;
      try reflexivity.
    - apply Hno. left. reflexivity.
    - discriminate.
    - apply Hno. left. reflexivity.
    - intros a [= <-]. apply Hno. right. left. reflexivity. }
  split; [exact Hbase|]. unfold archive_filename. rewrite Hbase, <- app_assoc.
  reflexivity.
Qed.

(** X12: the names of the archives never clash: the archive of an attempt is
    never the artifact itself, never the scratch file of the error stream,
    and two attempts never share an archive. *)
Theorem archive_names_never_clash (a b : Z) :
  archive_filename os cfg a <> source_file cfg /\
  archive_filename os cfg a <> TEMP_RUNTIME_ERROR /\
  (archive_filename os cfg a = archive_filename os cfg b -> a = b).
Proof.
  split; [apply archive_ne_source|]. split; [apply archive_ne_temp|].
  apply archive_filename_inj.
Qed.
End ArchiveNames.

(** ** The configuration file *)

Example read_config_example :
  read_config config_text
  = inr (<[py "max_time" := py "10"]> (<[py "model" := py "b: c"]> ∅)).
Proof. vm_compute. reflexivity. Qed.

Example read_config_empty_value :
  read_config (py "model: a" ++ [LF] ++ py "interpreter: " ++ [LF]) = inl ValueError.
Proof. reflexivity. Qed.

Example read_config_lone_cr :
  read_config (py "a: 1" ++ [CR] ++ py "b: 2")
  = inr (<[py "b" := py "2"]> (<[py "a" := py "1"]> ∅)).
Proof. vm_compute. reflexivity. Qed.

Lemma startswith_colon_space (s : str) :
  startswith s COLON_SPACE = true <-> exists b, s = COLON_SPACE ++ b.
Proof.
  split.
  - destruct s as [|c1 [|c2 b]]; cbn; try discriminate.
    + rewrite andb_false_r. discriminate.
    + intros [H1%N.eqb_eq [H2%N.eqb_eq _]%andb_true_iff]%andb_true_iff.
      exists b. subst. reflexivity.
  - intros [b ->]. reflexivity.
Qed.

(** [split(": ", 1)] cuts at the first occurrence or returns the text. *)
Lemma split_1_spec (s : str) :
  (exists k v, split_1 s COLON_SPACE = [k; v] /\
               s = k ++ COLON_SPACE ++ v /\ no_colon_space k) \/
  (split_1 s COLON_SPACE = [s] /\ no_colon_space s).
Proof.
  induction s as [|c rest IH].
  - right. split; [reflexivity|]. intros [|? ?] b; discriminate.
  - cbn [split_1].
    destruct (startswith (c :: rest) COLON_SPACE) eqn:Hs.
    + left. apply startswith_colon_space in Hs as [b Hb].
      exists [], (skipn (length COLON_SPACE) (c :: rest)).
      split; [reflexivity|]. split.
      * rewrite Hb. reflexivity.
      * intros [|? ?] b'; discriminate.
    + assert (Hfirst : forall b, c :: rest <> COLON_SPACE ++ b).
      { intros b Hb.
        assert (startswith (c :: rest) COLON_SPACE = true)
          by (apply startswith_colon_space; eauto).
        congruence. }
      destruct IH as [(k & v & -> & Hrest & Hk)|[-> Hno]].
      * left. exists (c :: k), v. split; [reflexivity|].
        split; [rewrite Hrest; reflexivity|].
        intros [|x a] b Hab.
        -- apply (Hfirst (b ++ COLON_SPACE ++ v)).
           rewrite Hrest. cbn [app] in Hab |- *.
           change (c :: k ++ COLON_SPACE ++ v) with ((c :: k) ++ COLON_SPACE ++ v).
           rewrite Hab. cbn [app]. rewrite <- !app_assoc. reflexivity.
        -- injection Hab as -> Hab. exact (Hk a b Hab).
      * right. split.
        { destruct rest as [|? [|? ?]]; reflexivity. }
        intros [|x a] b Hab; [exact (Hfirst b Hab)|].
        injection Hab as -> Hab. exact (Hno a b Hab).
Qed.

(** The cut is where the key ends: a key without [": "] is found again. *)
Lemma split_1_binds (key value : str) :
  no_colon_space key ->
  split_1 (key ++ COLON_SPACE ++ value) COLON_SPACE = [key; value].
Proof.
  induction key as [|c key IH]; intros Hno; [reflexivity|].
  cbn [app split_1].
  destruct (startswith (c :: key ++ COLON_SPACE ++ value) COLON_SPACE) eqn:Hs.
  - exfalso. apply startswith_colon_space in Hs as [b Hb].
    destruct key as [|c2 key].
    + cbn in Hb. injection Hb as _ Hb _. discriminate.
    + cbn in Hb. injection Hb as -> -> _. exact (Hno [] key eq_refl).
  - rewrite IH; [reflexivity|].
    intros a b Hab. apply (Hno (c :: a) b). rewrite Hab. reflexivity.
Qed.

Lemma split_1_none (s : str) :
  no_colon_space s -> split_1 s COLON_SPACE = [s].
Proof.
  intros Hno. destruct (split_1_spec s) as [(k & v & _ & Hs & _)|[H _]];
    [|exact H].
  exfalso. exact (Hno k v Hs).
Qed.

Lemma nonblank_strip (line : str) : nonblank line = true <-> strip line <> [].
Proof. unfold nonblank. destruct (strip line); split; congruence. Qed.

(** One line: skipped, bound, or fatal. *)
Lemma config_line_spec (config : gmap str str) (line : str) :
  (strip line = [] /\ config_line config line = inr config) \/
  (exists key value, binds line key value /\
     config_line config line = inr (<[key := value]> config)) \/
  (unparsable line /\ config_line config line = inl ValueError).
Proof.
  unfold config_line. destruct (nonblank line) eqn:Hb.
  - apply nonblank_strip in Hb. right.
    destruct (split_1_spec (strip line)) as [(k & v & -> & Hs & Hk)|[-> Hno]].
    + left. exists k, v. split; [split; assumption|reflexivity].
    + right. split; [split; assumption|reflexivity].
  - left. split; [|reflexivity]. unfold nonblank in Hb.
    destruct (strip line); [reflexivity|discriminate].
Qed.

Lemma binds_inj (line k v key value : str) :
  binds line k v -> binds line key value -> k = key /\ v = value.
Proof.
  intros [H1 Hk] [H2 Hkey].
  pose proof (split_1_binds k v Hk) as E1.
  pose proof (split_1_binds key value Hkey) as E2.
  rewrite <- H1 in E1. rewrite <- H2 in E2. rewrite E1 in E2.
  injection E2 as -> ->. split; reflexivity.
Qed.

Lemma binds_not_unparsable (line key value : str) :
  binds line key value -> ~ unparsable line.
Proof. intros [H _] [_ Hno]. exact (Hno key value H). Qed.

Lemma blank_binds_nothing (line key value : str) :
  strip line = [] -> ~ binds line key value.
Proof.
  intros Hs [H _]. rewrite Hs in H. destruct key; discriminate.
Qed.

Lemma config_lines_app (config : gmap str str) (l1 l2 : list str) :
  config_lines config (l1 ++ l2)
  = match config_lines config l1 with
    | inl e => inl e
    | inr config' => config_lines config' l2
    end.
Proof.
  revert config. induction l1 as [|l l1 IH]; intros config; [reflexivity|].
  cbn [app config_lines]. destruct (config_line config l); [reflexivity|apply IH].
Qed.

Lemma config_lines_fail (config : gmap str str) (lines : list str) :
  config_lines config lines = inl ValueError <-> Exists unparsable lines.
Proof.
  revert config. induction lines as [|l lines IH]; intros config.
  - split; [discriminate|]. intros H. inversion H.
  - cbn [config_lines].
    destruct (config_line_spec config l)
      as [(Hs & ->)|[(k & v & Hb & ->)|(Hu & ->)]].
    + rewrite IH. split; [apply Exists_cons_tl|].
      intros H. inversion H as [? ? [Hne _]|]; [contradiction|assumption].
    + rewrite IH. split; [apply Exists_cons_tl|].
      intros H. inversion H as [? ? Hu|]; [|assumption].
      exfalso. exact (binds_not_unparsable _ _ _ Hb Hu).
    + split; [intros _; apply Exists_cons_hd, Hu|reflexivity].
Qed.

Lemma config_lines_lookup (lines : list str) :
  forall config key value,
    config_lines ∅ lines = inr config ->
    (config !! key = Some value <->
     exists pre line post,
       lines = pre ++ line :: post /\ binds line key value /\
       Forall (fun later => forall v, ~ binds later key v) post).
Proof.
  induction lines as [|l lines IH] using rev_ind; intros config key value Hr.
  - injection Hr as <-. rewrite lookup_empty. split; [discriminate|].
    intros (pre & line & post & H & _). destruct pre; discriminate.
  - rewrite config_lines_app in Hr.
    destruct (config_lines ∅ lines) as [|c1] eqn:H1; [discriminate|].
    specialize (IH c1 key value eq_refl). cbn [config_lines] in Hr.
    assert (Hsnoc : forall pre line post,
              lines ++ [l] = pre ++ line :: post ->
              (post = [] /\ pre = lines /\ line = l) \/
              exists post', post = post' ++ [l] /\ lines = pre ++ line :: post').
    { intros pre line post H.
      destruct (list_snoc_cases post) as [->|(post' & x & ->)].
      - apply app_inj_tail in H as [-> ->]. left. auto.
      - right. exists post'.
        change (pre ++ line :: post' ++ [x]) with (pre ++ (line :: post') ++ [x]) in H.
        rewrite app_assoc in H. apply app_inj_tail in H as [-> ->]. auto. }
    destruct (config_line_spec c1 l)
      as [(Hs & Hl)|[(k & v & Hb & Hl)|(Hu & Hl)]];
      rewrite Hl in Hr; [| |discriminate]; injection Hr as <-.
    + rewrite IH. split.
      * intros (pre & line & post & -> & Hbind & Hpost).
        exists pre, line, (post ++ [l]).
        split; [rewrite <- app_assoc; reflexivity|]. split; [exact Hbind|].
        apply Forall_app_2; [exact Hpost|]. constructor; [|constructor].
        intros v'. apply blank_binds_nothing, Hs.
      * intros (pre & line & post & Heq & Hbind & Hpost).
        destruct (Hsnoc _ _ _ Heq) as [(-> & -> & ->)|(post' & -> & ->)].
        { exfalso. exact (blank_binds_nothing _ _ _ Hs Hbind). }
        exists pre, line, post'. split; [reflexivity|]. split; [exact Hbind|].
        apply Forall_app in Hpost as [Hpost _]. exact Hpost.
    + destruct (decide (k = key)) as [->|Hne].
      * rewrite lookup_insert_eq. split.
        -- intros [= <-]. exists lines, l, []. split; [reflexivity|].
           split; [exact Hb|constructor].
        -- intros (pre & line & post & Heq & Hbind & Hpost).
           destruct (Hsnoc _ _ _ Heq) as [(-> & -> & ->)|(post' & -> & ->)].
           ++ destruct (binds_inj _ _ _ _ _ Hb Hbind) as [_ ->]. reflexivity.
           ++ apply Forall_app in Hpost as [_ Hlast].
              inversion Hlast as [|? ? Hno _]. exfalso. exact (Hno v Hb).
      * rewrite lookup_insert_ne by exact Hne. rewrite IH. split.
        -- intros (pre & line & post & -> & Hbind & Hpost).
           exists pre, line, (post ++ [l]).
           split; [rewrite <- app_assoc; reflexivity|]. split; [exact Hbind|].
           apply Forall_app_2; [exact Hpost|]. constructor; [|constructor].
           intros v' Hb'. destruct (binds_inj _ _ _ _ _ Hb Hb') as [? _].
           contradiction.
        -- intros (pre & line & post & Heq & Hbind & Hpost).
           destruct (Hsnoc _ _ _ Heq) as [(-> & -> & ->)|(post' & -> & ->)].
           { destruct (binds_inj _ _ _ _ _ Hb Hbind) as [? _]. contradiction. }
           exists pre, line, post'. split; [reflexivity|]. split; [exact Hbind|].
           apply Forall_app in Hpost as [Hpost _]. exact Hpost.
Qed.

Lemma lstrip_head (s : str) (c : N) :
  head (lstrip s) = Some c -> is_space c = false.
Proof.
  induction s as [|x s IH]; [discriminate|].
  cbn [lstrip]. destruct (is_space x) eqn:Hx; [exact IH|].
  intros [= <-]. exact Hx.
Qed.

Lemma lstrip_is_suffix (s : str) : exists ws, s = ws ++ lstrip s.
Proof.
  induction s as [|x s [ws IH]]; [exists []; reflexivity|].
  cbn [lstrip]. destruct (is_space x); [|exists []; reflexivity].
  exists (x :: ws). cbn [app]. rewrite <- IH. reflexivity.
Qed.

Lemma last_rev_head (s : str) : last (rev s) = head s.
Proof. destruct s as [|x s]; [reflexivity|]. cbn [rev]. apply last_snoc. Qed.

Lemma rstrip_last (s : str) (c : N) :
  last (rstrip s) = Some c -> is_space c = false.
Proof. unfold rstrip. rewrite last_rev_head. apply lstrip_head. Qed.

Lemma rstrip_is_prefix (s : str) : exists ws, s = rstrip s ++ ws.
Proof.
  unfold rstrip. destruct (lstrip_is_suffix (rev s)) as [ws Hws].
  exists (rev ws). rewrite <- rev_app_distr, <- Hws, rev_involutive. reflexivity.
Qed.

Lemma strip_ends (s : str) :
  (forall c, head (strip s) = Some c -> is_space c = false) /\
  (forall c, last (strip s) = Some c -> is_space c = false).
Proof.
  unfold strip. split; [|apply rstrip_last].
  intros c Hc. apply (lstrip_head s).
  destruct (rstrip_is_prefix (lstrip s)) as [ws Hws]. rewrite Hws.
  destruct (rstrip (lstrip s)); [discriminate|exact Hc].
Qed.

(** X13: reading the configuration fails, with the ValueError of the
    unpacking, exactly when some line of the file is not blank and, once
    stripped, holds no colon followed by a space; in every other case it
    returns a dictionary. *)
Theorem read_config_fails_iff (raw : str) :
  read_config raw = inl ValueError <->
  exists line, In line (file_lines (universal_newlines raw)) /\ unparsable line.
Proof.
  unfold read_config. rewrite config_lines_fail. apply List.Exists_exists.
Qed.

(** X14: in the dictionary read from the configuration file a key has the
    value of the last line that gives it one: the line that, stripped, is
    the key, a colon, a space and the value, where the key is what stands
    before the first colon followed by a space. Earlier lines for the same
    key are overridden, and keys the program does not know are accepted. *)
Theorem read_config_last_line_wins (raw : str) (config : gmap str str)
    (key value : str) :
  read_config raw = inr config ->
  (config !! key = Some value <->
   exists pre line post,
     file_lines (universal_newlines raw) = pre ++ line :: post /\
     binds line key value /\
     Forall (fun later => forall v, ~ binds later key v) post).
Proof. apply config_lines_lookup. Qed.

(** X15: no entry of the dictionary has an empty value, a value that ends in
    white space, or a key that starts with white space: a line that ends
    after the colon, with or without spaces behind it, cannot be read (it is
    the ValueError of X13), so an empty value cannot be configured. *)
Theorem read_config_entries_are_stripped (raw : str) (config : gmap str str)
    (key value : str) :
  read_config raw = inr config ->
  config !! key = Some value ->
  value <> [] /\
  (forall c, last value = Some c -> is_space c = false) /\
  (forall c, head key = Some c -> is_space c = false).
Proof.
  intros Hr Hk.
  apply (config_lines_lookup _ _ _ _ Hr) in Hk
    as (pre & line & post & _ & [Hline _] & _).
  destruct (strip_ends line) as [Hhead Hlast]. rewrite Hline in Hhead, Hlast.
  assert (Hv : forall c, last value = Some c -> is_space c = false).
  { intros c Hc. apply Hlast. rewrite !last_app, Hc. reflexivity. }
  split; [|split; [exact Hv|]].
  - intros ->. specialize (Hlast 32%N). rewrite app_nil_r, last_app in Hlast.
    specialize (Hlast eq_refl). discriminate.
  - intros c Hc. apply Hhead. destruct key; [discriminate|exact Hc].
Qed.

(** ** The properties at work *)

Ltac on_failing_run thm :=
  try unfold failing_run; try unfold failing_run_shown;
  match goal with
  | |- exists f w', ?run = _ /\ _ =>
      let Hr := fresh "Hr" in
      let Hc := fresh "Hc" in
      assert (Hc : reported run = true) by (vm_compute; reflexivity);
      destruct run as [[f|] w'|e w'] eqn:Hr; try discriminate Hc;
      exists f, w'; split; [reflexivity|]; apply thm in Hr; [exact Hr|..]
  end.

Lemma main_total_gen_time_witness :
  exists f w',
    failing_run = Ok (Some f) w' /\
    exists tr t0 ts,
      log w' = log prompt_world ++ tr /\
      durations groq_numbered (generation_calls (log prompt_world)) tr = t0 :: ts /\
      length (t0 :: ts) = generation_calls tr /\
      total_gen_time f = fold_left Qplus ts t0.
Proof. on_failing_run main_total_gen_time. Defined.


Lemma main_feedback_chain_witness :
  exists f w',
    failing_run_shown = Ok (Some f) w' /\
    exists text tr,
      files prompt_world !! py "prompt.txt" = Some text /\
      log w' = log prompt_world ++ tr /\
      prompts tr !! 0%nat = Some (initial_prompt (universal_newlines text)) /\
      (forall (j : nat) (s : option str), scripts tr !! j = Some s ->
         exists p,
           prompts tr !! j = Some p /\
           s = Some (candidate_of (example_cfg 3 1000 (py "foo.py") true) fmt3_one
                       (groq_numbered (generation_calls (log prompt_world) + j) p))) /\
      (forall (j : nat) (p : str), prompts tr !! S j = Some p ->
         exists c rc out err,
           scripts tr !! j = Some (Some c) /\
           python_exit_1 (execution_calls (log prompt_world) + j) (Some c)
           = (rc, out, err) /\
           rc <> 0 /\ p = retry_prompt c (universal_newlines err)).
Proof. on_failing_run main_feedback_chain. reflexivity. Defined.

Lemma main_archive_copies_witness :
  exists f w',
    failing_run = Ok (Some f) w' /\
    exists tr,
      log w' = log prompt_world ++ tr /\
      copy_calls tr
      = map (fun j : nat =>
               (py "foo.py",
                base_name posix (example_cfg 3 1000 (py "foo.py") false)
                ++ str_of_int (Z.of_nat j) ++ py ".py"))
            (seq 1 (execution_calls tr - 1)).
Proof. on_failing_run main_archive_copies. Defined.

Lemma main_removes_scratch_file_witness :
  exists f w',
    failing_run = Ok (Some f) w' /\ files w' !! TEMP_RUNTIME_ERROR = None.
Proof. on_failing_run main_removes_scratch_file. reflexivity. Defined.

Lemma main_reports_last_generated_witness :
  exists f w',
    failing_run = Ok (Some f) w' /\
    exists tr p,
      log w' = log prompt_world ++ tr /\
      last (prompts tr) = Some p /\
      last_code f
      = candidate_of (example_cfg 3 1000 (py "foo.py") false) fmt3_one
          (groq_numbered
             (generation_calls (log prompt_world) + generation_calls tr - 1) p).
Proof. on_failing_run main_reports_last_generated. Defined.

Lemma archive_names_of_stem_witness :
  base_name posix (example_cfg 3 1000 (py "out.d/foo.txt") true) = py "out.d/foo" /\
  archive_filename posix (example_cfg 3 1000 (py "out.d/foo.txt") true) 2
  = py "out.d/foo" ++ str_of_int (2 - 1) ++ py ".py".
Proof.
  apply (archive_names_of_stem posix (example_cfg 3 1000 (py "out.d/foo.txt") true)
           (py "out.d/") (py "foo") (py "txt") 2).
  - reflexivity.
  - intros c [<-|[]] H. vm_compute in H. intuition discriminate.
  - intros H. vm_compute in H. intuition discriminate.
  - reflexivity.
Defined.

Lemma read_config_last_line_wins_witness :
  exists config,
    read_config config_text = inr config /\
    (config !! py "model" = Some (py "b: c") <->
     exists pre line post,
       file_lines (universal_newlines config_text) = pre ++ line :: post /\
       binds line (py "model") (py "b: c") /\
       Forall (fun later => forall v, ~ binds later (py "model") v) post).
Proof.
  destruct (read_config config_text) as [e|config] eqn:Hr.
  - exfalso. assert (Hc : match read_config config_text with
                          | inr _ => true
                          | inl _ => false
                          end = true) by (vm_compute; reflexivity).
    rewrite Hr in Hc. discriminate Hc.
  - exists config. split; [reflexivity|].
    apply read_config_last_line_wins, Hr.
Defined.

Lemma read_config_entries_are_stripped_witness :
  exists config,
    read_config config_text = inr config /\
    config !! py "max_time" = Some (py "10") /\
    py "10" <> [] /\
    (forall c, last (py "10") = Some c -> is_space c = false) /\
    (forall c, head (py "max_time") = Some c -> is_space c = false).
Proof.
  destruct (read_config config_text) as [e|config] eqn:Hr.
  - exfalso. assert (Hc : match read_config config_text with
                          | inr _ => true
                          | inl _ => false
                          end = true) by (vm_compute; reflexivity).
    rewrite Hr in Hc. discriminate Hc.
  - exists config. split; [reflexivity|].
    assert (Hk : config !! py "max_time" = Some (py "10")).
    { assert (Hc : match read_config config_text with
                   | inr c => c !! py "max_time"
                   | inl _ => None
                   end = Some (py "10")) by (vm_compute; reflexivity).
      rewrite Hr in Hc. exact Hc. }
    split; [exact Hk|].
    exact (read_config_entries_are_stripped _ _ _ _ Hr Hk).
Defined.
